(** * Web traffic generator: a shallow embedding of the Python sources

    The development follows the three programs of the repository:
    - [enhanced_web_traffic_simulator.py] (class [AdvancedWebTrafficSimulator]),
    - [websitetraffic.py] (class [WebTrafficGenerator]),
    - [browse_sim.py] (its helpers, the port scan and the browsing of a
      site).

    Python floats and wall-clock readings are rationals ([Q]); Python
    integers are [Z].  A run of the program is a state transformer on a
    [World] holding the statistics dictionary, the chronological list of
    observable effects (transport calls, sleeps, log records) and the
    clock.  Everything the program draws from its environment (random
    numbers, network replies, signals, the time a batch takes) is an
    explicit argument, so that every function below is executable.

    Exceptions are outcomes of statements, with [try], [except] and
    [finally] as combinators.  The sessions of a batch run one after the
    other in the order of submission; the thread pool that runs them in
    the program is described on its own, as a transition system, in
    [Executor]. *)

From Stdlib Require Import ZArith QArith Qround Qminmax Qabs.
From Stdlib Require Import List String Ascii Bool Lia Lqa Permutation RelationClasses.
From Stdlib Require DecimalString DecimalN DecimalPos.
Import ListNotations.

Open Scope string_scope.
Open Scope Z_scope.

Set Implicit Arguments.

(** ** Python values, exceptions and the world *)

(** The values stored in the statistics dictionaries. *)
Inductive PyVal : Type :=
| PyInt (n : Z)
| PyFloat (x : Q)
| PyStr (s : string)
| PyDatetime (t : Q).

(** The exceptions that occur in the modelled code. [KeyboardInterrupt]
    derives from [BaseException] only; the others derive from [Exception]. *)
Inductive PyExc : Type :=
| KeyboardInterrupt
| RequestException
| IndexError
| ValueError
| TypeError
| ZeroDivisionError.

Definition is_Exception (e : PyExc) : bool :=
  match e with
  | KeyboardInterrupt => false
  | _ => true
  end.

(** [self.session_stats]: a dictionary whose six keys are fixed by
    [__init__]; the code only ever reads them and adds one to them. *)
Record Stats : Type := mkStats {
  total_requests : Z;
  successful_requests : Z;
  failed_requests : Z;
  security_events : Z;
  compromise_activities : Z;
  start_time : Q
}.

(** Payload dictionaries built by [simulate_compromised_behavior]. *)
Inductive Payload : Type :=
| C2Payload (id : string) (timestamp : Z) (command : string) (data : string)
| CredentialPayload (username password action : string)
| ExfiltrationPayload (stolen_files : list string) (size_mb : Z) (compression : string).

(** The text of a flat JSON object, as its syntax tree. *)
Inductive JsonValue : Type :=
| JInt (n : Z)
| JFloat (x : Q)
| JStr (s : string).

Definition Json : Type := list (string * JsonValue).

(** Free-text lines written with [logger.info] and [logger.error]. *)
Inductive Message : Type :=
| StartingGeneration (duration_minutes : Z)
| TargetRate (requests_per_minute : Z)
| MinuteCompleted (normal compromised malicious : Z)
| CompletedMinute (request_count : Z)
| InterruptedByUser
| UnexpectedError (e : PyExc)
| ThreadExecutionError (e : PyExc)
| ErrorRequesting (url : string)
| ErrorInSession (website : string) (e : PyExc)
| ResponseLine (status_code : Z) (method url : string)
| GenerationCompleted (request_count : Z)
| SessionCompleted (stats : Json).

(** What the outside world can observe, in the order it happens. *)
Inductive Effect : Type :=
| Transport (method url : string)          (* session.request *)
| Sleep (seconds : Q)                      (* time.sleep *)
| DnsLog (domain query_type : string)      (* log_dns_query *)
| TrafficLog (method url : string) (status_code : Z) (simulation_type : string)
| SecurityLog (event_type severity : string) (indicators : list (string * string))
| CompromiseLog (activity_type target : string) (payload : Payload) (success : bool)
| StatisticsLog (stats : Json)             (* log_statistics *)
| Info (m : Message)
| Error (m : Message).

Record World : Type := mkWorld {
  session_stats : Stats;
  request_count : Z;     (* the local counter of [generate_traffic] *)
  trace : list Effect;
  clock : Q
}.

(** ** The monad of Python statements

    A statement runs in a world and either returns a value or raises; the
    world it leaves behind is kept in both cases.  [OutOfFuel] is not a
    Python outcome: it marks a loop of the model that was cut short. *)

Inductive Completion (A : Type) : Type :=
| Returns (a : A)
| Raises (e : PyExc)
| OutOfFuel.

Arguments Returns {A} a.
Arguments Raises {A} e.
Arguments OutOfFuel {A}.

Definition Py (A : Type) : Type := World -> Completion A * World.

Definition ret {A} (a : A) : Py A := fun w => (Returns a, w).

Definition bind {A B} (c : Py A) (k : A -> Py B) : Py B :=
  fun w =>
    match c w with
    | (Returns a, w') => k a w'
    | (Raises e, w') => (Raises e, w')
    | (OutOfFuel, w') => (OutOfFuel, w')
    end.

Definition raise {A} (e : PyExc) : Py A := fun w => (Raises e, w).

Declare Scope py_scope.
Delimit Scope py_scope with py.
Notation "x <- c ;; k" := (bind c (fun x => k))
  (at level 61, c at next level, right associativity) : py_scope.
Notation "c ;; k" := (bind c (fun _ => k))
  (at level 61, right associativity) : py_scope.
Open Scope py_scope.

(** [try: body except <class> ...]: the handler table answers [None] for
    an exception no clause matches. *)
Definition try_except {A} (body : Py A) (handler : PyExc -> option (Py A)) : Py A :=
  fun w =>
    match body w with
    | (Raises e, w') =>
        match handler e with
        | Some h => h w'
        | None => (Raises e, w')
        end
    | r => r
    end.

(** [try: body finally: final]: an exception of [final] replaces the
    outcome of [body]. *)
Definition try_finally {A} (body : Py A) (final : Py unit) : Py A :=
  fun w =>
    match body w with
    | (OutOfFuel, w') => (OutOfFuel, w')
    | (r, w') =>
        match final w' with
        | (Returns _, w'') => (r, w'')
        | (Raises e, w'') => (Raises e, w'')
        | (OutOfFuel, w'') => (OutOfFuel, w'')
        end
    end.

Definition emit (e : Effect) : Py unit :=
  fun w =>
    (Returns tt, mkWorld (session_stats w) (request_count w) (trace w ++ [e]) (clock w)).

Definition update_stats (f : Stats -> Stats) : Py unit :=
  fun w =>
    (Returns tt, mkWorld (f (session_stats w)) (request_count w) (trace w) (clock w)).

(** [time.time()] *)
Definition time_time : Py Q := fun w => (Returns (clock w), w).

(** [time.sleep(seconds)]: a negative argument is a [ValueError]. *)
Definition time_sleep (seconds : Q) : Py unit :=
  fun w =>
    if Qlt_le_dec seconds 0 then (Raises ValueError, w)
    else (Returns tt,
          mkWorld (session_stats w) (request_count w) (trace w ++ [Sleep seconds])
                  (clock w + seconds)).

(** [random.choice(seq)] with the drawn number [pick]: an empty sequence
    is an [IndexError]. *)
Definition random_choice {A} (pick : nat) (seq : list A) : Py A :=
  match seq with
  | [] => raise IndexError
  | x :: _ => ret (nth (pick mod List.length seq) seq x)
  end.

(** The float literals 0.3 and 0.7 that the sources compare
    [random.random()] with, as the doubles they denote: the draw is a
    double as well, and the comparison of two doubles is exact. *)
Definition float_0_3 : Q := 5404319552844595 # 18014398509481984.
Definition float_0_7 : Q := 3152519739159347 # 4503599627370496.

(** [int(x)] on a float: truncation towards zero. *)
Definition py_int (x : Q) : Z := Z.quot (Qnum x) (Zpos (Qden x)).

(** [range(n)] as the number of iterations of [for _ in range(n)]. *)
Definition range_len (n : Z) : nat := Z.to_nat n.

(** ** The transport *)

(** [requests.Response]: only the status code is looked at. *)
Record Response : Type := mkResponse { status_code : Z }.

(** [Response.__bool__] is [Response.ok]: false exactly for the client
    and server error codes. *)
Definition Response_ok (r : Response) : bool :=
  negb ((400 <=? status_code r) && (status_code r <? 600)).

(** [if not response] on the result of [make_request]. *)
Definition falsy (r : option Response) : bool :=
  match r with
  | None => true
  | Some r => negb (Response_ok r)
  end.

(** What the network does with one request. *)
Inductive Answer : Type :=
| Answers (r : Response)
| Fails.

(** What one request draws from its environment: the random numbers
    behind its headers and what the network does with it. *)
Record Reply : Type := mkReply {
  agent_roll : Q;         (* [random.random()] of [get_random_user_agent] *)
  agent_pick : nat;       (* draw of [random.choice] for the user agent *)
  referer_roll : Q;       (* [random.random()] for the Referer header *)
  referer_pick : nat;     (* draw of [random.choice(self.websites)] *)
  resolves : bool;        (* does [socket.gethostbyname] succeed *)
  answer : Answer
}.

(** [self.session.request(...)]: the call goes out, then either a
    response comes back or a [RequestException] is raised. *)
Definition session_request (method url : string) (a : Answer) : Py Response :=
  emit (Transport method url) ;;
  match a with
  | Answers r => ret r
  | Fails => raise RequestException
  end.

(** ** Counters *)

Definition incr_total (s : Stats) : Stats :=
  mkStats (total_requests s + 1) (successful_requests s) (failed_requests s)
          (security_events s) (compromise_activities s) (start_time s).
Definition incr_successful (s : Stats) : Stats :=
  mkStats (total_requests s) (successful_requests s + 1) (failed_requests s)
          (security_events s) (compromise_activities s) (start_time s).
Definition incr_failed (s : Stats) : Stats :=
  mkStats (total_requests s) (successful_requests s) (failed_requests s + 1)
          (security_events s) (compromise_activities s) (start_time s).
Definition incr_security (s : Stats) : Stats :=
  mkStats (total_requests s) (successful_requests s) (failed_requests s)
          (security_events s + 1) (compromise_activities s) (start_time s).
Definition incr_compromise (s : Stats) : Stats :=
  mkStats (total_requests s) (successful_requests s) (failed_requests s)
          (security_events s) (compromise_activities s + 1) (start_time s).

(** The state of a simulator right after [__init__] at time [now]. *)
Definition initial_world (now : Q) : World :=
  mkWorld (mkStats 0 0 0 0 0 now) 0 [] now.

(** ** Lists updated in place, and [random.shuffle] *)

(** [x[i] = v] for an index in range. *)
Fixpoint list_set {A} (x : list A) (i : nat) (v : A) : list A :=
  match x, i with
  | [], _ => []
  | _ :: x', O => v :: x'
  | a :: x', S i' => a :: list_set x' i' v
  end.

(** [x[i], x[j] = x[j], x[i]] *)
Definition swap {A} (i j : nat) (x : list A) : list A :=
  match nth_error x i, nth_error x j with
  | Some a, Some b => list_set (list_set x i b) j a
  | _, _ => x
  end.

(** The loop of [random.shuffle]:
    [for i in reversed(range(1, len(x))): j = randbelow(i + 1); swap].
    [draw i] is the number drawn at position [i]. *)
Fixpoint shuffle_from {A} (i : nat) (draw : nat -> nat) (x : list A) : list A :=
  match i with
  | O => x
  | S i' => shuffle_from i' draw (swap i (draw i mod (i + 1)) x)
  end.

Definition random_shuffle {A} (draw : nat -> nat) (x : list A) : list A :=
  shuffle_from (List.length x - 1) draw x.

(** ** [json.dumps] and [round] *)

(** [json.dumps] with the default encoder: integers, floats and strings
    are written out, a [datetime] is a [TypeError]. *)
Fixpoint json_dumps (items : list (string * PyVal)) : Py Json :=
  match items with
  | [] => ret []
  | (k, v) :: rest =>
      j <- match v with
           | PyInt n => ret (JInt n)
           | PyFloat x => ret (JFloat x)
           | PyStr s => ret (JStr s)
           | PyDatetime _ => raise TypeError
           end ;;
      js <- json_dumps rest ;;
      ret ((k, j) :: js)
  end.

(** Rounding to the nearest integer, ties to even. *)
Definition round_half_even (x : Q) : Z :=
  let f := Qfloor x in
  match (x - inject_Z f ?= 1 # 2)%Q with
  | Lt => f
  | Gt => f + 1
  | Eq => if Z.even f then f else f + 1
  end.

(** [round(x, 2)] *)
Definition py_round2 (x : Q) : Q := (inject_Z (round_half_even (x * 100)) / 100)%Q.

(** ** The end of a scheduling window *)

(** When Ctrl-C reaches the main thread within a window. *)
Inductive Phase : Type :=
| WhileDraining (collected : nat)
    (* inside the [with] block, after [collected] passes of the loop
       over [as_completed] *)
| WhileSleeping.
    (* during the sleep that ends the window *)

(** [elapsed = time.time() - minute_start]
    [if elapsed < 60: time.sleep(60 - elapsed)].
    A signal that arrives during the sleep cuts it short. *)
Definition wait_rest_of_minute (minute_start : Q) (interrupt : option Phase) : Py unit :=
  now <- time_time ;;
  let elapsed := (now - minute_start)%Q in
  if Qlt_le_dec elapsed 60 then
    match interrupt with
    | Some WhileSleeping => raise KeyboardInterrupt
    | _ => time_sleep (60 - elapsed)
    end
  else ret tt.

(** The clauses [except KeyboardInterrupt] and [except Exception] that
    close the loop of both schedulers. *)
Definition interrupt_handlers (e : PyExc) : option (Py unit) :=
  match e with
  | KeyboardInterrupt => Some (emit (Info InterruptedByUser))
  | _ => if is_Exception e then Some (emit (Error (UnexpectedError e))) else None
  end.

(** [ThreadPoolExecutor(max_workers=...)]: the constructor rejects a
    number of workers that is not positive. *)
Definition ThreadPoolExecutor (workers : Z) : Py unit :=
  if workers <=? 0 then raise ValueError else ret tt.

(** The batch runs inside the pool: whatever the workers do, the main
    thread gets control back [pool_seconds] after it entered the pool. *)
Definition drain {A} (pool_seconds : Q) (batch : Py A) : Py A :=
  fun w =>
    match batch w with
    | (r, w') =>
        (r, mkWorld (session_stats w') (request_count w') (trace w')
                    (clock w + pool_seconds))
    end.

(** Library functions on URLs, and the lists of the source (the sites
    and the entry "user_agents" of [self.config]), which the development
    takes as given. *)
Record Platform : Type := mkPlatform {
  urlparse_hostname : string -> option string;
  urljoin : string -> string -> string;
  quote : string -> string;
  isoformat : Q -> string;
  websites : list string;
  malicious_domains : list string;
  user_agents : list string
}.

(** [self.config], the entries the scheduler reads. *)
Record Config : Type := mkConfig {
  max_workers : Z;
  simulate_compromised_host : bool;
  security_simulation_enabled : bool
}.

(** * [AdvancedWebTrafficSimulator] *)

Module AdvancedWebTrafficSimulator.

Section Simulator.

Context (lib : Platform) (config : Config).

Definition simulate_dns_lookup (domain : string) (resolved : bool) : Py unit :=
  emit (DnsLog domain (if resolved then "A" else "A_FAILED")).

Definition log_traffic (method url : string) (status : Z) (simulation_type : string)
  : Py unit :=
  emit (TrafficLog method url status simulation_type).

Definition log_security_event (event_type severity : string)
  (indicators : list (string * string)) : Py unit :=
  emit (SecurityLog event_type severity indicators).

Definition log_compromise_activity (activity_type target : string)
  (payload : Payload) (success : bool) : Py unit :=
  emit (CompromiseLog activity_type target payload success).

(** [seq[-3:]] *)
Definition last_three {A} (seq : list A) : list A :=
  skipn (List.length seq - 3) seq.

(** [get_random_user_agent(compromised)] *)
Definition get_random_user_agent (compromised : bool) (net : Reply) : Py string :=
  if compromised && (if Qlt_le_dec (agent_roll net) float_0_3 then true else false)
  then random_choice (agent_pick net) (last_three (user_agents lib))
  else random_choice (agent_pick net) (user_agents lib).

(** The first statements of [make_request]: the user agent and the
    Referer header are drawn before anything is sent. *)
Definition request_headers (simulation_type : string) (net : Reply)
  : Py (string * option string) :=
  user_agent <-
    get_random_user_agent (simulation_type =? "compromised")%string net ;;
  referer <-
    (if Qlt_le_dec (referer_roll net) float_0_7
     then
       site <- random_choice (referer_pick net) (websites lib) ;;
       ret (Some site)
     else ret None) ;;
  ret (user_agent, referer).

(** The rest of [make_request]: the DNS lookup and the request itself.
    The headers do not show in what the world records of a request. *)
Definition send_request (url method simulation_type : string) (net : Reply)
  : Py (option Response) :=
  match urlparse_hostname lib url with
  | Some host =>
      if (host =? "")%string then ret tt else simulate_dns_lookup host (resolves net)
  | None => ret tt
  end ;;
  try_except
    (response <- session_request method url (answer net) ;;
     update_stats incr_total ;;
     (if status_code response <? 400
      then update_stats incr_successful
      else update_stats incr_failed) ;;
     log_traffic method url (status_code response) simulation_type ;;
     (if (simulation_type =? "malicious")%string
      then
        log_security_event "malicious_request" "high"
          [("url", url); ("method", method)] ;;
        update_stats incr_security
      else ret tt) ;;
     ret (Some response))
    (fun e =>
       match e with
       | RequestException =>
           Some (update_stats incr_failed ;;
                 emit (Error (ErrorRequesting url)) ;;
                 ret None)
       | _ => None
       end).

(** [make_request(url, method, simulation_type)] *)
Definition make_request (url method simulation_type : string) (net : Reply)
  : Py (option Response) :=
  request_headers simulation_type net ;;
  send_request url method simulation_type net.

(** *** The behaviour tables *)

Record Behavior : Type := mkBehavior {
  targets : list string;
  methods : list string;
  indicators : list string
}.

Definition c2_domains : list string :=
  ["c2.evil.com"; "command.malicious.net"; "control.bad.org";
   "backdoor.example.com"; "rat.controller.net"; "beacon.attacker.org"].

Definition compromise_behaviors : list (string * Behavior) :=
  [("credential_theft",
    mkBehavior ["login"; "signin"; "auth"; "password"] ["POST"; "PUT"]
               ["password"; "username"; "email"; "login"]);
   ("data_exfiltration",
    mkBehavior ["upload"; "transfer"; "sync"; "backup"] ["POST"; "PUT"]
               ["file"; "data"; "document"; "export"]);
   ("lateral_movement",
    mkBehavior ["admin"; "internal"; "management"; "control"] ["GET"; "POST"]
               ["scan"; "enumerate"; "discover"]);
   ("persistence",
    mkBehavior ["config"; "settings"; "startup"; "service"] ["POST"; "PUT"; "PATCH"]
               ["install"; "register"; "create"]);
   ("c2_communication",
    mkBehavior c2_domains ["GET"; "POST"] ["beacon"; "heartbeat"; "check-in"])].

Record AttackPattern : Type := mkAttackPattern {
  payloads : list string;
  attack_targets : list string
}.

Definition attack_patterns : list (string * AttackPattern) :=
  [("sql_injection",
    mkAttackPattern ["' OR 1=1--"; "'; DROP TABLE users;--"; "admin'--"]
                    ["search"; "login"; "id"; "query"]);
   ("xss",
    mkAttackPattern ["<script>alert('XSS')</script>"; "<img src=x onerror=alert(1)>"]
                    ["comment"; "search"; "input"; "name"]);
   ("directory_traversal",
    mkAttackPattern ["../../../etc/passwd"; "..\..\..\windows\system32\"]
                    ["file"; "path"; "dir"; "include"]);
   ("command_injection",
    mkAttackPattern ["; cat /etc/passwd"; "| whoami"; "&& dir"]
                    ["cmd"; "exec"; "system"; "shell"])].

(** [d[key]] / [key in d] on a dictionary given by its items. *)
Fixpoint dict_get {V} (d : list (string * V)) (key : string) : option V :=
  match d with
  | [] => None
  | (k, v) :: d' => if (k =? key)%string then Some v else dict_get d' key
  end.

(** *** Compromised-host behaviour *)

(** The numbers drawn inside [simulate_compromised_behavior]. *)
Record BehaviorDraws : Type := mkBehaviorDraws {
  target_pick : nat;
  method_pick : nat;
  command_pick : nat;
  uuid4 : string;
  urandom64 : string;     (* base64 of [os.urandom(64)] *)
  size_pick : nat         (* for [random.randint(1, 100)] *)
}.

Definition simulate_compromised_behavior (behavior_type : string) (d : BehaviorDraws)
  : Py unit :=
  match dict_get compromise_behaviors behavior_type with
  | None => ret tt
  | Some behavior =>
      if (behavior_type =? "c2_communication")%string then
        c2_domain <- random_choice (target_pick d) (targets behavior) ;;
        method <- random_choice (method_pick d) (methods behavior) ;;
        now <- time_time ;;
        command <- random_choice (command_pick d) ["heartbeat"; "get_tasks"; "send_data"] ;;
        let payload := C2Payload (uuid4 d) (py_int now) command (urandom64 d) in
        let url := "http://" ++ c2_domain ++ "/api/client" in
        log_compromise_activity behavior_type c2_domain payload false ;;
        (* Don't actually make the request to avoid real C2 communication *)
        update_stats incr_compromise
      else if (behavior_type =? "credential_theft")%string then
        target_site <- random_choice (target_pick d) (websites lib) ;;
        let payload := CredentialPayload "admin" "password123" "harvest_credentials" in
        log_compromise_activity behavior_type target_site payload false ;;
        update_stats incr_compromise
      else if (behavior_type =? "data_exfiltration")%string then
        let external_site := "http://attacker-controlled.com" in
        let payload :=
          ExfiltrationPayload ["documents.zip"; "database.sql"; "credentials.txt"]
                              (1 + Z.of_nat (size_pick d mod 100)) "encrypted" in
        log_compromise_activity behavior_type external_site payload false ;;
        update_stats incr_compromise
      else ret tt
  end.

(** *** Sessions *)

(** The draws of one pass through the interaction loop. *)
Record Interaction : Type := mkInteraction {
  type_pick : nat;
  item_pick : nat;
  interaction_reply : Reply;
  interaction_delay : Q       (* [random.uniform(0.5, 3.0)] *)
}.

(** Everything one work item draws from its environment.  The list
    [interactions] has one entry per pass of the loop: its length is the
    value of [random.randint(1, 5)]. *)
Record SessionScript : Type := mkSessionScript {
  nav_reply : Reply;
  reading_delay : Q;          (* [random.uniform(2.0, 15.0)] *)
  interactions : list Interaction;
  compromise_roll : Q;        (* [random.random()] *)
  behavior_pick : nat;
  behavior_draws : BehaviorDraws;
  site_pick : nat;
  attack_pick : nat;
  payload_pick : nat;
  attack_target_pick : nat;
  attack_reply : Reply
}.

Definition interaction_types : list string :=
  ["subpage"; "search"; "form_submit"; "image_load"; "css_load"; "js_load";
   "ajax_request"].

Definition subpaths : list string :=
  ["/about"; "/contact"; "/help"; "/privacy"; "/terms"; "/products"; "/services";
   "/blog"; "/news"].

Definition search_terms : list string :=
  ["news"; "products"; "services"; "help"; "contact"].

(** One pass of [for _ in range(interactions)]. *)
Definition interact (website session_type : string) (i : Interaction) : Py unit :=
  interaction_type <- random_choice (type_pick i) interaction_types ;;
  (if (interaction_type =? "subpage")%string then
     subpath <- random_choice (item_pick i) subpaths ;;
     let suburl := urljoin lib website subpath in
     make_request suburl "GET" session_type (interaction_reply i) ;;
     ret tt
   else if (interaction_type =? "search")%string then
     search_query <- random_choice (item_pick i) search_terms ;;
     let search_url := website ++ "/search?q=" ++ quote lib search_query in
     make_request search_url "GET" session_type (interaction_reply i) ;;
     ret tt
   else if (interaction_type =? "form_submit")%string then
     make_request website "POST" session_type (interaction_reply i) ;;
     ret tt
   else ret tt) ;;
  time_sleep (interaction_delay i).

Fixpoint interact_all (website session_type : string) (l : list Interaction) : Py unit :=
  match l with
  | [] => ret tt
  | i :: l' => interact website session_type i ;; interact_all website session_type l'
  end.

Definition simulate_human_browsing_session (website session_type : string)
  (s : SessionScript) : Py unit :=
  try_except
    (response <- make_request website "GET" session_type (nav_reply s) ;;
     if falsy response then ret tt
     else
       time_sleep (reading_delay s) ;;
       interact_all website session_type (interactions s) ;;
       if (session_type =? "compromised")%string
          && (if Qlt_le_dec (compromise_roll s) float_0_3 then true else false)
       then
         compromise_behavior <-
           random_choice (behavior_pick s) (map fst compromise_behaviors) ;;
         simulate_compromised_behavior compromise_behavior (behavior_draws s)
       else ret tt)
    (fun e =>
       if is_Exception e then Some (emit (Error (ErrorInSession website e)))
       else None).

Definition generate_malicious_payload (attack_type : string) (s : SessionScript)
  : Py (option string * option string) :=
  match dict_get attack_patterns attack_type with
  | Some pattern =>
      payload <- random_choice (payload_pick s) (payloads pattern) ;;
      target <- random_choice (attack_target_pick s) (attack_targets pattern) ;;
      ret (Some payload, Some target)
  | None => ret (None, None)
  end.

(** Truth value of an optional string. *)
Definition truthy (s : option string) : bool :=
  match s with
  | Some s => negb (s =? "")%string
  | None => false
  end.

Definition simulate_malicious_traffic (s : SessionScript) : Py unit :=
  malicious_site <- random_choice (site_pick s) (malicious_domains lib) ;;
  attack_type <- random_choice (attack_pick s) (map fst attack_patterns) ;;
  pt <- generate_malicious_payload attack_type s ;;
  match pt with
  | (Some payload, Some target) =>
      if truthy (Some payload) && truthy (Some target) then
        let malicious_url :=
          malicious_site ++ "/" ++ target ++ "?payload=" ++ quote lib payload in
        log_security_event attack_type "high"
          [("target", target); ("payload", payload); ("url", malicious_url)] ;;
        make_request malicious_url "GET" "malicious" (attack_reply s) ;;
        ret tt
      else ret tt
  | _ => ret tt
  end.

(** *** The scheduler *)

(** The shares of the three kinds of traffic within a minute. *)
Record Composition : Type := mkComposition {
  normal_share : Q;
  compromised_share : Q;
  malicious_share : Q
}.

(** The literals of [generate_advanced_traffic]: 0.8, 0.15 and 0.05.
    For these three the float product [requests_per_minute * share]
    truncates to the same integer as the exact product. *)
Definition traffic_composition : Composition :=
  mkComposition (8 # 10) (15 # 100) (5 # 100).

(** A queued request: its type and, unless malicious, its website. *)
Definition WorkItem : Type := (string * option string)%type.

(** What the environment decides within one window. *)
Record Window : Type := mkWindow {
  website_pick : nat -> nat;              (* draws of [random.choice(self.websites)] *)
  shuffle_pick : nat -> nat;              (* draws of [random.shuffle] *)
  session_script : nat -> SessionScript;  (* by position in the shuffled batch *)
  pool_seconds : Q;
  interrupt : option Phase
}.

(** [for _ in range(n): website = random.choice(self.websites);
     all_requests.append((request_type, website))] *)
Fixpoint append_sessions (request_type : string) (n : nat) (pick : nat -> nat)
  (from : nat) (all_requests : list WorkItem) : Py (list WorkItem) :=
  match n with
  | O => ret all_requests
  | S n' =>
      website <- random_choice (pick from) (websites lib) ;;
      append_sessions request_type n' pick (S from)
                      (all_requests ++ [(request_type, Some website)])
  end.

(** The request counts of a minute and the list built from them, before
    it is shuffled.  The shares are an argument so that the step can be
    read for any mix; the program calls it with [traffic_composition]. *)
Definition compose_requests (mix : Composition) (requests_per_minute : Z) (win : Window)
  : Py (list WorkItem) :=
  let normal_requests := py_int (inject_Z requests_per_minute * normal_share mix) in
  let compromised_requests :=
    py_int (inject_Z requests_per_minute * compromised_share mix) in
  let malicious_requests := py_int (inject_Z requests_per_minute * malicious_share mix) in
  let all_requests := [] in
  all_requests <-
    append_sessions "normal" (range_len normal_requests) (website_pick win) 0
                    all_requests ;;
  all_requests <-
    (if simulate_compromised_host config then
       append_sessions "compromised" (range_len compromised_requests) (website_pick win)
                       (range_len normal_requests) all_requests
     else ret all_requests) ;;
  let all_requests :=
    if security_simulation_enabled config then
      (all_requests ++ repeat ("malicious", None) (range_len malicious_requests))%list
    else all_requests in
  ret all_requests.

(** The function a work item is submitted with.  An item that is not
    malicious always carries its website. *)
Definition run_item (item : WorkItem) (s : SessionScript) : Py unit :=
  let (request_type, website) := item in
  if (request_type =? "malicious")%string then simulate_malicious_traffic s
  else
    match website with
    | Some website => simulate_human_browsing_session website request_type s
    | None => raise TypeError
    end.

(** The futures of a batch: each item runs to its end; an exception it
    leaves is raised again by [future.result()] and logged there.  The
    items run one after the other, in the order of submission. *)
Fixpoint run_batch (items : list WorkItem) (script : nat -> SessionScript) (k : nat)
  : Py unit :=
  match items with
  | [] => ret tt
  | item :: rest =>
      try_except (run_item item (script k))
        (fun e =>
           if is_Exception e then Some (emit (Error (ThreadExecutionError e)))
           else None) ;;
      run_batch rest script (S k)
  end.

(** The futures still in the pool when Ctrl-C takes the main thread out
    of the loop over [as_completed]: the [with] block waits for them
    all the same, and what an item raises stays in its future. *)
Fixpoint run_uncollected (items : list WorkItem) (script : nat -> SessionScript)
  (k : nat) : Py unit :=
  match items with
  | [] => ret tt
  | item :: rest =>
      try_except (run_item item (script k)) (fun _ => Some (ret tt)) ;;
      run_uncollected rest script (S k)
  end.

(** The [with] block: the loop over [as_completed] takes the results of
    all futures, or of the first [collected] of them when Ctrl-C
    arrives there; the exception leaves the block once the pool has
    shut down. *)
Definition run_pool (all_requests : list WorkItem) (win : Window) : Py unit :=
  match interrupt win with
  | Some (WhileDraining collected) =>
      run_batch (firstn collected all_requests) (session_script win) 0 ;;
      run_uncollected (skipn collected all_requests) (session_script win) collected ;;
      raise KeyboardInterrupt
  | _ => run_batch all_requests (session_script win) 0
  end.

(** The body of [while time.time() < end_time], up to the end of the
    [with] block; the value is [minute_start]. *)
Definition dispatch_minute (mix : Composition) (requests_per_minute : Z) (win : Window)
  : Py Q :=
  minute_start <- time_time ;;
  all_requests <- compose_requests mix requests_per_minute win ;;
  let all_requests := random_shuffle (shuffle_pick win) all_requests in
  ThreadPoolExecutor (max_workers config) ;;
  drain (pool_seconds win) (run_pool all_requests win) ;;
  ret minute_start.

(** The whole body of the loop. *)
Definition run_minute (mix : Composition) (requests_per_minute : Z) (win : Window)
  : Py unit :=
  minute_start <- dispatch_minute mix requests_per_minute win ;;
  wait_rest_of_minute minute_start (interrupt win) ;;
  emit (Info (MinuteCompleted
                (py_int (inject_Z requests_per_minute * normal_share mix))
                (py_int (inject_Z requests_per_minute * compromised_share mix))
                (py_int (inject_Z requests_per_minute * malicious_share mix)))).

(** [while time.time() < end_time: ...], at most [fuel] windows of it;
    [i] is the number of the window. *)
Fixpoint scheduling_loop (fuel : nat) (requests_per_minute : Z) (end_time : Q)
  (windows : nat -> Window) (i : nat) : Py unit :=
  now <- time_time ;;
  if Qlt_le_dec now end_time then
    match fuel with
    | O => fun w => (OutOfFuel, w)
    | S fuel' =>
        run_minute traffic_composition requests_per_minute (windows i) ;;
        scheduling_loop fuel' requests_per_minute end_time windows (S i)
    end
  else ret tt.

(** The items of [self.session_stats], in the order of [__init__]. *)
Definition stats_items (s : Stats) : list (string * PyVal) :=
  [("total_requests", PyInt (total_requests s));
   ("successful_requests", PyInt (successful_requests s));
   ("failed_requests", PyInt (failed_requests s));
   ("security_events", PyInt (security_events s));
   ("compromise_activities", PyInt (compromise_activities s));
   ("start_time", PyDatetime (start_time s))].

Definition log_statistics (stats : list (string * PyVal)) : Py unit :=
  text <- json_dumps stats ;;
  emit (StatisticsLog text).

Definition log_final_statistics : Py unit :=
  fun w =>
    let stats := session_stats w in
    (end_time <- time_time ;;
     let total_time := ((end_time - start_time stats) / 60)%Q in
     requests_per_minute <-
       (if Qeq_bool total_time 0 then raise ZeroDivisionError
        else ret (py_round2 (inject_Z (total_requests stats) / total_time))) ;;
     let final_stats :=
       (stats_items stats ++
       [("end_time", PyStr (isoformat lib end_time));
        ("duration_minutes", PyFloat (py_round2 total_time));
        ("requests_per_minute", PyFloat requests_per_minute);
        ("success_rate",
         PyFloat (py_round2
                    (inject_Z (successful_requests stats)
                     / inject_Z (Z.max (total_requests stats) 1) * 100)))])%list in
     log_statistics final_stats ;;
     text <- json_dumps final_stats ;;
     emit (Info (SessionCompleted text))) w.

Definition generate_advanced_traffic (duration_minutes requests_per_minute : Z)
  (windows : nat -> Window) (fuel : nat) : Py unit :=
  emit (Info (StartingGeneration duration_minutes)) ;;
  emit (Info (TargetRate requests_per_minute)) ;;
  start <- time_time ;;
  let end_time := (start + inject_Z (duration_minutes * 60))%Q in
  try_finally
    (try_except
       (scheduling_loop fuel requests_per_minute end_time windows 0)
       interrupt_handlers)
    log_final_statistics.

End Simulator.

End AdvancedWebTrafficSimulator.

(** * [WebTrafficGenerator] *)

Module WebTrafficGenerator.

Section Generator.

Context (lib : Platform) (config : Config).

(** [get_random_user_agent()] *)
Definition get_random_user_agent (net : Reply) : Py string :=
  random_choice (agent_pick net) (user_agents lib).

(** The [try] statement of [make_request]. *)
Definition send_request (url method : string) (net : Reply) : Py (option Response) :=
  try_except
    (response <- session_request method url (answer net) ;;
     emit (Info (ResponseLine (status_code response) method url)) ;;
     ret (Some response))
    (fun e =>
       match e with
       | RequestException => Some (emit (Error (ErrorRequesting url)) ;; ret None)
       | _ => None
       end).

(** [make_request(url, method)]: the user agent is drawn when the
    dictionary of headers is built, before the [try]. *)
Definition make_request (url method : string) (net : Reply) : Py (option Response) :=
  get_random_user_agent net ;;
  send_request url method net.

(** The draws for one of the additional requests of a session;
    [path_pick] is the place in [additional_paths] of the path that
    [random.sample] returned. *)
Record Extra : Type := mkExtra {
  path_pick : nat;
  extra_reply : Reply;
  extra_delay : Q           (* [random.uniform(0.1, 0.5)] *)
}.

(** The draws of one session.  [extras] has one entry per path returned
    by [random.sample(additional_paths, random.randint(1, 3))]. *)
Record SessionScript : Type := mkSessionScript {
  nav_reply : Reply;
  delay : Q;                (* [random.uniform(request_delay_min, request_delay_max)] *)
  more_roll : Q;            (* [random.random()] *)
  extras : list Extra
}.

Definition additional_paths : list string :=
  ["/favicon.ico"; "/robots.txt"; "/sitemap.xml"].

Fixpoint fetch_all (website : string) (l : list Extra) : Py unit :=
  match l with
  | [] => ret tt
  | x :: l' =>
      let path := nth (path_pick x mod 3) additional_paths "/favicon.ico" in
      let full_url := urljoin lib website path in
      make_request full_url "GET" (extra_reply x) ;;
      time_sleep (extra_delay x) ;;
      fetch_all website l'
  end.

Definition simulate_browsing_session (website : string) (s : SessionScript) : Py unit :=
  try_except
    (response <- make_request website "GET" (nav_reply s) ;;
     if falsy response then ret tt
     else
       time_sleep (delay s) ;;
       if Qlt_le_dec (more_roll s) float_0_7 then fetch_all website (extras s)
       else ret tt)
    (fun e =>
       if is_Exception e then Some (emit (Error (ErrorInSession website e)))
       else None).

Record Window : Type := mkWindow {
  sample_pick : nat -> nat;               (* draws of [random.sample] *)
  session_script : nat -> SessionScript;
  pool_seconds : Q;
  interrupt : option Phase
}.

(** [random.sample(population, k)]: a negative [k] or one above the size
    of the population is a [ValueError]. *)
Definition random_sample {A} (population : list A) (k : Z) (pick : nat -> nat)
  : Py (list A) :=
  if (k <? 0) || (Z.of_nat (List.length population) <? k) then raise ValueError
  else
    match population with
    | [] => ret []
    | x :: _ =>
        ret (map (fun i => nth (pick i mod List.length population) population x)
                 (seq 0 (Z.to_nat k)))
    end.

Definition incr_request_count : Py unit :=
  fun w =>
    (Returns tt, mkWorld (session_stats w) (request_count w + 1) (trace w) (clock w)).

Definition reset_request_count : Py unit :=
  fun w => (Returns tt, mkWorld (session_stats w) 0 (trace w) (clock w)).

Definition get_request_count : Py Z := fun w => (Returns (request_count w), w).

(** [for future in as_completed(futures): try: future.result();
    request_count += 1 except Exception ...] *)
Fixpoint run_batch (selected_websites : list string) (script : nat -> SessionScript)
  (k : nat) : Py unit :=
  match selected_websites with
  | [] => ret tt
  | website :: rest =>
      try_except
        (simulate_browsing_session website (script k) ;; incr_request_count)
        (fun e =>
           if is_Exception e then Some (emit (Error (ThreadExecutionError e)))
           else None) ;;
      run_batch rest script (S k)
  end.

(** The futures still in the pool when Ctrl-C takes the main thread out
    of the loop over [as_completed]: the [with] block waits for them
    all the same, but they are not counted, and what a session raises
    stays in its future. *)
Fixpoint run_uncollected (selected_websites : list string)
  (script : nat -> SessionScript) (k : nat) : Py unit :=
  match selected_websites with
  | [] => ret tt
  | website :: rest =>
      try_except (simulate_browsing_session website (script k))
                 (fun _ => Some (ret tt)) ;;
      run_uncollected rest script (S k)
  end.

(** The [with] block: the loop over [as_completed] takes the results of
    all futures, and counts them, or the first [collected] of them when
    Ctrl-C arrives there; the exception leaves the block once the pool
    has shut down. *)
Definition run_pool (selected_websites : list string) (win : Window) : Py unit :=
  match interrupt win with
  | Some (WhileDraining collected) =>
      run_batch (firstn collected selected_websites) (session_script win) 0 ;;
      run_uncollected (skipn collected selected_websites) (session_script win)
                      collected ;;
      raise KeyboardInterrupt
  | _ => run_batch selected_websites (session_script win) 0
  end.

(** The body of the loop up to the end of the [with] block; the value
    is [minute_start]. *)
Definition dispatch_minute (requests_per_minute : Z) (win : Window) : Py Q :=
  minute_start <- time_time ;;
  selected_websites <-
    random_sample (websites lib)
                  (Z.min requests_per_minute (Z.of_nat (List.length (websites lib))))
                  (sample_pick win) ;;
  ThreadPoolExecutor (max_workers config) ;;
  drain (pool_seconds win) (run_pool selected_websites win) ;;
  ret minute_start.

Definition run_minute (requests_per_minute : Z) (win : Window) : Py unit :=
  minute_start <- dispatch_minute requests_per_minute win ;;
  wait_rest_of_minute minute_start (interrupt win) ;;
  n <- get_request_count ;;
  emit (Info (CompletedMinute n)).

Fixpoint scheduling_loop (fuel : nat) (requests_per_minute : Z) (end_time : Q)
  (windows : nat -> Window) (i : nat) : Py unit :=
  now <- time_time ;;
  if Qlt_le_dec now end_time then
    match fuel with
    | O => fun w => (OutOfFuel, w)
    | S fuel' =>
        run_minute requests_per_minute (windows i) ;;
        scheduling_loop fuel' requests_per_minute end_time windows (S i)
    end
  else ret tt.

Definition generate_traffic (duration_minutes requests_per_minute : Z)
  (windows : nat -> Window) (fuel : nat) : Py unit :=
  emit (Info (StartingGeneration duration_minutes)) ;;
  emit (Info (TargetRate requests_per_minute)) ;;
  start <- time_time ;;
  let end_time := (start + inject_Z (duration_minutes * 60))%Q in
  reset_request_count ;;
  try_finally
    (try_except
       (scheduling_loop fuel requests_per_minute end_time windows 0)
       interrupt_handlers)
    (n <- get_request_count ;; emit (Info (GenerationCompleted n))).

End Generator.

End WebTrafficGenerator.

(** * [test_connectivity]

    Both classes have the same method, up to the size of the sample and
    the [make_request] it calls.  Its two free-text lines
    ("Testing connectivity to sample websites..." and
    "Connectivity test: n/m sites accessible") are left out of the
    trace. *)

Module ConnectivityTest.

(** [if response and response.status_code == 200] *)
Definition accessible (response : option Response) : bool :=
  negb (falsy response)
  && match response with
     | Some r => status_code r =? 200
     | None => false
     end.

Section Probe.

Context (lib : Platform).

(** [for site in test_sites: response = self.make_request(...); if
    response and response.status_code == 200: successful += 1]; [k] is
    the place of the site in the sample. *)
Fixpoint probe_all (make_request : string -> Reply -> Py (option Response))
  (test_sites : list string) (replies : nat -> Reply) (k : nat) (successful : Z)
  : Py Z :=
  match test_sites with
  | [] => ret successful
  | site :: rest =>
      response <- make_request site (replies k) ;;
      let successful := if accessible response then successful + 1 else successful in
      probe_all make_request rest replies (S k) successful
  end.

(** [AdvancedWebTrafficSimulator.test_connectivity] *)
Definition advanced_test_connectivity (sample_pick : nat -> nat)
  (replies : nat -> Reply) : Py bool :=
  test_sites <-
    WebTrafficGenerator.random_sample (websites lib)
      (Z.min 15 (Z.of_nat (List.length (websites lib)))) sample_pick ;;
  successful <-
    probe_all (fun site => AdvancedWebTrafficSimulator.make_request lib site "GET" "test")
              test_sites replies 0 0 ;;
  ret (0 <? successful).

(** [WebTrafficGenerator.test_connectivity] *)
Definition basic_test_connectivity (sample_pick : nat -> nat)
  (replies : nat -> Reply) : Py bool :=
  test_sites <-
    WebTrafficGenerator.random_sample (websites lib)
      (Z.min 10 (Z.of_nat (List.length (websites lib)))) sample_pick ;;
  successful <-
    probe_all (fun site => WebTrafficGenerator.make_request lib site "GET")
              test_sites replies 0 0 ;;
  ret (0 <? successful).

End Probe.

End ConnectivityTest.

(** * [browse_sim.py] *)

Module BrowseSim.

(** [max(a, b)]: the second argument is returned only when it is
    greater than the first. *)
Definition py_max (a b : Q) : Q := if Qlt_le_dec a b then b else a.

(** [random.uniform(a, b)] is [a + (b - a) * random.random()]; [u] is the
    number [random.random()] returns. *)
Definition random_uniform (a b u : Q) : Q := (a + (b - a) * u)%Q.

Definition jitter (base variance u : Q) : Q :=
  py_max (1 # 10) (random_uniform (base * (1 - variance)) (base * (1 + variance)) u).

(** The default of the second parameter. *)
Definition default_variance : Q := 3 # 10.

(** ** Exceptions and outcomes of [browse_sim.py]

    Strings are sequences of code points below 256. *)

Inductive BrowseExc : Type :=
| ArgumentTypeError      (* argparse.ArgumentTypeError *)
| ValueError
| OverflowError
| IndexError
| UnboundLocalError
| Failure                (* any other exception of class [Exception] *)
| CancelledError.        (* asyncio.CancelledError, a [BaseException] *)

(** What [except Exception] catches. *)
Definition is_exception (e : BrowseExc) : bool :=
  match e with
  | CancelledError => false
  | _ => true
  end.

Inductive Outcome (A : Type) : Type :=
| Return (a : A)
| Raise (e : BrowseExc).

Arguments Return {A} a.
Arguments Raise {A} e.

(** ** [parse_duration] *)

(** [str.lower] on one character: the letters A to Z and the capital
    letters of Latin-1. *)
Definition lower_char (c : ascii) : ascii :=
  let n := nat_of_ascii c in
  if ((65 <=? n) && (n <=? 90) || (192 <=? n) && (n <=? 222) && negb (n =? 215))%nat
  then ascii_of_nat (n + 32)
  else c.

Fixpoint str_lower (s : string) : string :=
  match s with
  | EmptyString => EmptyString
  | String c s' => String (lower_char c) (str_lower s')
  end.

(** [\d] and [[smh]] *)
Definition is_digit (c : ascii) : bool :=
  let n := nat_of_ascii c in ((48 <=? n) && (n <=? 57))%nat.

Definition is_unit (c : ascii) : bool :=
  (c =? "s")%char || (c =? "m")%char || (c =? "h")%char.

Fixpoint all_digits (s : string) : bool :=
  match s with
  | EmptyString => true
  | String c s' => is_digit c && all_digits s'
  end.

(** A string without its last character, and that character. *)
Fixpoint split_last (s : string) : option (string * ascii) :=
  match s with
  | EmptyString => None
  | String c EmptyString => Some (EmptyString, c)
  | String c s' =>
      match split_last s' with
      | Some (front, last) => Some (String c front, last)
      | None => None
      end
  end.

(** [DURATION_PATTERN.fullmatch], the pattern being
    [^(?P<value>\d+)(?P<unit>[smh])$]: the groups [value] and [unit] of
    the match. *)
Definition fullmatch (s : string) : option (string * ascii) :=
  match split_last s with
  | Some (value, unit) =>
      if negb (value =? "")%string && all_digits value && is_unit unit
      then Some (value, unit)
      else None
  | None => None
  end.

(** [sys.get_int_max_str_digits()], as CPython 3.11 sets it. *)
Definition int_max_str_digits : nat := 4300.

(** [int(text)] on a string of decimal digits, as the pattern hands it
    over: the empty string, a character that is not a digit and a text
    of more than [int_max_str_digits] digits are a [ValueError]. *)
Definition int_of_str (text : string) : Outcome Z :=
  if (int_max_str_digits <? String.length text)%nat then Raise ValueError
  else if (text =? "")%string then Raise ValueError
  else
    match DecimalString.NilEmpty.uint_of_string text with
    | Some d => Return (Z.of_N (N.of_uint d))
    | None => Raise ValueError
    end.

(** [str(n)] on an integer that is not negative. *)
Definition str (n : Z) : string :=
  DecimalString.NilEmpty.string_of_uint (N.to_uint (Z.to_N n)).

(** The longest [timedelta], 999999999 days 23:59:59, in seconds. *)
Definition timedelta_max : Z := 86399999999999.

(** [timedelta(seconds=n)] for an integer that is not negative: the
    number of seconds it holds, or [OverflowError]. *)
Definition timedelta (seconds : Z) : Outcome Z :=
  if timedelta_max <? seconds then Raise OverflowError else Return seconds.

Definition parse_duration (dur : string) : Outcome Z :=
  match fullmatch (str_lower dur) with
  | None => Raise ArgumentTypeError
  | Some (value, unit) =>
      match int_of_str value with
      | Raise e => Raise e
      | Return value =>
          if (unit =? "s")%char then timedelta value
          else if (unit =? "m")%char then timedelta (value * 60)
          else if (unit =? "h")%char then timedelta (value * 3600)
          else Raise ValueError
      end
  end.

(** ** Actions and their log *)

Inductive Level : Type := INFO | WARNING.

(** What a run does, in the order it happens. *)
Inductive Event : Type :=
| Log (level : Level) (message : string) (extra : Json)
| NewPage                                  (* context.new_page() *)
| Goto (url : string)                      (* page.goto *)
| Evaluate                                 (* page.evaluate *)
| Wheel (delta_y : Z)                      (* page.mouse.wheel *)
| QuerySelectorAll                         (* page.query_selector_all("a") *)
| Click                                    (* link.click *)
| PageClose                                (* page.close() *)
| AsyncSleep (seconds : Q)                 (* asyncio.sleep *)
| SocketOpen                               (* socket.socket(...) *)
| Connect (ip : string) (port : Z)         (* conn.connect *)
| SocketClose.                             (* conn.close() *)

(** A statement: its outcome and what it did. *)
Definition Sim (A : Type) : Type := (Outcome A * list Event)%type.

Definition sim_ret {A} (a : A) : Sim A := (Return a, []).

Definition sim_raise {A} (e : BrowseExc) : Sim A := (Raise e, []).

Definition sim_bind {A B} (c : Sim A) (k : A -> Sim B) : Sim B :=
  match c with
  | (Return a, t) => let (r, t') := k a in (r, (t ++ t')%list)
  | (Raise e, t) => (Raise e, t)
  end.

Declare Scope sim_scope.
Delimit Scope sim_scope with sim.
Notation "x <- c ;; k" := (sim_bind c (fun x => k))
  (at level 61, c at next level, right associativity) : sim_scope.
Notation "c ;; k" := (sim_bind c (fun _ => k))
  (at level 61, right associativity) : sim_scope.
Local Open Scope sim_scope.

(** A call into the browser, a socket or the event loop: it is made,
    and then it fails with [failure] if the environment says so. *)
Definition call (e : Event) (failure : option BrowseExc) : Sim unit :=
  match failure with
  | None => (Return tt, [e])
  | Some x => (Raise x, [e])
  end.

Definition log (level : Level) (message : string) (extra : Json) : Sim unit :=
  (Return tt, [Log level message extra]).

(** [try: body except Exception: handler] *)
Definition sim_try_except {A} (body : Sim A) (handler : BrowseExc -> Sim A) : Sim A :=
  match body with
  | (Raise e, t) =>
      if is_exception e then let (r, t') := handler e in (r, (t ++ t')%list)
      else (Raise e, t)
  | r => r
  end.

(** [try: body finally: final] *)
Definition sim_try_finally {A} (body : Sim A) (final : Sim unit) : Sim A :=
  let (r, t) := body in
  match final with
  | (Return _, t') => (r, (t ++ t')%list)
  | (Raise e, t') => (Raise e, (t ++ t')%list)
  end.

(** ** [load_sites] *)

(** [str.isspace] on one character. *)
Definition is_space (c : ascii) : bool :=
  let n := nat_of_ascii c in
  ((9 <=? n) && (n <=? 13) || (28 <=? n) && (n <=? 32) || (n =? 133) || (n =? 160))%nat.

Fixpoint lstrip (s : string) : string :=
  match s with
  | EmptyString => EmptyString
  | String c s' => if is_space c then lstrip s' else s
  end.

Definition str_reverse (s : string) : string :=
  string_of_list_ascii (rev (list_ascii_of_string s)).

Definition rstrip (s : string) : string := str_reverse (lstrip (str_reverse s)).

(** [line.strip()] *)
Definition strip (s : string) : string := rstrip (lstrip s).

(** [line.startswith("#")] *)
Definition is_comment (line : string) : bool :=
  match line with
  | String c _ => (c =? "#")%char
  | EmptyString => false
  end.

(** [for line in fp: ...] *)
Fixpoint read_sites (lines : list string) (sites : list string) : list string :=
  match lines with
  | [] => sites
  | line :: rest =>
      let line := strip line in
      if (line =? "")%string || is_comment line then read_sites rest sites
      else read_sites rest (sites ++ [line])
  end.

(** [load_sites(path)]; [file] holds the lines of the file, if it
    exists, and [draw] the numbers [random.shuffle] draws. *)
Definition load_sites (path : string) (file : option (list string)) (draw : nat -> nat)
  : Sim (list string) :=
  match file with
  | None =>
      log WARNING "Site file %s not found." [("path", JStr path)] ;;
      sim_ret []
  | Some lines =>
      let sites := read_sites lines [] in
      sim_ret (random_shuffle draw sites)
  end.

(** ** [port_scan] *)

(** What the environment decides for one connection attempt. *)
Record Attempt : Type := mkAttempt {
  connect_failure : option BrowseExc;
  pause_draw : Q;                      (* [random.random()] *)
  pause_failure : option BrowseExc;    (* of [asyncio.sleep] *)
  timed_out : bool                     (* [time.perf_counter() - start > 0.5] *)
}.

(** [for port in ports: ...] on one host; [attempts k] are the draws of
    the [k]-th pass. *)
Fixpoint scan_ports (ip session_id : string) (ports : list Z) (attempts : nat -> Attempt)
  (k : nat) : Sim unit :=
  match ports with
  | [] => sim_ret tt
  | port :: rest =>
      let a := attempts k in
      log INFO "port_scan_attempt"
          [("event", JStr "port_scan"); ("ip", JStr ip); ("port", JInt port);
           ("session_id", JStr session_id)] ;;
      call SocketOpen None ;;
      sim_try_finally
        (sim_try_except (call (Connect ip port) (connect_failure a))
                        (fun _ => sim_ret tt))
        (call SocketClose None) ;;
      call (AsyncSleep ((5 # 100) + pause_draw a * (1 # 10))) (pause_failure a) ;;
      if timed_out a then sim_ret tt
      else scan_ports ip session_id rest attempts (S k)
  end.

(** [for host_octet in random.sample(range(1, 255), 5): ...];
    [host_octets] is the sample and [attempts i] the draws for its
    [i]-th host. *)
Fixpoint scan_hosts (target_prefix session_id : string) (host_octets : list Z)
  (attempts : nat -> nat -> Attempt) (i : nat) : Sim unit :=
  match host_octets with
  | [] => sim_ret tt
  | host_octet :: rest =>
      let ip := target_prefix ++ "." ++ str host_octet in
      scan_ports ip session_id [22; 80; 443] (attempts i) 0 ;;
      scan_hosts target_prefix session_id rest attempts (S i)
  end.

Definition port_scan (target_prefix session_id : string) (host_octets : list Z)
  (attempts : nat -> nat -> Attempt) : Sim unit :=
  scan_hosts target_prefix session_id host_octets attempts 0.

(** ** Browsing one site *)

(** One pass of the loop of [human_like_scroll]. *)
Record Scroll : Type := mkScroll {
  new_y : Z;                           (* [random.randint(0, height)] *)
  wheel_failure : option BrowseExc;
  scroll_draw : Q;                     (* [random.random()] of [jitter(1.2)] *)
  scroll_pause_failure : option BrowseExc
}.

(** What the environment decides while one site is browsed. *)
Record Visit : Type := mkVisit {
  new_page_failure : option BrowseExc;
  goto_failure : option BrowseExc;
  settle_draw : Q;
  settle_failure : option BrowseExc;
  scroll_height : Z;
  evaluate_failure : option BrowseExc;
  scrolls : list Scroll;               (* one entry per step: [random.randint(3, 7)] *)
  click_roll : Q;                      (* [random.random()] *)
  links : nat;                         (* the number of [a] elements found *)
  query_failure : option BrowseExc;
  click_failure : option BrowseExc;
  click_draw : Q;
  click_pause_failure : option BrowseExc;
  dwell_draw : Q;
  dwell_failure : option BrowseExc;
  close_failure : option BrowseExc;
  elapsed : Q
}.

(** [for _ in range(scroll_steps): ...]; [random.randint(0, height)]
    is a [ValueError] when [height] is negative. *)
Fixpoint scroll_all (height : Z) (steps : list Scroll) : Sim unit :=
  match steps with
  | [] => sim_ret tt
  | s :: rest =>
      (if height <? 0 then sim_raise ValueError else sim_ret tt) ;;
      call (Wheel (new_y s)) (wheel_failure s) ;;
      call (AsyncSleep (jitter (12 # 10) default_variance (scroll_draw s)))
           (scroll_pause_failure s) ;;
      scroll_all height rest
  end.

Definition human_like_scroll (v : Visit) : Sim unit :=
  call Evaluate (evaluate_failure v) ;;
  scroll_all (scroll_height v) (scrolls v).

Definition random_click (v : Visit) : Sim unit :=
  call QuerySelectorAll (query_failure v) ;;
  if (links v =? 0)%nat then sim_ret tt
  else
    sim_try_except
      (call Click (click_failure v) ;;
       call (AsyncSleep (jitter 2 default_variance (click_draw v)))
            (click_pause_failure v))
      (fun _ => sim_ret tt).

(** [browse_site(context, url, session_id)].  The local variable [page]
    is bound once [context.new_page()] has returned; the [finally]
    clause reads it. *)
Definition browse_site (url session_id : string) (v : Visit) : Sim unit :=
  log INFO "navigate"
      [("event", JStr "navigate"); ("url", JStr url); ("session_id", JStr session_id)] ;;
  let opened := call NewPage (new_page_failure v) in
  let page_bound := match fst opened with Return _ => true | Raise _ => false end in
  sim_try_finally
    (sim_try_except
       (opened ;;
        call (Goto url) (goto_failure v) ;;
        call (AsyncSleep (jitter 2 (1 # 2) (settle_draw v))) (settle_failure v) ;;
        human_like_scroll v ;;
        (if Qlt_le_dec (click_roll v) (1 # 2) then random_click v else sim_ret tt) ;;
        let dwell := jitter 3 (8 # 10) (dwell_draw v) in
        call (AsyncSleep dwell) (dwell_failure v))
       (fun _ =>
          log WARNING "browse_error"
              [("event", JStr "error"); ("url", JStr url);
               ("session_id", JStr session_id)]))
    ((if page_bound then call PageClose (close_failure v)
      else sim_raise UnboundLocalError) ;;
     log INFO "navigate_complete"
         [("event", JStr "navigate_complete"); ("url", JStr url);
          ("session_id", JStr session_id);
          ("elapsed", JFloat (py_round2 (elapsed v)))]).

(** ** The cycle of sites in [run_browser_session] *)

(** [site_cycle.pop()] *)
Definition pop (l : list string) : Outcome (string * list string) :=
  match rev l with
  | [] => Raise IndexError
  | url :: front => Return (url, rev front)
  end.

(** [if not site_cycle: site_cycle = benign_sites.copy();
     random.shuffle(site_cycle)] and [url = site_cycle.pop()]: the url
    and the cycle that is left. *)
Definition next_site (benign_sites : list string) (draw : nat -> nat)
  (site_cycle : list string) : Outcome (string * list string) :=
  let site_cycle :=
    match site_cycle with
    | [] => random_shuffle draw benign_sites
    | _ => site_cycle
    end in
  pop site_cycle.

(** The urls of the first [n] passes of the loop, starting from
    [site_cycle = benign_sites.copy()]; [draws k] are the numbers the
    shuffle of pass [k] draws. *)
Fixpoint visit_urls (benign_sites : list string) (draws : nat -> nat -> nat)
  (site_cycle : list string) (k n : nat) : Outcome (list string) :=
  match n with
  | O => Return []
  | S n' =>
      match next_site benign_sites (draws k) site_cycle with
      | Raise e => Raise e
      | Return (url, site_cycle) =>
          match visit_urls benign_sites draws site_cycle (S k) n' with
          | Raise e => Raise e
          | Return urls => Return (url :: urls)
          end
      end
  end.

End BrowseSim.

(** * The worker pool

    Both schedulers run a batch as
    [with ThreadPoolExecutor(max_workers=n) as executor], one
    [executor.submit] per item, then a wait on every future.  The pool is
    the one of [concurrent.futures]: [submit] puts the item on the work
    queue and starts a new worker thread when no worker is idle and
    fewer than [max_workers] threads exist; a worker thread takes the
    item at the head of the queue, runs it to its end, signals that it is
    idle and takes the next one.  Its moves interleave with those of the
    main thread in any order; a schedule lists them. *)

Module Executor.

Section Executor.

Context {Item : Type}.

Record State : Type := mkState {
  limit : nat;              (* [_max_workers] *)
  pending : list Item;      (* items the main thread has still to submit *)
  queue : list Item;        (* [_work_queue] *)
  threads : nat;            (* [len(_threads)] *)
  idle : nat;               (* [_idle_semaphore] *)
  running : list Item;      (* items some worker is executing *)
  completed : list Item
}.

(** The pool when the [with] block is entered, for the batch
    [all_requests]; the constructor refuses a limit below one. *)
Definition enter (workers : Z) (all_requests : list Item) : option State :=
  if workers <=? 0 then None
  else Some (mkState (Z.to_nat workers) all_requests [] 0 0 [] []).

Inductive Move : Type :=
| Submit                    (* the main thread submits its next item *)
| Take                      (* a free worker takes the head of the queue *)
| Finish (k : nat).         (* the worker on the [k]-th running item ends it *)

Fixpoint remove_nth {A} (k : nat) (l : list A) : list A :=
  match l, k with
  | [], _ => []
  | _ :: l', O => l'
  | a :: l', S k' => a :: remove_nth k' l'
  end.

(** One move; [None] when the move is not possible in the state. *)
Definition step (m : Move) (s : State) : option State :=
  match m with
  | Submit =>
      match pending s with
      | [] => None
      | item :: rest =>
          let q := (queue s ++ [item])%list in
          if (0 <? idle s)%nat then
            Some (mkState (limit s) rest q (threads s) (idle s - 1) (running s)
                          (completed s))
          else if (threads s <? limit s)%nat then
            Some (mkState (limit s) rest q (threads s + 1) (idle s) (running s)
                          (completed s))
          else
            Some (mkState (limit s) rest q (threads s) (idle s) (running s)
                          (completed s))
      end
  | Take =>
      match queue s with
      | [] => None
      | item :: q =>
          if (List.length (running s) <? threads s)%nat then
            Some (mkState (limit s) (pending s) q (threads s) (idle s)
                          (item :: running s) (completed s))
          else None
      end
  | Finish k =>
      match nth_error (running s) k with
      | None => None
      | Some item =>
          Some (mkState (limit s) (pending s) (queue s) (threads s) (idle s + 1)
                        (remove_nth k (running s)) (item :: completed s))
      end
  end.

Fixpoint run (schedule : list Move) (s : State) : option State :=
  match schedule with
  | [] => Some s
  | m :: schedule' =>
      match step m s with
      | Some s' => run schedule' s'
      | None => None
      end
  end.

(** The [with] block is left when nothing is pending, queued or running. *)
Definition drained (s : State) : bool :=
  match pending s, queue s, running s with
  | [], [], [] => true
  | _, _, _ => false
  end.

(** What every state of the pool satisfies. *)
Record invariant (s : State) : Prop := mkInvariant {
  running_le_threads : (List.length (running s) <= threads s)%nat;
  threads_le_limit : (threads s <= limit s)%nat;
  limit_positive : (1 <= limit s)%nat;
  idle_has_thread : (0 < idle s -> 0 < threads s)%nat;
  queued_has_thread : queue s <> [] -> (0 < threads s)%nat
}.

(** All the items the pool holds, wherever they are. *)
Definition items (s : State) : list Item :=
  (pending s ++ queue s ++ running s ++ completed s)%list.

(** The work still ahead: it shrinks with every move. *)
Definition work_left (s : State) : nat :=
  (3 * List.length (pending s) + 2 * List.length (queue s)
   + List.length (running s))%nat.

End Executor.

Arguments State : clear implicits.

End Executor.

(** * Vocabulary of the properties *)

(** The statistics after one [make_request], by the reply of the network. *)
Definition stats_after (simulation_type : string) (a : Answer) (s : Stats) : Stats :=
  match a with
  | Answers r =>
      let s1 := incr_total s in
      let s2 := if status_code r <? 400 then incr_successful s1 else incr_failed s1 in
      if (simulation_type =? "malicious")%string then incr_security s2 else s2
  | Fails => incr_failed s
  end.

(** How far [successful + failed] runs ahead of [total]. *)
Definition surplus (s : Stats) : Z :=
  successful_requests s + failed_requests s - total_requests s.

(** The draws [make_request] makes for its headers succeed: the list
    of user agents is not empty, and neither is the list of websites
    when a Referer is drawn. *)
Definition headers_drawn (lib : Platform) (net : Reply) : bool :=
  match user_agents lib with [] => false | _ :: _ => true end
  && ((if Qlt_le_dec (referer_roll net) float_0_7 then false else true)
      || match websites lib with [] => false | _ :: _ => true end).

(** The same for [make_request] of [WebTrafficGenerator], which draws a
    user agent only. *)
Definition agent_drawn (lib : Platform) : bool :=
  match user_agents lib with [] => false | _ :: _ => true end.



Definition is_transport (e : Effect) : bool :=
  match e with Transport _ _ => true | _ => false end.

Definition is_sleep (e : Effect) : bool :=
  match e with Sleep _ => true | _ => false end.

Definition is_summary (e : Effect) : bool :=
  match e with StatisticsLog _ => true | _ => false end.

(** The transport calls, the sleeps and the summary records of a trace. *)
Definition transport_calls (t : list Effect) : list Effect := filter is_transport t.
Definition sleeps (t : list Effect) : list Effect := filter is_sleep t.
Definition summaries (t : list Effect) : list Effect := filter is_summary t.

(** The world after a completed [time.sleep(seconds)]. *)
Definition slept (seconds : Q) (w : World) : World :=
  mkWorld (session_stats w) (request_count w) (trace w ++ [Sleep seconds])
          (clock w + seconds).

(** The world after one more record in the trace. *)
Definition logged (e : Effect) (w : World) : World :=
  mkWorld (session_stats w) (request_count w) (trace w ++ [e]) (clock w).

(** The second world continues the first: its trace begins with the
    trace of the first. *)
Definition continues (w w' : World) : Prop :=
  exists rest, trace w' = (trace w ++ rest)%list.

(** The number of work items of a request type in a batch. *)
Definition count_type (request_type : string)
  (batch : list AdvancedWebTrafficSimulator.WorkItem) : nat :=
  List.length (filter (fun item => (fst item =? request_type)%string) batch).

(** The line logged at the end of a minute of [generate_advanced_traffic]. *)
Definition minute_completed (requests_per_minute : Z) : Message :=
  MinuteCompleted
    (py_int (inject_Z requests_per_minute
             * AdvancedWebTrafficSimulator.normal_share
                 AdvancedWebTrafficSimulator.traffic_composition))
    (py_int (inject_Z requests_per_minute
             * AdvancedWebTrafficSimulator.compromised_share
                 AdvancedWebTrafficSimulator.traffic_composition))
    (py_int (inject_Z requests_per_minute
             * AdvancedWebTrafficSimulator.malicious_share
                 AdvancedWebTrafficSimulator.traffic_composition)).

(** A statement is quiet when it writes no summary record; it is
    strictly quiet when, moreover, it never runs out of fuel. *)
Definition quiet (strict : bool) {A} (c : Py A) : Prop :=
  forall w,
    summaries (trace (snd (c w))) = summaries (trace w) /\
    (strict = true -> fst (c w) <> OutOfFuel).

(** ** Counting records *)

Definition is_traffic_log (e : Effect) : bool :=
  match e with TrafficLog _ _ _ _ => true | _ => false end.

Definition is_compromise_log (e : Effect) : bool :=
  match e with CompromiseLog _ _ _ _ => true | _ => false end.

Definition is_security_log (e : Effect) : bool :=
  match e with SecurityLog _ _ _ => true | _ => false end.

Definition is_dns_log (e : Effect) : bool :=
  match e with DnsLog _ _ => true | _ => false end.

(** The security record [make_request] writes for a malicious request. *)
Definition is_malicious_request_log (e : Effect) : bool :=
  match e with
  | SecurityLog event_type _ _ => (event_type =? "malicious_request")%string
  | _ => false
  end.

(** The line that closes a run of [generate_traffic]. *)
Definition is_completion (e : Effect) : bool :=
  match e with Info (GenerationCompleted _) => true | _ => false end.

(** The line that closes a window of [generate_advanced_traffic]. *)
Definition is_minute_completed (e : Effect) : bool :=
  match e with Info (MinuteCompleted _ _ _) => true | _ => false end.

(** The number of records of a kind in a trace. *)
Definition records (p : Effect -> bool) (t : list Effect) : Z :=
  Z.of_nat (List.length (filter p t)).

(** The number of transport calls made so far. *)
Definition calls (w : World) : Z := records is_transport (trace w).

(** The number of windows completed so far. *)
Definition minutes (w : World) : Z := records is_minute_completed (trace w).

(** How far the counters run ahead of what the trace shows: answered
    requests against traffic-log records, requests counted as successful
    or failed against transport calls, compromise activities against
    compromise-log records, and security events against the security
    records of malicious requests. *)
Definition ledger (w : World) : Z * Z * Z * Z :=
  (total_requests (session_stats w) - records is_traffic_log (trace w),
   successful_requests (session_stats w) + failed_requests (session_stats w)
   - records is_transport (trace w),
   compromise_activities (session_stats w) - records is_compromise_log (trace w),
   security_events (session_stats w)
   - records is_malicious_request_log (trace w)).

(** A record that none of the four ledgers counts. *)
Definition uncounted (e : Effect) : bool :=
  negb (is_traffic_log e || is_transport e || is_compromise_log e
        || is_malicious_request_log e).

(** What one [make_request] of [AdvancedWebTrafficSimulator] appends to
    the trace after its DNS record. *)
Definition request_records (url method simulation_type : string) (a : Answer)
  : list Effect :=
  Transport method url ::
  match a with
  | Answers r =>
      TrafficLog method url (status_code r) simulation_type ::
      (if (simulation_type =? "malicious")%string
       then [SecurityLog "malicious_request" "high" [("url", url); ("method", method)]]
       else [])
  | Fails => [Error (ErrorRequesting url)]
  end.

(** ** Relations between the world before and the world after *)

(** Two worlds with the same ledger. *)
Definition same_ledger (w w' : World) : Prop := ledger w' = ledger w.

(** Two worlds whose traces hold the same number of records of a kind,
    and two worlds of which the second holds at least as many. *)
Definition same_records (p : Effect -> bool) (w w' : World) : Prop :=
  records p (trace w') = records p (trace w).

Definition more_records (p : Effect -> bool) (w w' : World) : Prop :=
  records p (trace w) <= records p (trace w').

(** Two worlds with the same value of the counter of [generate_traffic]. *)
Definition same_request_count (w w' : World) : Prop :=
  request_count w' = request_count w.

(** A statement keeps a relation between the world it starts in and the
    world it leaves. *)
Definition steady (R : World -> World -> Prop) {A} (c : Py A) : Prop :=
  forall w, R w (snd (c w)).

(** A statement makes at most [n] transport calls. *)
Definition at_most (n : Z) {A} (c : Py A) : Prop :=
  forall w, calls (snd (c w)) <= calls w + n.

(** A statement is benign when it ends by returning or by raising an
    exception of class [Exception]. *)
Definition benign {A} (c : Py A) : Prop :=
  forall w,
    match fst (c w) with
    | Returns _ => True
    | Raises e => is_Exception e = true
    | OutOfFuel => False
    end.

(** ** Batches, behaviours and probes *)

(** The items of a batch that start a browsing session. *)
Definition browsing_items (items : list AdvancedWebTrafficSimulator.WorkItem) : Z :=
  Z.of_nat
    (List.length
       (filter (fun item : AdvancedWebTrafficSimulator.WorkItem =>
                  negb (fst item =? "malicious")%string
                  && match snd item with Some _ => true | None => false end)
               items)).

(** The behaviours [simulate_compromised_behavior] has a branch for. *)
Definition acted_out (behavior_type : string) : bool :=
  (behavior_type =? "c2_communication")%string
  || (behavior_type =? "credential_theft")%string
  || (behavior_type =? "data_exfiltration")%string.

(** The network answers the request with status 200. *)
Definition answers_200 (net : Reply) : bool :=
  match answer net with
  | Answers r => status_code r =? 200
  | Fails => false
  end.

(** The number of requests [k], ..., [k + n - 1] answered with status 200. *)
Fixpoint count_200 (replies : nat -> Reply) (k n : nat) : Z :=
  match n with
  | O => 0
  | S n' => (if answers_200 (replies k) then 1 else 0) + count_200 replies (S k) n'
  end.

(** ** [browse_sim.py] *)

(** The letters [parse_duration] takes for a unit, and the seconds each
    stands for. *)
Definition unit_letters : list ascii := ["s"; "m"; "h"; "S"; "M"; "H"]%char.

Definition seconds_per (unit : ascii) : Z :=
  if ((unit =? "s") || (unit =? "S"))%char then 1
  else if ((unit =? "m") || (unit =? "M"))%char then 60
  else if ((unit =? "h") || (unit =? "H"))%char then 3600
  else 0.

(** The lines [load_sites] keeps. *)
Definition is_site (line : string) : bool :=
  negb ((line =? "")%string || BrowseSim.is_comment line).

(** The number of events of a kind in what a run did. *)
Definition events (p : BrowseSim.Event -> bool) (t : list BrowseSim.Event) : Z :=
  Z.of_nat (List.length (filter p t)).

Definition is_page_close (e : BrowseSim.Event) : bool :=
  match e with BrowseSim.PageClose => true | _ => false end.

(** A pause of the event loop, and what a run did apart from its
    pauses. *)
Definition is_pause (e : BrowseSim.Event) : bool :=
  match e with BrowseSim.AsyncSleep _ => true | _ => false end.

Definition actions (t : list BrowseSim.Event) : list BrowseSim.Event :=
  filter (fun e => negb (is_pause e)) t.

(** One connection attempt of [port_scan]: the line in the log, the
    socket, the call to connect and the close. *)
Definition attempt_events (ip session_id : string) (port : Z)
  : list BrowseSim.Event :=
  [BrowseSim.Log BrowseSim.INFO "port_scan_attempt"
     [("event", JStr "port_scan"); ("ip", JStr ip); ("port", JInt port);
      ("session_id", JStr session_id)];
   BrowseSim.SocketOpen;
   BrowseSim.Connect ip port;
   BrowseSim.SocketClose].

(** The attempts of a scan that tries, host by host, the first ports of
    the list; [tried] holds the number of ports tried on each host. *)
Fixpoint scan_events (target_prefix session_id : string) (host_octets : list Z)
  (tried : list nat) : list BrowseSim.Event :=
  match host_octets, tried with
  | host_octet :: hosts, n :: rest =>
      (List.concat
         (map (attempt_events (target_prefix ++ "." ++ BrowseSim.str host_octet)
                              session_id)
              (firstn n [22; 80; 443]))
       ++ scan_events target_prefix session_id hosts rest)%list
  | _, _ => []
  end.

(** The two lines [browse_site] frames a visit with, and the one for an
    exception. *)
Definition navigate (url session_id : string) : BrowseSim.Event :=
  BrowseSim.Log BrowseSim.INFO "navigate"
    [("event", JStr "navigate"); ("url", JStr url); ("session_id", JStr session_id)].

Definition navigate_complete (url session_id : string) (elapsed : Q)
  : BrowseSim.Event :=
  BrowseSim.Log BrowseSim.INFO "navigate_complete"
    [("event", JStr "navigate_complete"); ("url", JStr url);
     ("session_id", JStr session_id); ("elapsed", JFloat (py_round2 elapsed))].

Definition browse_error (url session_id : string) : BrowseSim.Event :=
  BrowseSim.Log BrowseSim.WARNING "browse_error"
    [("event", JStr "error"); ("url", JStr url); ("session_id", JStr session_id)].

(** A statement that does nothing of a kind. *)
Definition avoids (p : BrowseSim.Event -> bool) {A} (c : BrowseSim.Sim A) : Prop :=
  events p (snd c) = 0.

(** ** Sample inputs *)

Definition sample_platform : Platform :=
  mkPlatform (fun _ => Some "www.example.com") (fun base path => base ++ path)
             (fun s => s) (fun _ => "2024-01-01T00:00:00")
             ["https://www.google.com"; "https://www.linkedin.com"]
             ["http://malicious.example"]
             ["Mozilla/5.0 (X11; Linux x86_64)"; "Mozilla/4.0 (compatible; MSIE 6.0)"].

(** A request that draws the first user agent and the first website as
    its Referer, resolves its host and gets the answer [a]. *)
Definition reply_with (a : Answer) : Reply := mkReply 0 0 0 0 true a.

Definition sample_config : Config := mkConfig 8 true true.

Definition sample_draws : AdvancedWebTrafficSimulator.BehaviorDraws :=
  AdvancedWebTrafficSimulator.mkBehaviorDraws 0 0 0 "9f1c" "AAAA" 0.

(** A session in which every request gets the answer [a]. *)
Definition session_with (a : Answer) : AdvancedWebTrafficSimulator.SessionScript :=
  AdvancedWebTrafficSimulator.mkSessionScript
    (reply_with a) 2
    [AdvancedWebTrafficSimulator.mkInteraction 0 0 (reply_with a) 1]
    0 4 sample_draws 0 0 0 0 (reply_with a).

(** A window whose sessions all get the answer [a] and whose batch
    takes [seconds] to drain. *)
Definition window_with (a : Answer) (seconds : Q) (signal : option Phase)
  : AdvancedWebTrafficSimulator.Window :=
  AdvancedWebTrafficSimulator.mkWindow
    (fun _ => 0%nat) (fun _ => 0%nat) (fun _ => session_with a) seconds signal.

(** The same for [WebTrafficGenerator]. *)
Definition basic_window_with (a : Answer) (seconds : Q) (signal : option Phase)
  : WebTrafficGenerator.Window :=
  WebTrafficGenerator.mkWindow
    (fun _ => 0%nat)
    (fun _ => WebTrafficGenerator.mkSessionScript (reply_with a) 1 0 [])
    seconds signal.

(** * Properties *)

(** ** Running monadic code *)

Ltac unfold_py :=
  unfold bind, ret, raise, emit, update_stats, time_time, try_except.

Lemma bind_returns {A B} (c : Py A) (k : A -> Py B) w a w' :
  c w = (Returns a, w') -> bind c k w = k a w'.
Proof. intros H. unfold bind. rewrite H. reflexivity. Qed.

Lemma bind_raises {A B} (c : Py A) (k : A -> Py B) w e w' :
  c w = (Raises e, w') -> bind c k w = (Raises e, w').
Proof. intros H. unfold bind. rewrite H. reflexivity. Qed.

Lemma bind_out_of_fuel {A B} (c : Py A) (k : A -> Py B) w w' :
  c w = (OutOfFuel, w') -> bind c k w = (OutOfFuel, w').
Proof. intros H. unfold bind. rewrite H. reflexivity. Qed.

Unset Implicit Arguments.

(** ** The request counters *)

Module RequestFacts.

Import AdvancedWebTrafficSimulator.

Section Facts.

Context (lib : Platform).

(** The DNS step of [make_request] leaves the statistics alone and
    always returns; it adds at most one record of the DNS log. *)
Lemma dns_step url (net : Reply) w :
  exists t,
    (match urlparse_hostname lib url with
     | Some host =>
         if (host =? "")%string then ret tt
         else simulate_dns_lookup host (resolves net)
     | None => ret tt
     end) w
    = (Returns tt, mkWorld (session_stats w) (request_count w) (trace w ++ t) (clock w))
    /\ (t = [] \/ exists d q, t = [DnsLog d q]).
Proof.
  destruct (urlparse_hostname lib url) as [host|].
  - destruct (host =? "")%string.
    + exists []. rewrite app_nil_r. destruct w; split; [reflexivity | now left].
    + eexists [_]. split; [reflexivity | right; eauto].
  - exists []. rewrite app_nil_r. destruct w; split; [reflexivity | now left].
Qed.

(** *** The headers *)

Lemma last_three_cons {A} (x : A) l : last_three (x :: l) <> [].
Proof.
  unfold last_three. intros H. apply (f_equal (@List.length A)) in H.
  rewrite length_skipn in H. cbn [List.length] in H. lia.
Qed.

Lemma random_choice_cons {A} pick (x : A) l w :
  random_choice pick (x :: l) w
  = (Returns (nth (pick mod List.length (x :: l)) (x :: l) x), w).
Proof. reflexivity. Qed.

Lemma random_choice_world {A} pick (l : list A) w : snd (random_choice pick l w) = w.
Proof. destruct l; reflexivity. Qed.

(** With a user agent to choose from, [get_random_user_agent] returns
    one; it never touches the world. *)
Lemma get_random_user_agent_run compromised net w :
  user_agents lib <> [] ->
  exists user_agent,
    get_random_user_agent lib compromised net w = (Returns user_agent, w).
Proof.
  intros Hua. unfold get_random_user_agent.
  destruct (user_agents lib) as [| a l]; [contradiction |].
  destruct (compromised && _).
  - pose proof (last_three_cons a l) as H3.
    destruct (last_three (a :: l)) as [| b l3]; [contradiction |].
    eexists. apply random_choice_cons.
  - eexists. apply random_choice_cons.
Qed.

(** The first statements of [make_request] either draw the headers or
    raise [IndexError]; the world stays as it is. *)
Lemma request_headers_run simulation_type net w :
  if headers_drawn lib net
  then exists headers, request_headers lib simulation_type net w = (Returns headers, w)
  else request_headers lib simulation_type net w = (Raises IndexError, w).
Proof.
  unfold headers_drawn, request_headers.
  destruct (user_agents lib) as [| a l] eqn:U.
  - cbn [andb]. apply bind_raises.
    unfold get_random_user_agent. rewrite U.
    destruct (_ && _); reflexivity.
  - cbn [andb].
    destruct (get_random_user_agent_run (simulation_type =? "compromised")%string net w)
      as (user_agent & Hua); [rewrite U; discriminate |].
    rewrite (bind_returns _ _ _ Hua).
    destruct (Qlt_le_dec (referer_roll net) float_0_7); cbn [orb].
    + destruct (websites lib) as [| site sites]; [reflexivity |].
      eexists. reflexivity.
    + eexists. reflexivity.
Qed.

Lemma make_request_drawn url method simulation_type net w :
  headers_drawn lib net = true ->
  make_request lib url method simulation_type net w
  = send_request lib url method simulation_type net w.
Proof.
  intros Hd. unfold make_request.
  pose proof (request_headers_run simulation_type net w) as H. rewrite Hd in H.
  destruct H as (headers & H). unfold bind. rewrite H. reflexivity.
Qed.

Lemma make_request_not_drawn url method simulation_type net w :
  headers_drawn lib net = false ->
  make_request lib url method simulation_type net w = (Raises IndexError, w).
Proof.
  intros Hd. unfold make_request.
  pose proof (request_headers_run simulation_type net w) as H. rewrite Hd in H.
  unfold bind. rewrite H. reflexivity.
Qed.

(** With both lists filled, the headers are drawn whatever the draws. *)
Lemma headers_drawn_filled net :
  user_agents lib <> [] -> websites lib <> [] -> headers_drawn lib net = true.
Proof.
  intros Hua Hsites. unfold headers_drawn.
  destruct (user_agents lib); [contradiction |].
  destruct (websites lib); [contradiction |].
  apply orb_true_r.
Qed.

(** *** The request *)

Lemma transport_calls_app t1 t2 :
  transport_calls (t1 ++ t2) = (transport_calls t1 ++ transport_calls t2)%list.
Proof. apply filter_app. Qed.


(** What [make_request] does once the headers are there: one transport
    call, after at most one DNS record and before the records of the
    answer. *)
Lemma send_request_run url method simulation_type net w :
  exists t1 t2,
    send_request lib url method simulation_type net w
    = (Returns (match answer net with Answers r => Some r | Fails => None end),
       mkWorld (stats_after simulation_type (answer net) (session_stats w))
               (request_count w)
               (trace w ++ t1 ++ Transport method url :: t2) (clock w))
    /\ transport_calls t1 = [] /\ sleeps t1 = []
    /\ transport_calls t2 = [] /\ sleeps t2 = [].
Proof.
  unfold send_request.
  destruct (dns_step url net w) as (t & Hdns & Ht).
  rewrite (bind_returns _ _ _ Hdns). clear Hdns.
  exists t.
  assert (Hq : transport_calls t = [] /\ sleeps t = []).
  { destruct Ht as [-> | (d & q & ->)]; split; reflexivity. }
  unfold stats_after, session_request.
  destruct (answer net) as [r|]; unfold_py; simpl.
  - destruct (status_code r <? 400); simpl;
      destruct (simulation_type =? "malicious")%string; simpl;
      eexists; (split; [rewrite <- !app_assoc; simpl; reflexivity |]);
      intuition reflexivity.
  - eexists; (split; [rewrite <- !app_assoc; simpl; reflexivity |]);
      intuition reflexivity.
Qed.

Lemma send_request_stats url method simulation_type net w :
  session_stats (snd (send_request lib url method simulation_type net w))
  = stats_after simulation_type (answer net) (session_stats w).
Proof.
  destruct (send_request_run url method simulation_type net w) as (t1 & t2 & -> & _).
  reflexivity.
Qed.

Lemma send_request_value url method simulation_type net w :
  fst (send_request lib url method simulation_type net w)
  = Returns (match answer net with Answers r => Some r | Fails => None end).
Proof.
  destruct (send_request_run url method simulation_type net w) as (t1 & t2 & -> & _).
  reflexivity.
Qed.

Lemma send_request_calls url method simulation_type net w :
  transport_calls (trace (snd (send_request lib url method simulation_type net w)))
  = (transport_calls (trace w) ++ [Transport method url])%list.
Proof.
  destruct (send_request_run url method simulation_type net w)
    as (t1 & t2 & -> & Ht1 & _ & Ht2 & _).
  cbn [snd trace]. rewrite !transport_calls_app, Ht1.
  cbn [transport_calls filter is_transport app]. fold (transport_calls t2).
  rewrite Ht2. reflexivity.
Qed.

Lemma make_request_stats url method simulation_type net w :
  headers_drawn lib net = true ->
  session_stats (snd (make_request lib url method simulation_type net w))
  = stats_after simulation_type (answer net) (session_stats w).
Proof. intros Hd. rewrite (make_request_drawn _ _ _ _ _ Hd). apply send_request_stats. Qed.

Lemma make_request_value url method simulation_type net w :
  headers_drawn lib net = true ->
  fst (make_request lib url method simulation_type net w)
  = Returns (match answer net with Answers r => Some r | Fails => None end).
Proof. intros Hd. rewrite (make_request_drawn _ _ _ _ _ Hd). apply send_request_value. Qed.

(** C9. One [make_request].  When its headers are drawn, the request
    goes to the transport, once: if the transport returns a response,
    [total_requests] grows by one and exactly one of
    [successful_requests] (status below 400) and [failed_requests]
    (status 400 or more) grows by one; if the transport raises,
    [failed_requests] grows by one and [total_requests] does not move.
    When the headers cannot be drawn (no user agent to choose from, or
    no website for the Referer), the call raises [IndexError] before the
    transport is reached and leaves the world as it is. *)
Theorem make_request_counters url method simulation_type net w :
  let before := session_stats w in
  let after := session_stats (snd (make_request lib url method simulation_type net w)) in
  if headers_drawn lib net then
    transport_calls (trace (snd (make_request lib url method simulation_type net w)))
    = (transport_calls (trace w) ++ [Transport method url])%list /\
    match answer net with
    | Answers r =>
        total_requests after = total_requests before + 1 /\
        if status_code r <? 400 then
          successful_requests after = successful_requests before + 1 /\
          failed_requests after = failed_requests before
        else
          successful_requests after = successful_requests before /\
          failed_requests after = failed_requests before + 1
    | Fails =>
        total_requests after = total_requests before /\
        successful_requests after = successful_requests before /\
        failed_requests after = failed_requests before + 1
    end
  else
    make_request lib url method simulation_type net w = (Raises IndexError, w).
Proof.
  cbv zeta. destruct (headers_drawn lib net) eqn:Hd.
  - rewrite (make_request_drawn _ _ _ _ _ Hd).
    split; [apply send_request_calls |].
    rewrite send_request_stats. unfold stats_after.
    destruct (answer net) as [r|]; simpl.
    + destruct (status_code r <? 400);
        destruct (simulation_type =? "malicious")%string; simpl; auto.
    + auto.
  - apply make_request_not_drawn, Hd.
Qed.

(** Each request the transport fails adds one to the surplus; a request
    that is answered, or that never reaches the transport, leaves it as
    it is. *)
Lemma make_request_surplus url method simulation_type net w :
  surplus (session_stats (snd (make_request lib url method simulation_type net w)))
  = surplus (session_stats w)
    + if headers_drawn lib net
      then match answer net with Answers _ => 0 | Fails => 1 end
      else 0.
Proof.
  destruct (headers_drawn lib net) eqn:Hd.
  - rewrite make_request_stats by exact Hd. unfold stats_after, surplus.
    destruct (answer net) as [r|]; simpl.
    + destruct (status_code r <? 400);
        destruct (simulation_type =? "malicious")%string; simpl; lia.
    + lia.
  - rewrite (make_request_not_drawn _ _ _ _ _ Hd). cbn [snd]. lia.
Qed.

End Facts.

(** C8, at a run of one minute with two requests per minute whose only
    session meets a connection error: the final counters are
    [successful_requests = 0], [failed_requests = 1] and
    [total_requests = 0], so that [successful + failed] is not [total]. *)
Theorem failed_transport_breaks_request_sum :
  let w :=
    snd (generate_advanced_traffic sample_platform sample_config 1 2
           (fun _ => window_with Fails 1 None) 2 (initial_world 100)) in
  successful_requests (session_stats w) = 0 /\
  failed_requests (session_stats w) = 1 /\
  total_requests (session_stats w) = 0 /\
  successful_requests (session_stats w) + failed_requests (session_stats w)
  <> total_requests (session_stats w).
Proof. vm_compute. repeat split; discriminate. Qed.

End RequestFacts.

(** ** Sessions *)

Module SessionFacts.
Import AdvancedWebTrafficSimulator.
Import RequestFacts.

Lemma lookup_c2 :
  dict_get compromise_behaviors "c2_communication"
  = Some (mkBehavior c2_domains ["GET"; "POST"] ["beacon"; "heartbeat"; "check-in"]).
Proof. reflexivity. Qed.

Lemma c2_communication_run lib d w :
  simulate_compromised_behavior lib "c2_communication" d w
  = (Returns tt,
     logged (CompromiseLog "c2_communication"
               (nth (target_pick d mod 6) c2_domains "c2.evil.com")
               (C2Payload (uuid4 d) (py_int (clock w))
                  (nth (command_pick d mod 3) ["heartbeat"; "get_tasks"; "send_data"]
                       "heartbeat")
                  (urandom64 d))
               false)
            (mkWorld (incr_compromise (session_stats w)) (request_count w) (trace w)
                     (clock w))).
Proof.
  unfold simulate_compromised_behavior. rewrite lookup_c2.
  change ("c2_communication" =? "c2_communication")%string with true.
  cbv iota. unfold targets, methods, c2_domains.
  rewrite (bind_returns _ _ _ (random_choice_cons _ _ _ _)).
  rewrite (bind_returns _ _ _ (random_choice_cons _ _ _ _)).
  unfold bind at 1. unfold time_time.
  rewrite (bind_returns _ _ _ (random_choice_cons _ _ _ _)).
  reflexivity.
Qed.


(** C6. The C2-communication behaviour (which the source runs without
    sending anything, whatever the configuration): it returns normally,
    the transport is not called, exactly one compromise-activity record
    is appended to the trace, [compromise_activities] grows by one, and
    the other counters, the request counter and the clock keep their
    values. *)
Theorem c2_communication_sends_nothing lib d w :
  let result := simulate_compromised_behavior lib "c2_communication" d w in
  let w' := snd result in
  fst result = Returns tt /\
  transport_calls (trace w') = transport_calls (trace w) /\
  (exists c2_domain payload,
     In c2_domain c2_domains /\
     trace w' = (trace w ++ [CompromiseLog "c2_communication" c2_domain payload false])%list) /\
  session_stats w' = incr_compromise (session_stats w) /\
  compromise_activities (session_stats w') = compromise_activities (session_stats w) + 1 /\
  total_requests (session_stats w') = total_requests (session_stats w) /\
  successful_requests (session_stats w') = successful_requests (session_stats w) /\
  failed_requests (session_stats w') = failed_requests (session_stats w) /\
  security_events (session_stats w') = security_events (session_stats w) /\
  start_time (session_stats w') = start_time (session_stats w) /\
  request_count w' = request_count w /\
  clock w' = clock w.
Proof.
  cbv zeta. rewrite c2_communication_run.
  unfold logged. cbn [fst snd trace session_stats request_count clock].
  repeat split; try reflexivity.
  - rewrite transport_calls_app. apply app_nil_r.
  - eexists _, _. split; [| reflexivity].
    apply nth_In. apply Nat.mod_upper_bound. discriminate.
Qed.

Section Navigation.

Context (lib : Platform).

Lemma make_request_run url method simulation_type net w :
  headers_drawn lib net = true ->
  exists t1 t2,
    make_request lib url method simulation_type net w
    = (Returns (match answer net with Answers r => Some r | Fails => None end),
       mkWorld (stats_after simulation_type (answer net) (session_stats w))
               (request_count w)
               (trace w ++ t1 ++ Transport method url :: t2) (clock w))
    /\ transport_calls t1 = [] /\ sleeps t1 = []
    /\ transport_calls t2 = [] /\ sleeps t2 = [].
Proof.
  intros Hd. rewrite (make_request_drawn _ _ _ _ _ _ Hd). apply send_request_run.
Qed.




(** A session whose first request cannot draw its headers ends in the
    clause [except Exception], with one line in the log. *)
Lemma undrawn_navigation_run website session_type s w :
  headers_drawn lib (nav_reply s) = false ->
  simulate_human_browsing_session lib website session_type s w
  = (Returns tt, logged (Error (ErrorInSession website IndexError)) w).
Proof.
  intros Hd. unfold simulate_human_browsing_session, try_except.
  rewrite (bind_raises _ _ _ (make_request_not_drawn _ website "GET" session_type _ w Hd)).
  reflexivity.
Qed.

Lemma basic_make_request_drawn url method net w :
  agent_drawn lib = true ->
  WebTrafficGenerator.make_request lib url method net w
  = WebTrafficGenerator.send_request url method net w.
Proof.
  unfold agent_drawn, WebTrafficGenerator.make_request,
    WebTrafficGenerator.get_random_user_agent.
  destruct (user_agents lib); [discriminate | reflexivity].
Qed.

Lemma basic_make_request_not_drawn url method net w :
  agent_drawn lib = false ->
  WebTrafficGenerator.make_request lib url method net w = (Raises IndexError, w).
Proof.
  unfold agent_drawn, WebTrafficGenerator.make_request,
    WebTrafficGenerator.get_random_user_agent.
  destruct (user_agents lib); [reflexivity | discriminate].
Qed.

Lemma basic_send_request_run url method net w :
  exists e,
    WebTrafficGenerator.send_request url method net w
    = (Returns (match answer net with Answers r => Some r | Fails => None end),
       mkWorld (session_stats w) (request_count w)
               (trace w ++ [Transport method url; e]) (clock w))
    /\ is_transport e = false /\ is_sleep e = false.
Proof.
  unfold WebTrafficGenerator.send_request, session_request.
  destruct (answer net) as [r|]; unfold_py; simpl;
    rewrite <- app_assoc; eexists; split; try reflexivity; split; reflexivity.
Qed.

Lemma basic_make_request_run url method net w :
  agent_drawn lib = true ->
  exists e,
    WebTrafficGenerator.make_request lib url method net w
    = (Returns (match answer net with Answers r => Some r | Fails => None end),
       mkWorld (session_stats w) (request_count w)
               (trace w ++ [Transport method url; e]) (clock w))
    /\ is_transport e = false /\ is_sleep e = false.
Proof.
  intros Hd. rewrite (basic_make_request_drawn _ _ _ _ Hd).
  apply basic_send_request_run.
Qed.


Lemma basic_undrawn_navigation_run website s w :
  agent_drawn lib = false ->
  WebTrafficGenerator.simulate_browsing_session lib website s w
  = (Returns tt, logged (Error (ErrorInSession website IndexError)) w).
Proof.
  intros Hd. unfold WebTrafficGenerator.simulate_browsing_session, try_except.
  rewrite (bind_raises _ _ _
             (basic_make_request_not_drawn website "GET" _ w Hd)).
  reflexivity.
Qed.


End Navigation.



End SessionFacts.

(** ** The final summary *)

Module SummaryFacts.

Import AdvancedWebTrafficSimulator.

Section Combinators.

Context (strict : bool).

Lemma quiet_ret {A} (a : A) : quiet strict (ret a).
Proof. intros w. split; [reflexivity | discriminate]. Qed.

Lemma quiet_raise {A} e : quiet strict (@raise A e).
Proof. intros w. split; [reflexivity | discriminate]. Qed.

Lemma quiet_bind {A B} (c : Py A) (k : A -> Py B) :
  quiet strict c -> (forall a, quiet strict (k a)) -> quiet strict (bind c k).
Proof.
  intros Hc Hk w. unfold bind. destruct (Hc w) as [Ht Hf].
  destruct (c w) as [[a|e|] w1]; cbn [fst snd] in *.
  - destruct (Hk a w1) as [Ht' Hf']. split; [congruence | assumption].
  - split; [assumption | discriminate].
  - split; [assumption | intros Hs; destruct (Hf Hs); reflexivity].
Qed.

Lemma quiet_try_except {A} (body : Py A) handler :
  quiet strict body -> (forall e h, handler e = Some h -> quiet strict h) ->
  quiet strict (try_except body handler).
Proof.
  intros Hb Hh w. unfold try_except. destruct (Hb w) as [Ht Hf].
  destruct (body w) as [[a|e|] w1]; cbn [fst snd] in *.
  - split; [assumption | discriminate].
  - destruct (handler e) as [h|] eqn:E; cbn [fst snd].
    + destruct (Hh e h E w1) as [Ht' Hf']. split; [congruence | assumption].
    + split; [assumption | discriminate].
  - split; [assumption | intros Hs; destruct (Hf Hs); reflexivity].
Qed.

Lemma quiet_try_finally {A} (body : Py A) final :
  quiet strict body -> quiet strict final -> quiet strict (try_finally body final).
Proof.
  intros Hb Hf w. unfold try_finally. destruct (Hb w) as [Ht Hn].
  destruct (body w) as [[a|e|] w1]; cbn [fst snd] in *;
    try (destruct (Hf w1) as [Ht' Hn']; destruct (final w1) as [[[]|e'|] w2]);
    cbn [fst snd] in *;
    (split; [congruence | try discriminate; intros Hs; exfalso ]).
  all: try (apply (Hn' Hs); reflexivity).
  all: try (apply (Hn Hs); reflexivity).
Qed.

Lemma quiet_emit e : is_summary e = false -> quiet strict (emit e).
Proof.
  intros He w. unfold emit, summaries. cbn [fst snd trace]. split; [| discriminate].
  rewrite filter_app. simpl. rewrite He. apply app_nil_r.
Qed.

Lemma quiet_update_stats f : quiet strict (update_stats f).
Proof. intros w. split; [reflexivity | discriminate]. Qed.

Lemma quiet_time_time : quiet strict time_time.
Proof. intros w. split; [reflexivity | discriminate]. Qed.

Lemma quiet_time_sleep seconds : quiet strict (time_sleep seconds).
Proof.
  intros w. unfold time_sleep.
  destruct (Qlt_le_dec seconds 0); cbn [fst snd trace]; (split; [| discriminate]).
  - reflexivity.
  - unfold summaries. rewrite filter_app. apply app_nil_r.
Qed.

Lemma quiet_random_choice {A} pick (l : list A) : quiet strict (random_choice pick l).
Proof. destruct l; intros w; (split; [reflexivity | discriminate]). Qed.

Lemma quiet_drain {A} seconds (c : Py A) : quiet strict c -> quiet strict (drain seconds c).
Proof.
  intros Hc w. unfold drain. specialize (Hc w).
  destruct (c w) as [r w1]. exact Hc.
Qed.

Lemma quiet_executor workers : quiet strict (ThreadPoolExecutor workers).
Proof.
  intros w. unfold ThreadPoolExecutor.
  destruct (workers <=? 0); (split; [reflexivity | discriminate]).
Qed.

End Combinators.

Create HintDb quiet.

#[local] Hint Resolve quiet_ret quiet_raise quiet_update_stats quiet_time_time
  quiet_time_sleep quiet_random_choice quiet_executor : quiet.

(** Decomposes a statement along its syntax. *)
Ltac quiet_step :=
  match goal with
  | |- forall _, _ => intro
  | |- quiet _ (bind _ _) => apply quiet_bind
  | |- quiet _ (try_except _ _) => apply quiet_try_except
  | |- quiet _ (try_finally _ _) => apply quiet_try_finally
  | |- quiet _ (drain _ _) => apply quiet_drain
  | |- quiet _ (emit _) => apply quiet_emit; reflexivity
  | |- quiet _ (if ?b then _ else _) => destruct b
  | |- quiet _ (match ?x with _ => _ end) => destruct x
  | H : match ?x with _ => _ end = Some _ |- _ => destruct x
  | H : Some _ = Some _ |- _ => injection H as <-
  | H : None = Some _ |- _ => discriminate H
  | |- _ => solve [auto with quiet]
  end.

Ltac quiet_auto := repeat quiet_step.

Section Quiet.

Context (lib : Platform) (config : Config) (strict : bool).

Lemma quiet_session_request method url a :
  quiet strict (session_request method url a).
Proof. unfold session_request. quiet_auto. Qed.

Hint Resolve quiet_session_request : quiet.

Lemma quiet_make_request url method simulation_type net :
  quiet strict (make_request lib url method simulation_type net).
Proof.
  unfold make_request, request_headers, get_random_user_agent, send_request,
    simulate_dns_lookup, log_traffic, log_security_event.
  quiet_auto.
Qed.

Lemma quiet_compromised_behavior behavior_type d :
  quiet strict (simulate_compromised_behavior lib behavior_type d).
Proof.
  unfold simulate_compromised_behavior, log_compromise_activity. quiet_auto.
Qed.

Hint Resolve quiet_make_request quiet_compromised_behavior : quiet.

Lemma quiet_interact_all website session_type l :
  quiet strict (interact_all lib website session_type l).
Proof.
  induction l as [| i l IH]; simpl; [apply quiet_ret |].
  unfold interact. quiet_auto.
Qed.

Hint Resolve quiet_interact_all : quiet.

Lemma quiet_human_session website session_type s :
  quiet strict (simulate_human_browsing_session lib website session_type s).
Proof. unfold simulate_human_browsing_session. quiet_auto. Qed.

Lemma quiet_malicious_traffic s : quiet strict (simulate_malicious_traffic lib s).
Proof.
  unfold simulate_malicious_traffic, generate_malicious_payload, log_security_event.
  quiet_auto.
Qed.

Hint Resolve quiet_human_session quiet_malicious_traffic : quiet.

Lemma quiet_append_sessions request_type n pick from all_requests :
  quiet strict (append_sessions lib request_type n pick from all_requests).
Proof.
  revert from all_requests. induction n as [| n IH]; intros; simpl; quiet_auto.
Qed.

Hint Resolve quiet_append_sessions : quiet.

Lemma quiet_run_batch items script k : quiet strict (run_batch lib items script k).
Proof.
  revert k. induction items as [| item rest IH]; intros k; simpl; [apply quiet_ret |].
  unfold run_item. quiet_auto.
Qed.

Lemma quiet_run_uncollected items script k :
  quiet strict (run_uncollected lib items script k).
Proof.
  revert k. induction items as [| item rest IH]; intros k; simpl; [apply quiet_ret |].
  unfold run_item. quiet_auto.
Qed.

Hint Resolve quiet_run_batch quiet_run_uncollected : quiet.

Lemma quiet_run_pool all_requests win : quiet strict (run_pool lib all_requests win).
Proof. unfold run_pool. quiet_auto. Qed.

Hint Resolve quiet_run_pool : quiet.

Lemma quiet_wait minute_start signal :
  quiet strict (wait_rest_of_minute minute_start signal).
Proof. unfold wait_rest_of_minute. quiet_auto. Qed.

Hint Resolve quiet_wait : quiet.

Lemma quiet_run_minute mix requests_per_minute win :
  quiet strict (run_minute lib config mix requests_per_minute win).
Proof. unfold run_minute, dispatch_minute, compose_requests. quiet_auto. Qed.

End Quiet.

#[local] Hint Resolve quiet_run_minute : quiet.

Section Summary.

Context (lib : Platform) (config : Config).

(** The loop writes no summary record (it may run out of fuel). *)
Lemma quiet_scheduling_loop fuel requests_per_minute end_time windows i :
  quiet false (scheduling_loop lib config fuel requests_per_minute end_time windows i).
Proof.
  revert i. induction fuel as [| fuel IH]; intros i; simpl; quiet_auto.
  all: intros w; split; [reflexivity | discriminate].
Qed.

Lemma bind_ret {A B} (a : A) (k : A -> Py B) w : bind (ret a) k w = k a w.
Proof. reflexivity. Qed.

(** [json.dumps] stops at the first [datetime] it meets. *)
Lemma json_dumps_datetime items key t w :
  In (key, PyDatetime t) items -> json_dumps items w = (Raises TypeError, w).
Proof.
  induction items as [| [k v] rest IH]; intros Hin; [destruct Hin |].
  simpl. destruct Hin as [Heq | Hin].
  - injection Heq as -> ->. reflexivity.
  - destruct v; try reflexivity;
      (rewrite bind_ret; apply bind_raises, IH, Hin).
Qed.

(** [log_final_statistics] always raises, and leaves the world as it
    found it: the division fails when no time has passed since
    [__init__], and otherwise [json.dumps] meets the [datetime] stored
    under [start_time]. *)
Lemma log_final_statistics_raises w :
  log_final_statistics lib w
  = (Raises (if Qeq_bool ((clock w - start_time (session_stats w)) / 60) 0
             then ZeroDivisionError else TypeError), w).
Proof.
  unfold log_final_statistics. unfold bind at 1. unfold time_time.
  destruct (Qeq_bool ((clock w - start_time (session_stats w)) / 60) 0).
  - reflexivity.
  - unfold bind at 1. unfold ret at 1. unfold log_statistics.
    apply bind_raises, bind_raises.
    apply json_dumps_datetime with (key := "start_time")
                                   (t := start_time (session_stats w)).
    apply in_or_app. left. simpl. tauto.
Qed.

Lemma quiet_log_final_statistics strict : quiet strict (log_final_statistics lib).
Proof.
  intros w. rewrite log_final_statistics_raises.
  split; [reflexivity | discriminate].
Qed.

Lemma generate_advanced_traffic_unfold duration_minutes requests_per_minute
  windows fuel w :
  generate_advanced_traffic lib config duration_minutes requests_per_minute
                            windows fuel w
  = try_finally
      (try_except
         (scheduling_loop lib config fuel requests_per_minute
            (clock w + inject_Z (duration_minutes * 60)) windows 0)
         interrupt_handlers)
      (log_final_statistics lib)
      (logged (Info (TargetRate requests_per_minute))
         (logged (Info (StartingGeneration duration_minutes)) w)).
Proof. reflexivity. Qed.

Lemma quiet_generate_advanced_traffic duration_minutes requests_per_minute
  windows fuel :
  quiet false (generate_advanced_traffic lib config duration_minutes
                 requests_per_minute windows fuel).
Proof.
  unfold generate_advanced_traffic.
  repeat (apply quiet_bind; [quiet_auto | intros ?]).
  apply quiet_try_finally; [| apply quiet_log_final_statistics].
  apply quiet_try_except; [apply quiet_scheduling_loop |].
  unfold interrupt_handlers. quiet_auto.
Qed.

(** Whatever the body of the [try] does, the [finally] clause ends the
    call with an exception. *)
Lemma finally_log_final_statistics {A} (body : Py A) w :
  let outcome := fst (try_finally body (log_final_statistics lib) w) in
  outcome = Raises TypeError \/ outcome = Raises ZeroDivisionError
  \/ outcome = OutOfFuel.
Proof.
  cbv zeta. unfold try_finally.
  destruct (body w) as [[a|e|] w1]; rewrite ?log_final_statistics_raises;
    try destruct (Qeq_bool _ _); cbn [fst]; auto.
Qed.

(** C7, as the code has it: whatever the windows bring (the end time is
    reached, Ctrl-C arrives, an unexpected exception ends the loop),
    [generate_advanced_traffic] writes no summary record at all, and the
    call ends with the exception raised by [log_final_statistics] in the
    [finally] clause (or, in the model, the fuel runs out). *)
Theorem final_summary_is_never_emitted duration_minutes requests_per_minute
  windows fuel w :
  let result :=
    generate_advanced_traffic lib config duration_minutes requests_per_minute
                              windows fuel w in
  summaries (trace (snd result)) = summaries (trace w) /\
  (fst result = Raises TypeError \/ fst result = Raises ZeroDivisionError
   \/ fst result = OutOfFuel).
Proof.
  cbv zeta. split; [apply quiet_generate_advanced_traffic |].
  rewrite generate_advanced_traffic_unfold.
  apply finally_log_final_statistics.
Qed.


(** *** The run comes to its end *)

Lemma append_sessions_world request_type n pick from all_requests w :
  snd (append_sessions lib request_type n pick from all_requests w) = w.
Proof.
  revert from all_requests.
  induction n as [| n IH]; intros from all_requests; simpl; [reflexivity |].
  unfold bind. destruct (websites lib) as [| x l]; simpl; [reflexivity |].
  apply IH.
Qed.

Lemma compose_requests_world mix requests_per_minute win w :
  snd (compose_requests lib config mix requests_per_minute win w) = w.
Proof.
  unfold compose_requests. cbv zeta. unfold bind at 1.
  match goal with
  | |- context [append_sessions lib ?t ?n ?p ?f ?a w] =>
      pose proof (append_sessions_world t n p f a w) as H1;
      destruct (append_sessions lib t n p f a w) as [[l1|e|] w1]
  end; cbn [snd] in H1; subst w1; try reflexivity.
  unfold bind at 1.
  destruct (simulate_compromised_host config); [| reflexivity].
  match goal with
  | |- context [append_sessions lib ?t ?n ?p ?f ?a w] =>
      pose proof (append_sessions_world t n p f a w) as H2;
      destruct (append_sessions lib t n p f a w) as [[l2|e|] w2]
  end; cbn [snd] in H2; subst w2; reflexivity.
Qed.

(** When the batch of a window completes, [minute_start] is the time at
    which the window began and the clock has moved by the time the pool
    took. *)
Lemma dispatch_minute_returns mix requests_per_minute win w t w1 :
  dispatch_minute lib config mix requests_per_minute win w = (Returns t, w1) ->
  t = clock w /\ clock w1 = (clock w + pool_seconds win)%Q.
Proof.
  unfold dispatch_minute. unfold bind at 1. unfold time_time. unfold bind at 1.
  pose proof (compose_requests_world mix requests_per_minute win w) as Hw.
  destruct (compose_requests lib config mix requests_per_minute win w)
    as [[l|e|] w0]; cbn [snd] in Hw; subst w0; try discriminate.
  unfold bind at 1. unfold ThreadPoolExecutor.
  destruct (max_workers config <=? 0); [discriminate |].
  unfold ret at 1. unfold bind at 1. unfold drain.
  destruct (run_pool lib _ win w) as [[[]|e|] w2]; try discriminate.
  unfold ret. intros H. injection H as <- <-. split; reflexivity.
Qed.

Lemma run_minute_advances mix requests_per_minute win w w' :
  run_minute lib config mix requests_per_minute win w = (Returns tt, w') ->
  (0 <= pool_seconds win)%Q ->
  (clock w + 60 <= clock w')%Q.
Proof.
  unfold run_minute. unfold bind at 1.
  destruct (dispatch_minute lib config mix requests_per_minute win w)
    as [[t|e|] w1] eqn:D; try discriminate.
  apply dispatch_minute_returns in D. destruct D as [-> Hc].
  unfold wait_rest_of_minute. unfold bind at 1. unfold bind at 1.
  unfold time_time.
  destruct (Qlt_le_dec (clock w1 - clock w) 60) as [Hlt | Hge].
  - destruct (interrupt win) as [[collected|]|]; try discriminate;
      unfold time_sleep;
      (destruct (Qlt_le_dec (60 - (clock w1 - clock w)) 0); [discriminate |]);
      unfold emit; intros H Hpool; injection H as <-; cbn [clock]; lra.
  - unfold ret, emit. intros H Hpool. injection H as <-. cbn [clock]. lra.
Qed.

Lemma inject_Z_succ (n : nat) :
  (inject_Z (Z.of_nat (S n)) == inject_Z (Z.of_nat n) + 1)%Q.
Proof. rewrite Nat2Z.inj_succ. unfold Z.succ. rewrite inject_Z_plus. reflexivity. Qed.

(** With one unit of fuel per minute still to go, the loop reaches the
    end of the run. *)
Lemma scheduling_loop_ends requests_per_minute end_time windows fuel :
  (forall j, 0 <= pool_seconds (windows j))%Q ->
  forall i w,
    (end_time - clock w <= 60 * inject_Z (Z.of_nat fuel))%Q ->
    fst (scheduling_loop lib config fuel requests_per_minute end_time windows i w)
    <> OutOfFuel.
Proof.
  intros Hpool. induction fuel as [| fuel IH]; intros i w Hleft.
  - simpl. unfold bind, time_time.
    destruct (Qlt_le_dec (clock w) end_time) as [Hlt | Hge]; [| discriminate].
    exfalso. change (inject_Z (Z.of_nat 0)) with 0%Q in Hleft. lra.
  - cbn [scheduling_loop]. unfold bind at 1. unfold time_time.
    destruct (Qlt_le_dec (clock w) end_time) as [Hlt | Hge]; [| discriminate].
    unfold bind.
    destruct (run_minute lib config traffic_composition requests_per_minute
                         (windows i) w) as [[[]|e|] w'] eqn:R.
    + apply IH. apply run_minute_advances in R; [| apply Hpool].
      rewrite inject_Z_succ in Hleft. lra.
    + discriminate.
    + exfalso.
      apply (proj2 (quiet_run_minute lib config true traffic_composition
                      requests_per_minute (windows i) w) eq_refl).
      rewrite R. reflexivity.
Qed.

(** A run with enough fuel for its minutes ends, and it ends with the
    exception of [log_final_statistics]. *)
Lemma generate_advanced_traffic_ends duration_minutes requests_per_minute
  windows fuel w :
  (forall j, 0 <= pool_seconds (windows j))%Q ->
  duration_minutes <= Z.of_nat fuel ->
  let outcome :=
    fst (generate_advanced_traffic lib config duration_minutes requests_per_minute
                                   windows fuel w) in
  outcome = Raises TypeError \/ outcome = Raises ZeroDivisionError.
Proof.
  intros Hpool Hfuel outcome.
  assert (Hne : outcome <> OutOfFuel).
  { subst outcome. rewrite generate_advanced_traffic_unfold.
    unfold try_finally, try_except.
    match goal with
    | |- context [scheduling_loop lib config fuel ?r ?t ?ws ?i ?w0] =>
        pose proof (scheduling_loop_ends r t ws fuel Hpool i w0) as Hloop;
        destruct (scheduling_loop lib config fuel r t ws i w0) as [[[]|e|] w1]
    end.
    - rewrite log_final_statistics_raises. discriminate.
    - destruct e; unfold interrupt_handlers; cbn [is_Exception]; unfold emit;
        rewrite log_final_statistics_raises; discriminate.
    - exfalso. apply Hloop; [| reflexivity].
      unfold logged. cbn [clock]. rewrite inject_Z_mult.
      assert (inject_Z duration_minutes <= inject_Z (Z.of_nat fuel))%Q
        by (rewrite <- Zle_Qle; exact Hfuel).
      change (inject_Z 60) with 60%Q. lra. }
  subst outcome. revert Hne. rewrite generate_advanced_traffic_unfold.
  intros Hne.
  destruct (finally_log_final_statistics
              (try_except
                 (scheduling_loop lib config fuel requests_per_minute
                    (clock w + inject_Z (duration_minutes * 60)) windows 0)
                 interrupt_handlers)
              (logged (Info (TargetRate requests_per_minute))
                 (logged (Info (StartingGeneration duration_minutes)) w)))
    as [H | [H | H]]; auto.
  contradiction.
Qed.

End Summary.

(** The ways a run can end, on sample inputs: the end time is reached,
    Ctrl-C arrives while the pool drains or during the sleep, and the
    pool constructor fails.  Each time the statistics log stays empty
    and the call raises [TypeError]. *)
Example no_summary_on_any_path :
  let run config signal :=
    generate_advanced_traffic sample_platform config 1 2
      (fun _ => window_with (Answers (mkResponse 200)) 5 signal) 1
      (mkWorld (mkStats 0 0 0 0 0 0) 0 [] 3) in
  let outcome r := (fst r, summaries (trace (snd r))) in
  outcome (run sample_config None) = (Raises TypeError, []) /\
  outcome (run sample_config (Some (WhileDraining 0))) = (Raises TypeError, []) /\
  outcome (run sample_config (Some WhileSleeping)) = (Raises TypeError, []) /\
  outcome (run (mkConfig 0 true true) None) = (Raises TypeError, []).
Proof. vm_compute. repeat split. Qed.

End SummaryFacts.

(** ** The composition of a minute *)

Module PlannerFacts.

Import AdvancedWebTrafficSimulator.

(** *** Shuffling permutes *)

Section Shuffle.

Context {A : Type}.

Lemma list_set_permutation (x : list A) i a b :
  nth_error x i = Some a -> Permutation (a :: list_set x i b) (b :: x).
Proof.
  revert i. induction x as [| c x IH]; intros [| i] H; simpl in H; try discriminate.
  - injection H as ->. simpl. apply perm_swap.
  - simpl. eapply perm_trans; [apply perm_swap |].
    eapply perm_trans; [apply perm_skip, IH, H |]. apply perm_swap.
Qed.

Lemma nth_error_list_set (x : list A) i j a b :
  nth_error x i = Some a -> nth_error x j = Some b ->
  nth_error (list_set x i b) j = Some b.
Proof.
  revert i j. induction x as [| c x IH]; intros [| i] [| j] Hi Hj;
    simpl in *; try discriminate; try assumption.
  - reflexivity.
  - eapply IH; eassumption.
Qed.

Lemma swap_permutation i j (x : list A) : Permutation (swap i j x) x.
Proof.
  unfold swap.
  destruct (nth_error x i) as [a|] eqn:Hi; [| reflexivity].
  destruct (nth_error x j) as [b|] eqn:Hj; [| reflexivity].
  apply Permutation_cons_inv with (a := b).
  eapply perm_trans.
  - apply list_set_permutation. eapply nth_error_list_set; eassumption.
  - apply list_set_permutation. assumption.
Qed.

Lemma shuffle_from_permutation i draw (x : list A) :
  Permutation (shuffle_from i draw x) x.
Proof.
  revert x. induction i as [| i IH]; intros x; simpl; [reflexivity |].
  eapply perm_trans; [apply IH | apply swap_permutation].
Qed.

(** [random.shuffle] rearranges the list and nothing else. *)
Lemma random_shuffle_permutation draw (x : list A) :
  Permutation (random_shuffle draw x) x.
Proof. apply shuffle_from_permutation. Qed.

Lemma filter_permutation (p : A -> bool) (l l' : list A) :
  Permutation l l' -> Permutation (filter p l) (filter p l').
Proof.
  induction 1 as [| a l l' _ IH | a b l | l l' l'' _ IH1 _ IH2]; simpl.
  - constructor.
  - destruct (p a); [apply perm_skip |]; assumption.
  - destruct (p a), (p b); try reflexivity. apply perm_swap.
  - eapply perm_trans; eassumption.
Qed.

End Shuffle.

Lemma count_type_shuffle request_type draw batch :
  count_type request_type (random_shuffle draw batch) = count_type request_type batch.
Proof.
  unfold count_type. apply Permutation_length, filter_permutation,
    random_shuffle_permutation.
Qed.

Lemma length_shuffle {A} draw (batch : list A) :
  List.length (random_shuffle draw batch) = List.length batch.
Proof. apply Permutation_length, random_shuffle_permutation. Qed.

(** *** Counting the items of a batch *)

Lemma count_type_app request_type l l' :
  count_type request_type (l ++ l')
  = (count_type request_type l + count_type request_type l')%nat.
Proof. unfold count_type. rewrite filter_app. apply length_app. Qed.

(** A run of items of one type. *)
Lemma count_type_uniform request_type ty (l : list WorkItem) :
  Forall (fun item => fst item = ty) l ->
  count_type request_type l
  = if (ty =? request_type)%string then List.length l else 0%nat.
Proof.
  unfold count_type. induction 1 as [| item l Hitem _ IH]; simpl.
  - destruct (ty =? request_type)%string; reflexivity.
  - rewrite Hitem. destruct (ty =? request_type)%string; simpl; rewrite IH; reflexivity.
Qed.

(** *** [int] on a non-negative float *)

Lemma py_int_floor (x : Q) : (0 <= x)%Q -> py_int x = Qfloor x.
Proof.
  destruct x as [n d]. unfold Qle, py_int, Qfloor. simpl. intros H.
  apply Z.quot_div_nonneg; lia.
Qed.

Lemma Qfloor_nonneg (x : Q) : (0 <= x)%Q -> 0 <= Qfloor x.
Proof. intros H. change 0 with (Qfloor 0). apply Qfloor_resp_le. exact H. Qed.

Section Planner.

Context (lib : Platform) (config : Config).

(** What [append_sessions] returns when it returns. *)
Lemma append_sessions_items request_type n pick from all_requests w l' w' :
  append_sessions lib request_type n pick from all_requests w = (Returns l', w') ->
  exists l,
    l' = (all_requests ++ l)%list /\ List.length l = n /\
    Forall (fun item => fst item = request_type) l.
Proof.
  revert from all_requests. induction n as [| n IH]; intros from all_requests H.
  - injection H as <- _. exists []. rewrite app_nil_r. auto.
  - simpl in H. unfold bind in H.
    destruct (websites lib) as [| x sites]; simpl in H; [discriminate |].
    apply IH in H. destruct H as (l & -> & Hlen & Hall).
    eexists (_ :: l). rewrite <- app_assoc. simpl.
    split; [reflexivity |]. split; [lia |]. constructor; [reflexivity | assumption].
Qed.

(** It returns as soon as there is a website to choose. *)
Lemma append_sessions_returns request_type n pick from all_requests w :
  websites lib <> [] ->
  exists l', append_sessions lib request_type n pick from all_requests w = (Returns l', w).
Proof.
  intros Hsites. revert from all_requests.
  induction n as [| n IH]; intros from all_requests; simpl.
  - eexists. reflexivity.
  - unfold bind. destruct (websites lib) as [| x sites] eqn:E; [congruence |].
    simpl. apply IH.
Qed.


(** The batch of a minute, whenever it gets built: the normal items,
    then the compromised ones if enabled, then the malicious ones if
    enabled. *)
Lemma compose_requests_items mix requests_per_minute win w all_requests w' :
  compose_requests lib config mix requests_per_minute win w = (Returns all_requests, w') ->
  let planned share := range_len (py_int (inject_Z requests_per_minute * share)) in
  count_type "normal" all_requests = planned (normal_share mix) /\
  count_type "compromised" all_requests
  = (if simulate_compromised_host config then planned (compromised_share mix)
     else 0%nat) /\
  count_type "malicious" all_requests
  = (if security_simulation_enabled config then planned (malicious_share mix)
     else 0%nat) /\
  List.length all_requests
  = (count_type "normal" all_requests + count_type "compromised" all_requests
     + count_type "malicious" all_requests)%nat.
Proof.
  unfold compose_requests. cbv zeta. unfold bind at 1.
  destruct (append_sessions lib "normal" _ _ 0 [] w) as [[l1|e|] w1] eqn:E1;
    try discriminate.
  apply append_sessions_items in E1. destruct E1 as (n1 & -> & Hn1 & Hall1).
  cbn [app]. unfold bind at 1.
  assert (Hmal : forall k, Forall (fun item : WorkItem => fst item = "malicious")
                             (repeat ("malicious", None) k)).
  { intros k. induction k; simpl; constructor; auto. }
  pose proof (fun rt => count_type_uniform rt _ _ Hall1) as K1.
  pose proof (fun rt k => count_type_uniform rt _ _ (Hmal k)) as K3.
  destruct (simulate_compromised_host config).
  - destruct (append_sessions lib "compromised" _ _ _ n1 w1) as [[l2|e|] w2] eqn:E2;
      try discriminate.
    apply append_sessions_items in E2. destruct E2 as (n2 & -> & Hn2 & Hall2).
    pose proof (fun rt => count_type_uniform rt _ _ Hall2) as K2.
    destruct (security_simulation_enabled config); unfold ret; intros H;
      injection H as <- _;
      rewrite ?count_type_app, ?length_app, ?repeat_length, ?K1, ?K2, ?K3,
        ?repeat_length;
      simpl; rewrite Hn1, Hn2; repeat split; lia.
  - destruct (security_simulation_enabled config); unfold ret; intros H;
      injection H as <- _;
      rewrite ?count_type_app, ?length_app, ?repeat_length, ?K1, ?K3,
        ?repeat_length;
      simpl; rewrite Hn1; repeat split; lia.
Qed.

Lemma compose_requests_returns mix requests_per_minute win w :
  websites lib <> [] ->
  exists all_requests,
    compose_requests lib config mix requests_per_minute win w = (Returns all_requests, w).
Proof.
  intros Hsites. unfold compose_requests. cbv zeta.
  edestruct (append_sessions_returns "normal") as (l1 & E1); [exact Hsites |].
  rewrite (bind_returns _ _ _ E1).
  destruct (simulate_compromised_host config).
  - edestruct (append_sessions_returns "compromised") as (l2 & E2); [exact Hsites |].
    rewrite (bind_returns _ _ _ E2). eexists. reflexivity.
  - eexists. reflexivity.
Qed.


Lemma planned_floor requests_per_minute share :
  0 <= requests_per_minute -> (0 <= share)%Q ->
  Z.of_nat (range_len (py_int (inject_Z requests_per_minute * share)))
  = Qfloor (inject_Z requests_per_minute * share)
  /\ 0 <= Qfloor (inject_Z requests_per_minute * share)
  /\ (inject_Z (Qfloor (inject_Z requests_per_minute * share))
      <= inject_Z requests_per_minute * share)%Q.
Proof.
  intros Hr Hs.
  assert (Hprod : (0 <= inject_Z requests_per_minute * share)%Q).
  { apply Qmult_le_0_compat; [| assumption].
    change 0%Q with (inject_Z 0). rewrite <- Zle_Qle. assumption. }
  pose proof (Qfloor_nonneg _ Hprod) as Hfloor.
  unfold range_len. rewrite py_int_floor by assumption.
  rewrite Z2Nat.id by assumption.
  split; [reflexivity |]. split; [assumption | apply Qfloor_le].
Qed.

(** C2. For a non-negative request rate and non-negative shares that sum
    to at most 1, the batch of a minute gets built, and the batch that
    is dispatched holds [floor(rate * share)] items of each enabled
    class and none of a disabled one; its size is the sum of these
    counts (nothing is added to make up for the truncation) and is at
    most the rate.  The program runs this step with the shares 0.8, 0.15
    and 0.05. *)
Theorem planner_counts_are_floors mix requests_per_minute win w :
  0 <= requests_per_minute ->
  (0 <= normal_share mix)%Q ->
  (0 <= compromised_share mix)%Q ->
  (0 <= malicious_share mix)%Q ->
  (normal_share mix + compromised_share mix + malicious_share mix <= 1)%Q ->
  websites lib <> [] ->
  exists all_requests,
    compose_requests lib config mix requests_per_minute win w
    = (Returns all_requests, w) /\
    let batch := random_shuffle (shuffle_pick win) all_requests in
    let floor_of share := Qfloor (inject_Z requests_per_minute * share) in
    Z.of_nat (count_type "normal" batch) = floor_of (normal_share mix) /\
    Z.of_nat (count_type "compromised" batch)
    = (if simulate_compromised_host config then floor_of (compromised_share mix)
       else 0) /\
    Z.of_nat (count_type "malicious" batch)
    = (if security_simulation_enabled config then floor_of (malicious_share mix)
       else 0) /\
    List.length batch
    = (count_type "normal" batch + count_type "compromised" batch
       + count_type "malicious" batch)%nat /\
    Z.of_nat (List.length batch) <= requests_per_minute.
Proof.
  intros Hr Hn Hc Hm Hsum Hsites.
  destruct (compose_requests_returns mix requests_per_minute win w Hsites)
    as (all_requests & Hrun).
  exists all_requests. split; [exact Hrun |]. cbv zeta.
  destruct (compose_requests_items _ _ _ _ _ _ Hrun) as (K1 & K2 & K3 & Clen).
  rewrite !count_type_shuffle, length_shuffle.
  destruct (planned_floor requests_per_minute (normal_share mix) Hr Hn)
    as (P1 & F1 & L1).
  destruct (planned_floor requests_per_minute (compromised_share mix) Hr Hc)
    as (P2 & F2 & L2).
  destruct (planned_floor requests_per_minute (malicious_share mix) Hr Hm)
    as (P3 & F3 & L3).
  assert (Hfloors :
    Qfloor (inject_Z requests_per_minute * normal_share mix)
    + Qfloor (inject_Z requests_per_minute * compromised_share mix)
    + Qfloor (inject_Z requests_per_minute * malicious_share mix)
    <= requests_per_minute).
  { rewrite Zle_Qle, !inject_Z_plus.
    assert (Hq : (0 <= inject_Z requests_per_minute)%Q)
      by (change 0%Q with (inject_Z 0); rewrite <- Zle_Qle; assumption).
    assert (Hle : ((normal_share mix + compromised_share mix + malicious_share mix)
                   * inject_Z requests_per_minute
                   <= 1 * inject_Z requests_per_minute)%Q)
      by (apply Qmult_le_compat_r; assumption).
    lra. }
  rewrite K1, P1. split; [reflexivity |].
  split; [rewrite K2; destruct (simulate_compromised_host config);
          [exact P2 | reflexivity] |].
  split; [rewrite K3; destruct (security_simulation_enabled config);
          [exact P3 | reflexivity] |].
  split; [rewrite Clen, K1; reflexivity |].
  rewrite Clen, K1, K2, K3, !Nat2Z.inj_add, P1.
  destruct (simulate_compromised_host config),
    (security_simulation_enabled config); rewrite ?P2, ?P3; simpl Z.of_nat; lia.
Qed.

(** C4. Whatever the shares and the rate, a batch built while the
    compromised class is disabled holds no compromised item, and a batch
    built while the malicious class is disabled holds no malicious
    item. *)
Theorem disabled_class_gets_no_items mix requests_per_minute win w all_requests w' :
  compose_requests lib config mix requests_per_minute win w
  = (Returns all_requests, w') ->
  let batch := random_shuffle (shuffle_pick win) all_requests in
  (simulate_compromised_host config = false ->
   count_type "compromised" batch = 0%nat) /\
  (security_simulation_enabled config = false ->
   count_type "malicious" batch = 0%nat).
Proof.
  intros Hrun. cbv zeta.
  destruct (compose_requests_items _ _ _ _ _ _ Hrun) as (_ & K2 & K3 & _).
  rewrite !count_type_shuffle. split; intros Hoff.
  - rewrite K2, Hoff. reflexivity.
  - rewrite K3, Hoff. reflexivity.
Qed.

End Planner.

Lemma planner_counts_are_floors_witness :
  0 <= 15 /\
  (0 <= normal_share traffic_composition)%Q /\
  (0 <= compromised_share traffic_composition)%Q /\
  (0 <= malicious_share traffic_composition)%Q /\
  (normal_share traffic_composition + compromised_share traffic_composition
   + malicious_share traffic_composition <= 1)%Q /\
  websites sample_platform <> [] /\
  exists all_requests,
    compose_requests sample_platform sample_config traffic_composition 15
      (window_with Fails 1 None) (initial_world 0)
    = (Returns all_requests, initial_world 0) /\
    let batch := random_shuffle (fun _ => 0%nat) all_requests in
    Z.of_nat (count_type "normal" batch) = 12 /\
    Z.of_nat (count_type "compromised" batch) = 2 /\
    Z.of_nat (count_type "malicious" batch) = 0 /\
    List.length batch
    = (count_type "normal" batch + count_type "compromised" batch
       + count_type "malicious" batch)%nat /\
    Z.of_nat (List.length batch) <= 15.
Proof.
  assert (H0 : 0 <= 15) by lia.
  assert (H1 : (0 <= normal_share traffic_composition)%Q) by discriminate.
  assert (H2 : (0 <= compromised_share traffic_composition)%Q) by discriminate.
  assert (H3 : (0 <= malicious_share traffic_composition)%Q) by discriminate.
  assert (H4 : (normal_share traffic_composition
                + compromised_share traffic_composition
                + malicious_share traffic_composition <= 1)%Q) by discriminate.
  assert (H5 : websites sample_platform <> []) by discriminate.
  repeat (split; [assumption |]).
  exact (planner_counts_are_floors sample_platform sample_config
           traffic_composition 15 (window_with Fails 1 None) (initial_world 0)
           H0 H1 H2 H3 H4 H5).
Defined.

Lemma disabled_class_gets_no_items_witness :
  let off := mkConfig 8 false false in
  let all_requests : list WorkItem :=
    repeat ("normal", Some "https://www.google.com") 32 in
  let batch := random_shuffle (fun _ => 0%nat) all_requests in
  let planned config :=
    match compose_requests sample_platform config traffic_composition 40
            (window_with Fails 1 None) (initial_world 0) with
    | (Returns l, _) => (count_type "compromised" l, count_type "malicious" l)
    | _ => (0%nat, 0%nat)
    end in
  py_int (inject_Z 40 * compromised_share traffic_composition) = 6 /\
  py_int (inject_Z 40 * malicious_share traffic_composition) = 2 /\
  planned sample_config = (6%nat, 2%nat) /\
  compose_requests sample_platform off traffic_composition 40
    (window_with Fails 1 None) (initial_world 0)
  = (Returns all_requests, initial_world 0) /\
  count_type "compromised" batch = 0%nat /\
  count_type "malicious" batch = 0%nat.
Proof.
  cbv zeta.
  assert (H : compose_requests sample_platform (mkConfig 8 false false)
                traffic_composition 40 (window_with Fails 1 None) (initial_world 0)
              = (Returns (repeat ("normal", Some "https://www.google.com") 32),
                 initial_world 0)) by reflexivity.
  split; [reflexivity |]. split; [reflexivity |]. split; [reflexivity |].
  split; [exact H |].
  destruct (disabled_class_gets_no_items sample_platform (mkConfig 8 false false)
              traffic_composition 40 (window_with Fails 1 None) (initial_world 0)
              _ _ H) as [Hc Hm].
  split; [exact (Hc eq_refl) | exact (Hm eq_refl)].
Defined.

End PlannerFacts.

(** ** The worker pool *)

Module ExecutorFacts.

Import Executor.

Section Pool.

Context {Item : Type}.

Abbreviation State := (Executor.State Item).

Lemma length_remove_nth {A} k (l : list A) (x : A) :
  nth_error l k = Some x -> S (List.length (remove_nth k l)) = List.length l.
Proof.
  revert k. induction l as [| a l IH]; intros [| k] H; simpl in *; try discriminate.
  - reflexivity.
  - f_equal. eapply IH. eassumption.
Qed.

Lemma invariant_enter workers (batch : list Item) s0 :
  enter workers batch = Some s0 -> invariant s0 /\ Z.of_nat (limit s0) = workers.
Proof.
  unfold enter. destruct (Z.leb_spec workers 0) as [| Hpos]; [discriminate |].
  intros H. injection H as <-. split.
  - constructor; simpl; try lia. congruence.
  - simpl. lia.
Qed.

Lemma invariant_step m (s s' : State) :
  step m s = Some s' -> invariant s -> invariant s' /\ limit s' = limit s.
Proof.
  intros Hstep [Hrun Hthr Hlim Hidle Hq]. destruct m as [| | k]; simpl in Hstep.
  - destruct (pending s) as [| item rest]; [discriminate |].
    destruct (Nat.ltb_spec 0 (idle s)) as [Hi | Hi].
    + injection Hstep as <-. split; [| reflexivity].
      constructor; simpl; auto; lia.
    + destruct (Nat.ltb_spec (threads s) (limit s)) as [Ht | Ht];
        injection Hstep as <-; (split; [| reflexivity]);
        constructor; simpl; intros; lia.
  - destruct (queue s) as [| item q] eqn:Eq; [discriminate |].
    destruct (Nat.ltb_spec (List.length (running s)) (threads s)) as [Hfree | Hfull];
      [| discriminate].
    injection Hstep as <-. split; [| reflexivity].
    constructor; simpl; intros; lia.
  - destruct (nth_error (running s) k) as [item|] eqn:Ek; [| discriminate].
    injection Hstep as <-. split; [| reflexivity].
    pose proof (length_remove_nth _ _ _ Ek).
    constructor; simpl; intros; auto; lia.
Qed.

Lemma invariant_run schedule (s s' : State) :
  run schedule s = Some s' -> invariant s -> invariant s' /\ limit s' = limit s.
Proof.
  revert s. induction schedule as [| m schedule IH]; intros s Hrun Hinv; simpl in Hrun.
  - injection Hrun as <-. auto.
  - destruct (step m s) as [s1|] eqn:E; [| discriminate].
    destruct (invariant_step _ _ _ E Hinv) as [Hinv1 Hlim1].
    destruct (IH _ Hrun Hinv1) as [Hinv' Hlim']. split; [assumption | congruence].
Qed.

(** C3. In every state the pool reaches from the entry of the [with]
    block, whatever the batch and the schedule, the number of items
    being executed is at most [config["max_workers"]]; and when it
    equals that number, a submitted item only joins the queue, no queued
    item can be taken, and the only move that changes the set of running
    items is the completion of one of them. *)
Theorem pool_never_exceeds_its_limit (config : Config) (batch : list Item)
  s0 schedule s :
  enter (max_workers config) batch = Some s0 ->
  run schedule s0 = Some s ->
  Z.of_nat (List.length (running s)) <= max_workers config /\
  forall m s',
    step m s = Some s' ->
    Z.of_nat (List.length (running s)) = max_workers config ->
    match m with
    | Submit =>
        running s' = running s /\
        exists item, queue s' = (queue s ++ [item])%list
    | Take => False
    | Finish _ =>
        queue s' = queue s /\
        (List.length (running s') < List.length (running s))%nat
    end.
Proof.
  intros Henter Hrun.
  destruct (invariant_enter _ _ _ Henter) as [Hinv0 Hlim0].
  destruct (invariant_run _ _ _ Hrun Hinv0) as [[Hr Ht Hl Hi Hq] Hlim].
  assert (Hbound : Z.of_nat (List.length (running s)) <= max_workers config) by lia.
  split; [exact Hbound |].
  intros m s' Hstep Hfull. destruct m as [| | k]; simpl in Hstep.
  - destruct (pending s) as [| item rest]; [discriminate |].
    destruct (0 <? idle s)%nat; [| destruct (threads s <? limit s)%nat];
      injection Hstep as <-; simpl; eauto.
  - destruct (queue s) as [| item q]; [discriminate |].
    destruct (Nat.ltb_spec (List.length (running s)) (threads s)) as [Hfree | _];
      [lia | discriminate].
  - destruct (nth_error (running s) k) as [item|] eqn:Ek; [| discriminate].
    injection Hstep as <-. simpl. split; [reflexivity |].
    pose proof (length_remove_nth _ _ _ Ek). lia.
Qed.

(** *** The pool neither loses nor repeats an item, and it drains *)

Lemma remove_nth_permutation {A} k (l : list A) x :
  nth_error l k = Some x -> Permutation (x :: remove_nth k l) l.
Proof.
  revert k. induction l as [| a l IH]; intros [| k] H; simpl in *; try discriminate.
  - injection H as ->. reflexivity.
  - eapply perm_trans; [apply perm_swap | apply perm_skip, IH, H].
Qed.

Lemma items_step m (s s' : State) :
  step m s = Some s' -> Permutation (items s') (items s).
Proof.
  unfold items. intros Hstep. destruct m as [| | k]; simpl in Hstep.
  - destruct (pending s) as [| item rest]; [discriminate |].
    assert (Hp : Permutation (rest ++ (queue s ++ [item]) ++ running s ++ completed s)
                             ((item :: rest) ++ queue s ++ running s ++ completed s)).
    { simpl. rewrite <- (app_assoc (queue s) [item]). simpl. symmetry.
      rewrite (app_assoc rest (queue s) (item :: _)).
      rewrite (app_assoc rest (queue s) (running s ++ _)).
      apply Permutation_middle. }
    destruct (0 <? idle s)%nat; [| destruct (threads s <? limit s)%nat];
      injection Hstep as <-; exact Hp.
  - destruct (queue s) as [| item q]; [discriminate |].
    destruct (List.length (running s) <? threads s)%nat; [| discriminate].
    injection Hstep as <-. simpl.
    apply Permutation_app_head. symmetry. apply Permutation_middle.
  - destruct (nth_error (running s) k) as [item|] eqn:Ek; [| discriminate].
    injection Hstep as <-. simpl.
    apply Permutation_app_head, Permutation_app_head.
    eapply perm_trans; [symmetry; apply Permutation_middle |].
    change (Permutation ((item :: remove_nth k (running s)) ++ completed s)
                        (running s ++ completed s)).
    apply Permutation_app_tail, remove_nth_permutation, Ek.
Qed.

Lemma work_left_step m (s s' : State) :
  step m s = Some s' -> (work_left s' < work_left s)%nat.
Proof.
  unfold work_left. intros Hstep. destruct m as [| | k]; simpl in Hstep.
  - destruct (pending s) as [| item rest]; [discriminate |].
    destruct (0 <? idle s)%nat; [| destruct (threads s <? limit s)%nat];
      injection Hstep as <-; simpl; rewrite length_app; simpl; lia.
  - destruct (queue s) as [| item q]; [discriminate |].
    destruct (List.length (running s) <? threads s)%nat; [| discriminate].
    injection Hstep as <-. simpl. lia.
  - destruct (nth_error (running s) k) as [item|] eqn:Ek; [| discriminate].
    injection Hstep as <-. simpl. pose proof (length_remove_nth _ _ _ Ek). lia.
Qed.

(** A pool that is not drained can always move: no item waits for ever. *)
Lemma pool_progress (s : State) :
  invariant s -> drained s = false -> exists m s', step m s = Some s'.
Proof.
  intros [Hr Ht Hl Hi Hq] Hd. unfold drained in Hd.
  destruct (pending s) as [| item rest] eqn:Ep.
  - destruct (queue s) as [| item q] eqn:Eq.
    + destruct (running s) as [| item r] eqn:Er; [discriminate |].
      exists (Finish 0). simpl. rewrite Er. simpl. eauto.
    + destruct (Nat.ltb_spec (List.length (running s)) (threads s)) as [Hfree | Hfull].
      * exists Take. simpl. rewrite Eq.
        destruct (Nat.ltb_spec (List.length (running s)) (threads s)); [eauto | lia].
      * assert (0 < threads s)%nat by (apply Hq; discriminate).
        destruct (running s) as [| it r] eqn:Er; [simpl in Hfull; lia |].
        exists (Finish 0). simpl. rewrite Er. simpl. eauto.
  - exists Submit. simpl. rewrite Ep.
    destruct (0 <? idle s)%nat; [| destruct (threads s <? limit s)%nat]; eauto.
Qed.


Lemma run_app schedule schedule' (s s1 : State) :
  run schedule s = Some s1 -> run (schedule ++ schedule') s = run schedule' s1.
Proof.
  revert s. induction schedule as [| m schedule IH]; intros s H; simpl in *.
  - injection H as <-. reflexivity.
  - destruct (step m s) as [s2|]; [apply IH, H | discriminate].
Qed.

Lemma items_run schedule (s s' : State) :
  run schedule s = Some s' -> Permutation (items s') (items s).
Proof.
  revert s. induction schedule as [| m schedule IH]; intros s H; simpl in H.
  - injection H as <-. reflexivity.
  - destruct (step m s) as [s1|] eqn:E; [| discriminate].
    eapply perm_trans; [apply IH, H | eapply items_step, E].
Qed.

(** From any state the pool can be run until it is drained. *)
Lemma pool_drains_from n (s : State) :
  (work_left s <= n)%nat -> invariant s ->
  exists schedule s', run schedule s = Some s' /\ drained s' = true.
Proof.
  revert s. induction n as [| n IH]; intros s Hn Hinv.
  - exists [], s. split; [reflexivity |]. unfold work_left in Hn. unfold drained.
    destruct (pending s), (queue s), (running s); simpl in Hn;
      first [reflexivity | lia].
  - destruct (drained s) eqn:Hd.
    + exists [], s. split; [reflexivity | assumption].
    + destruct (pool_progress s Hinv Hd) as (m & s1 & Hstep).
      pose proof (work_left_step _ _ _ Hstep) as Hless.
      destruct (invariant_step _ _ _ Hstep Hinv) as [Hinv1 _].
      destruct (IH s1 ltac:(lia) Hinv1) as (schedule & s' & Hrun & Hdone).
      exists (m :: schedule), s'. simpl. rewrite Hstep. auto.
Qed.

(** Every batch can be run to its end, each item exactly once. *)
Lemma pool_drains workers (batch : list Item) s0 :
  enter workers batch = Some s0 ->
  exists schedule s,
    run schedule s0 = Some s /\ drained s = true /\ Permutation (completed s) batch.
Proof.
  intros Henter. destruct (invariant_enter _ _ _ Henter) as [Hinv0 _].
  destruct (pool_drains_from _ s0 (le_n _) Hinv0) as (schedule & s & Hrun & Hdone).
  exists schedule, s. split; [assumption |]. split; [assumption |].
  pose proof (items_run _ _ _ Hrun) as Hitems.
  unfold enter in Henter. destruct (workers <=? 0); [discriminate |].
  injection Henter as <-. unfold items in Hitems. simpl in Hitems.
  unfold drained in Hdone.
  destruct (pending s), (queue s), (running s); try discriminate.
  simpl in Hitems. rewrite app_nil_r in Hitems. exact Hitems.
Qed.

End Pool.

Lemma pool_never_exceeds_its_limit_witness :
  let config := mkConfig 2 true true in
  let s0 := mkState 2%nat ["a"; "b"; "c"] [] 0%nat 0%nat [] [] in
  let schedule := [Submit; Take; Submit; Take; Submit] in
  let s := mkState 2%nat [] ["c"] 2%nat 0%nat ["b"; "a"] [] in
  enter (max_workers config) ["a"; "b"; "c"] = Some s0 /\
  run schedule s0 = Some s /\
  Z.of_nat (List.length (running s)) <= 2 /\
  step Take s = None.
Proof.
  cbv zeta.
  split; [reflexivity |]. split; [reflexivity |].
  destruct (pool_never_exceeds_its_limit (mkConfig 2 true true) ["a"; "b"; "c"]
              (mkState 2%nat ["a"; "b"; "c"] [] 0%nat 0%nat [] [])
              [Submit; Take; Submit; Take; Submit]
              (mkState 2%nat [] ["c"] 2%nat 0%nat ["b"; "a"] [])
              eq_refl eq_refl) as [Hbound Hfull].
  split; [exact Hbound | reflexivity].
Defined.

End ExecutorFacts.

(** ** The jitter of [browse_sim.py] *)

Module JitterFacts.

Import BrowseSim.

(** [max] never returns less than its first argument. *)
Lemma py_max_lower (a b : Q) : (a <= py_max a b)%Q.
Proof.
  unfold py_max. destruct (Qlt_le_dec a b) as [Hlt | Hge].
  - apply Qlt_le_weak. exact Hlt.
  - apply Qle_refl.
Qed.

(** C10. Whatever the base, the variance and the number drawn, [jitter]
    returns at least 0.1. *)
Theorem jitter_at_least_a_tenth (base variance u : Q) :
  (1 # 10 <= jitter base variance u)%Q.
Proof. unfold jitter. apply py_max_lower. Qed.

(** Hence every delay handed to [asyncio.sleep] is positive. *)
Lemma jitter_positive (base variance u : Q) : (0 < jitter base variance u)%Q.
Proof.
  apply Qlt_le_trans with (y := 1 # 10); [reflexivity |].
  unfold jitter. apply py_max_lower.
Qed.

(** With the largest draws a negative base would give a negative
    interval; the clamp brings it back to a tenth of a second. *)
Example jitter_negative_base : jitter (-5) default_variance (1 # 2) = 1 # 10.
Proof. reflexivity. Qed.

End JitterFacts.

(** ** Statements that keep a relation

    The lemmas of [FrameFacts] carry a relation between the world
    before and the world after through the combinators of the monad. *)

Module FrameFacts.

Section Steady.

Context (R : World -> World -> Prop) {HR : PreOrder R}.

Lemma steady_ret {A} (a : A) : steady R (ret a).
Proof. intros w. simpl. reflexivity. Qed.

Lemma steady_raise {A} e : steady R (@raise A e).
Proof. intros w. simpl. reflexivity. Qed.

Lemma steady_time_time : steady R time_time.
Proof. intros w. simpl. reflexivity. Qed.

Lemma steady_random_choice {A} pick (l : list A) : steady R (random_choice pick l).
Proof. destruct l; intros w; simpl; reflexivity. Qed.

Lemma steady_executor workers : steady R (ThreadPoolExecutor workers).
Proof.
  intros w. unfold ThreadPoolExecutor. destruct (workers <=? 0); simpl; reflexivity.
Qed.

Lemma steady_bind {A B} (c : Py A) (k : A -> Py B) :
  steady R c -> (forall a, steady R (k a)) -> steady R (bind c k).
Proof.
  intros Hc Hk w. unfold bind. specialize (Hc w).
  destruct (c w) as [[a|e|] w1]; cbn [snd] in *; try assumption.
  transitivity w1; [assumption | apply Hk].
Qed.

Lemma steady_choice {A B} pick (l : list A) (k : A -> Py B) :
  (forall a, In a l -> steady R (k a)) -> steady R (bind (random_choice pick l) k).
Proof.
  intros Hk w. unfold bind, random_choice. destruct l as [| x l'].
  - simpl. reflexivity.
  - unfold ret. apply Hk. apply nth_In. apply Nat.mod_upper_bound. discriminate.
Qed.

Lemma steady_try_except {A} (body : Py A) handler :
  steady R body -> (forall e h, handler e = Some h -> steady R h) ->
  steady R (try_except body handler).
Proof.
  intros Hb Hh w. unfold try_except. specialize (Hb w).
  destruct (body w) as [[a|e|] w1]; cbn [snd] in *; try assumption.
  destruct (handler e) as [h|] eqn:E; cbn [snd]; [| assumption].
  transitivity w1; [assumption | apply (Hh e h E)].
Qed.

Lemma steady_try_finally {A} (body : Py A) final :
  steady R body -> steady R final -> steady R (try_finally body final).
Proof.
  intros Hb Hf w. unfold try_finally. specialize (Hb w).
  destruct (body w) as [[a|e|] w1]; cbn [snd] in *; try assumption;
    specialize (Hf w1); destruct (final w1) as [[[]|e'|] w2]; cbn [snd] in *;
    (transitivity w1; assumption).
Qed.

End Steady.

Create HintDb frame.

#[export] Hint Resolve steady_ret steady_raise steady_time_time steady_random_choice
  steady_executor : frame.
#[export] Hint Extern 0 (PreOrder _) => typeclasses eauto : frame.

Ltac frame_step :=
  match goal with
  | |- _ => solve [auto with frame]
  | |- forall _, _ => intro
  | |- steady _ (bind _ _) => apply steady_bind
  | |- steady _ (try_except _ _) => apply steady_try_except
  | |- steady _ (try_finally _ _) => apply steady_try_finally
  | |- steady _ (if ?b then _ else _) => destruct b
  | |- steady _ (match ?x with _ => _ end) => destruct x
  | H : match ?x with _ => _ end = Some _ |- _ => destruct x
  | H : Some _ = Some _ |- _ => injection H as <-
  | H : None = Some _ |- _ => discriminate H
  end.

Ltac frame_auto := repeat frame_step.

End FrameFacts.

(** ** The statistics and the trace *)

Module LedgerFacts.

Import FrameFacts AdvancedWebTrafficSimulator.

#[export] Instance same_ledger_preorder : PreOrder same_ledger.
Proof.
  split.
  - intros w. reflexivity.
  - intros a b c Hab Hbc. unfold same_ledger in *. congruence.
Qed.

Lemma records_app p t t' : records p (t ++ t') = records p t + records p t'.
Proof. unfold records. rewrite filter_app, length_app. lia. Qed.

Lemma ledger_emit e : uncounted e = true -> steady same_ledger (emit e).
Proof.
  intros He w. unfold same_ledger, ledger, emit. cbn [snd trace session_stats].
  rewrite !records_app. unfold uncounted in He.
  apply negb_true_iff in He. apply orb_false_iff in He. destruct He as [He H4].
  apply orb_false_iff in He. destruct He as [He H3].
  apply orb_false_iff in He. destruct He as [H1 H2].
  unfold records. cbn [filter]. rewrite H1, H2, H3, H4. simpl.
  rewrite !pair_equal_spec; repeat split; lia.
Qed.

Lemma ledger_time_sleep seconds : steady same_ledger (time_sleep seconds).
Proof.
  intros w. unfold time_sleep. destruct (Qlt_le_dec seconds 0); [reflexivity |].
  unfold same_ledger, ledger. cbn [snd trace session_stats].
  rewrite !records_app. unfold records. simpl.
  rewrite !pair_equal_spec; repeat split; lia.
Qed.

Lemma ledger_drain {A} seconds (c : Py A) :
  steady same_ledger c -> steady same_ledger (drain seconds c).
Proof.
  intros Hc w. unfold drain. specialize (Hc w). destruct (c w) as [r w1]. exact Hc.
Qed.

#[export] Hint Resolve ledger_time_sleep : frame.
#[export] Hint Extern 1 (steady same_ledger (emit _)) =>
  apply ledger_emit; reflexivity : frame.
#[export] Hint Extern 1 (steady same_ledger (drain _ _)) => apply ledger_drain : frame.

Section Ledger.

Context (lib : Platform) (config : Config).

Lemma ledger_send_request url method simulation_type net :
  steady same_ledger (send_request lib url method simulation_type net).
Proof.
  intros w. unfold send_request.
  destruct (RequestFacts.dns_step lib url net w) as (t & Hdns & Ht).
  rewrite (bind_returns _ _ _ Hdns). clear Hdns.
  assert (Hq : records is_traffic_log t = 0 /\ records is_transport t = 0
               /\ records is_compromise_log t = 0
               /\ records is_malicious_request_log t = 0).
  { destruct Ht as [-> | (d & q & ->)]; repeat split; reflexivity. }
  destruct Hq as (Q1 & Q2 & Q3 & Q4).
  unfold session_request.
  destruct (answer net) as [r|]; unfold_py; simpl.
  - destruct (status_code r <? 400); simpl;
      destruct (simulation_type =? "malicious")%string; simpl;
      unfold same_ledger, ledger; cbn [trace session_stats total_requests
        successful_requests failed_requests compromise_activities security_events
        incr_total incr_successful incr_failed incr_security];
      rewrite !records_app, Q1, Q2, Q3, Q4; unfold records; simpl;
      rewrite !pair_equal_spec; repeat split; lia.
  - unfold same_ledger, ledger; cbn [trace session_stats total_requests
        successful_requests failed_requests compromise_activities security_events
        incr_failed];
      rewrite !records_app, Q1, Q2, Q3, Q4; unfold records; simpl;
      rewrite !pair_equal_spec; repeat split; lia.
Qed.

Lemma ledger_make_request url method simulation_type net :
  steady same_ledger (make_request lib url method simulation_type net).
Proof.
  unfold make_request, request_headers, get_random_user_agent.
  pose proof ledger_send_request. frame_auto.
Qed.

Lemma ledger_compromise_record activity_type target payload success :
  steady same_ledger
    (log_compromise_activity activity_type target payload success ;;
     update_stats incr_compromise).
Proof.
  intros w. unfold log_compromise_activity. unfold_py. simpl.
  unfold same_ledger, ledger. cbn [trace session_stats total_requests
    successful_requests failed_requests compromise_activities security_events
    incr_compromise].
  rewrite !records_app. unfold records. simpl.
  rewrite !pair_equal_spec; repeat split; lia.
Qed.

Hint Resolve ledger_make_request ledger_compromise_record : frame.

Lemma ledger_compromised_behavior behavior_type d :
  steady same_ledger (simulate_compromised_behavior lib behavior_type d).
Proof. unfold simulate_compromised_behavior. frame_auto. Qed.

Hint Resolve ledger_compromised_behavior : frame.

Lemma ledger_interact_all website session_type l :
  steady same_ledger (interact_all lib website session_type l).
Proof.
  induction l as [| i l IH]; simpl; [frame_auto |].
  unfold interact. frame_auto.
Qed.

Hint Resolve ledger_interact_all : frame.

Lemma ledger_human_session website session_type s :
  steady same_ledger (simulate_human_browsing_session lib website session_type s).
Proof. unfold simulate_human_browsing_session. frame_auto. Qed.

Lemma ledger_attack_record attack_type severity indicators :
  In attack_type (map fst attack_patterns) ->
  steady same_ledger (log_security_event attack_type severity indicators).
Proof.
  intros Hin. unfold log_security_event. apply ledger_emit.
  simpl in Hin. repeat (destruct Hin as [<- | Hin]; [reflexivity |]).
  destruct Hin.
Qed.

Lemma ledger_malicious_traffic s :
  steady same_ledger (simulate_malicious_traffic lib s).
Proof.
  unfold simulate_malicious_traffic.
  apply steady_bind; [typeclasses eauto | frame_auto |]. intros malicious_site.
  apply steady_choice; [typeclasses eauto |]. intros attack_type Hin.
  unfold generate_malicious_payload.
  apply steady_bind; [typeclasses eauto | frame_auto |]. intros [[payload|] [target|]];
    frame_auto.
  apply ledger_attack_record. exact Hin.
Qed.

Hint Resolve ledger_human_session ledger_malicious_traffic : frame.

Lemma ledger_append_sessions request_type n pick from all_requests :
  steady same_ledger (append_sessions lib request_type n pick from all_requests).
Proof.
  revert from all_requests. induction n as [| n IH]; intros; simpl; frame_auto.
Qed.

Hint Resolve ledger_append_sessions : frame.

Lemma ledger_run_batch items script k :
  steady same_ledger (run_batch lib items script k).
Proof.
  revert k. induction items as [| item rest IH]; intros k; simpl; frame_auto.
  unfold run_item. frame_auto.
Qed.

Lemma ledger_run_uncollected items script k :
  steady same_ledger (run_uncollected lib items script k).
Proof.
  revert k. induction items as [| item rest IH]; intros k; simpl; frame_auto.
  unfold run_item. frame_auto.
Qed.

Hint Resolve ledger_run_batch ledger_run_uncollected : frame.

Lemma ledger_run_pool all_requests win :
  steady same_ledger (run_pool lib all_requests win).
Proof. unfold run_pool. frame_auto. Qed.

Hint Resolve ledger_run_pool : frame.

Lemma ledger_run_minute mix requests_per_minute win :
  steady same_ledger (run_minute lib config mix requests_per_minute win).
Proof.
  unfold run_minute, dispatch_minute, compose_requests, wait_rest_of_minute.
  frame_auto.
Qed.

Hint Resolve ledger_run_minute : frame.

Lemma ledger_scheduling_loop fuel requests_per_minute end_time windows i :
  steady same_ledger
    (scheduling_loop lib config fuel requests_per_minute end_time windows i).
Proof.
  revert i. induction fuel as [| fuel IH]; intros i; simpl; frame_auto.
  all: intros w; reflexivity.
Qed.

Lemma ledger_log_final_statistics : steady same_ledger (log_final_statistics lib).
Proof.
  intros w. rewrite SummaryFacts.log_final_statistics_raises. reflexivity.
Qed.

Hint Resolve ledger_scheduling_loop ledger_log_final_statistics : frame.

Lemma ledger_generate_advanced_traffic duration_minutes requests_per_minute
  windows fuel :
  steady same_ledger
    (generate_advanced_traffic lib config duration_minutes requests_per_minute
       windows fuel).
Proof. unfold generate_advanced_traffic, interrupt_handlers. frame_auto. Qed.

(** X1. After any run of [generate_advanced_traffic] from a fresh
    simulator, whatever the network answers, the signals and the fuel:
    [total_requests] is the number of traffic-log records,
    [successful_requests + failed_requests] is the number of transport
    calls, [compromise_activities] is the number of compromise-log
    records, and [security_events] is the number of "malicious_request"
    records of the security log.  (The sessions of a batch run one
    after the other here, as with one worker.) *)
Theorem statistics_agree_with_the_trace duration_minutes requests_per_minute
  windows fuel now :
  let w :=
    snd (generate_advanced_traffic lib config duration_minutes
           requests_per_minute windows fuel (initial_world now)) in
  total_requests (session_stats w) = records is_traffic_log (trace w) /\
  successful_requests (session_stats w) + failed_requests (session_stats w)
  = records is_transport (trace w) /\
  compromise_activities (session_stats w) = records is_compromise_log (trace w) /\
  security_events (session_stats w) = records is_malicious_request_log (trace w).
Proof.
  cbv zeta.
  pose proof (ledger_generate_advanced_traffic duration_minutes
                requests_per_minute windows fuel (initial_world now)) as H.
  unfold same_ledger, ledger in H. simpl in H.
  rewrite !pair_equal_spec in H. destruct H as [[[H1 H2] H3] H4].
  unfold records in *. repeat split; lia.
Qed.

End Ledger.
End LedgerFacts.

(** ** Records that stay, records that come *)

Module CountFacts.

Import FrameFacts LedgerFacts.

#[export] Instance same_records_preorder p : PreOrder (same_records p).
Proof.
  split.
  - intros w. reflexivity.
  - intros a b c Hab Hbc. unfold same_records in *. congruence.
Qed.

#[export] Instance more_records_preorder p : PreOrder (more_records p).
Proof.
  split.
  - intros w. unfold more_records. lia.
  - intros a b c Hab Hbc. unfold more_records in *. lia.
Qed.

Section Records.

Context (p : Effect -> bool).

Lemma same_records_emit e : p e = false -> steady (same_records p) (emit e).
Proof.
  intros He w. unfold same_records, emit. cbn [snd trace].
  rewrite records_app. unfold records. simpl. rewrite He. simpl. lia.
Qed.

Lemma same_records_update_stats f : steady (same_records p) (update_stats f).
Proof. intros w. reflexivity. Qed.

Lemma same_records_time_sleep seconds :
  p (Sleep seconds) = false -> steady (same_records p) (time_sleep seconds).
Proof.
  intros Hs w. unfold time_sleep. destruct (Qlt_le_dec seconds 0); [reflexivity |].
  unfold same_records. cbn [snd trace]. rewrite records_app. unfold records. simpl.
  rewrite Hs. simpl. lia.
Qed.

Lemma same_records_drain {A} seconds (c : Py A) :
  steady (same_records p) c -> steady (same_records p) (drain seconds c).
Proof.
  intros Hc w. unfold drain. specialize (Hc w). destruct (c w) as [r w1]. exact Hc.
Qed.

Lemma more_records_emit e : steady (more_records p) (emit e).
Proof.
  intros w. unfold more_records, emit. cbn [snd trace].
  rewrite records_app. unfold records. lia.
Qed.

Lemma more_records_update_stats f : steady (more_records p) (update_stats f).
Proof. intros w. unfold more_records. simpl. lia. Qed.

Lemma more_records_time_sleep seconds : steady (more_records p) (time_sleep seconds).
Proof.
  intros w. unfold time_sleep, more_records.
  destruct (Qlt_le_dec seconds 0); cbn [snd trace]; [lia |].
  rewrite records_app. unfold records. lia.
Qed.

Lemma more_records_drain {A} seconds (c : Py A) :
  steady (more_records p) c -> steady (more_records p) (drain seconds c).
Proof.
  intros Hc w. unfold drain. specialize (Hc w). destruct (c w) as [r w1]. exact Hc.
Qed.

End Records.

#[export] Hint Resolve same_records_update_stats more_records_emit
  more_records_update_stats more_records_time_sleep : frame.
#[export] Hint Extern 1 (steady (same_records _) (emit _)) =>
  apply same_records_emit; reflexivity : frame.
#[export] Hint Extern 1 (steady (same_records _) (time_sleep _)) =>
  apply same_records_time_sleep; reflexivity : frame.
#[export] Hint Extern 1 (steady (same_records _) (drain _ _)) =>
  apply same_records_drain : frame.
#[export] Hint Extern 1 (steady (more_records _) (drain _ _)) =>
  apply more_records_drain : frame.

End CountFacts.

(** ** Statements that end by returning or by an [Exception] *)

Module BenignFacts.

Lemma benign_ret {A} (a : A) : benign (ret a).
Proof. intros w. exact I. Qed.

Lemma benign_raise {A} e : is_Exception e = true -> benign (@raise A e).
Proof. intros He w. exact He. Qed.

Lemma benign_emit e : benign (emit e).
Proof. intros w. exact I. Qed.

Lemma benign_update_stats f : benign (update_stats f).
Proof. intros w. exact I. Qed.

Lemma benign_time_time : benign time_time.
Proof. intros w. exact I. Qed.

Lemma benign_time_sleep seconds : benign (time_sleep seconds).
Proof.
  intros w. unfold time_sleep. destruct (Qlt_le_dec seconds 0); simpl; auto.
Qed.

Lemma benign_random_choice {A} pick (l : list A) : benign (random_choice pick l).
Proof. destruct l; intros w; simpl; auto. Qed.

Lemma benign_executor workers : benign (ThreadPoolExecutor workers).
Proof.
  intros w. unfold ThreadPoolExecutor. destruct (workers <=? 0); simpl; auto.
Qed.

Lemma benign_bind {A B} (c : Py A) (k : A -> Py B) :
  benign c -> (forall a, benign (k a)) -> benign (bind c k).
Proof.
  intros Hc Hk w. unfold bind. specialize (Hc w).
  destruct (c w) as [[a|e|] w1]; cbn [fst] in *; auto. apply Hk.
Qed.

Lemma benign_try_except {A} (body : Py A) handler :
  benign body -> (forall e h, handler e = Some h -> benign h) ->
  benign (try_except body handler).
Proof.
  intros Hb Hh w. unfold try_except. specialize (Hb w).
  destruct (body w) as [[a|e|] w1]; cbn [fst] in *; auto.
  destruct (handler e) as [h|] eqn:E; cbn [fst]; [apply (Hh e h E) | assumption].
Qed.

Lemma benign_drain {A} seconds (c : Py A) : benign c -> benign (drain seconds c).
Proof.
  intros Hc w. unfold drain. specialize (Hc w). destruct (c w) as [r w1]. exact Hc.
Qed.

(** A handler for every [Exception] turns a benign statement into one
    that returns whenever the handlers do. *)
Lemma caught {A} (body : Py A) handler w :
  benign body ->
  (forall e, is_Exception e = true -> exists h, handler e = Some h /\
                                        forall w', exists a, fst (h w') = Returns a) ->
  exists a, fst (try_except body handler w) = Returns a.
Proof.
  intros Hb Hh. unfold try_except. specialize (Hb w).
  destruct (body w) as [[a|e|] w1]; cbn [fst] in *.
  - eauto.
  - destruct (Hh e Hb) as (h & -> & Hret). apply Hret.
  - contradiction.
Qed.

Create HintDb benign.

#[export] Hint Resolve benign_ret benign_emit benign_update_stats benign_time_time
  benign_time_sleep benign_random_choice benign_executor : benign.
#[export] Hint Extern 1 (benign (raise _)) => apply benign_raise; reflexivity : benign.

Ltac benign_step :=
  match goal with
  | |- _ => solve [auto with benign]
  | |- forall _, _ => intro
  | |- benign (bind _ _) => apply benign_bind
  | |- benign (try_except _ _) => apply benign_try_except
  | |- benign (drain _ _) => apply benign_drain
  | |- benign (if ?b then _ else _) => destruct b
  | |- benign (match ?x with _ => _ end) => destruct x
  | H : match ?x with _ => _ end = Some _ |- _ => destruct x
  | H : Some _ = Some _ |- _ => injection H as <-
  | H : None = Some _ |- _ => discriminate H
  end.

Ltac benign_auto := repeat benign_step.

End BenignFacts.

(** ** The requests of a session and of a batch *)

Module SessionBounds.

Import FrameFacts LedgerFacts CountFacts BenignFacts AdvancedWebTrafficSimulator.

Lemma records_nonneg p t : 0 <= records p t.
Proof. unfold records. lia. Qed.

Lemma at_most_steady {A} (c : Py A) :
  steady (same_records is_transport) c -> at_most 0 c.
Proof. intros H w. specialize (H w). unfold same_records, calls in *. lia. Qed.

Lemma at_most_weaken n m {A} (c : Py A) : n <= m -> at_most n c -> at_most m c.
Proof. intros Hnm H w. specialize (H w). lia. Qed.

Lemma at_most_bind n m {A B} (c : Py A) (k : A -> Py B) :
  0 <= m -> at_most n c -> (forall a, at_most m (k a)) -> at_most (n + m) (bind c k).
Proof.
  intros Hm Hc Hk w. unfold bind. specialize (Hc w).
  destruct (c w) as [[a|e|] w1]; cbn [snd] in *; try lia.
  specialize (Hk a w1). lia.
Qed.

Lemma at_most_try_except n m {A} (body : Py A) handler :
  0 <= m -> at_most n body -> (forall e h, handler e = Some h -> at_most m h) ->
  at_most (n + m) (try_except body handler).
Proof.
  intros Hm Hb Hh w. unfold try_except. specialize (Hb w).
  destruct (body w) as [[a|e|] w1]; cbn [snd] in *; try lia.
  destruct (handler e) as [h|] eqn:E; cbn [snd]; [| lia].
  specialize (Hh e h E w1). lia.
Qed.

Section Sessions.

Context (lib : Platform).

(** Each [make_request] whose headers are drawn is exactly one
    transport call; the others are none. *)
Lemma calls_make_request url method simulation_type net w :
  calls (snd (make_request lib url method simulation_type net w))
  = calls w + if headers_drawn lib net then 1 else 0.
Proof.
  destruct (headers_drawn lib net) eqn:Hd.
  - destruct (SessionFacts.make_request_run lib url method simulation_type net w Hd)
      as (t1 & t2 & -> & H1 & _ & H2 & _).
    unfold calls, records. cbn [snd trace].
    change (filter is_transport) with transport_calls.
    rewrite !RequestFacts.transport_calls_app.
    cbn [transport_calls filter is_transport].
    fold (transport_calls t2). rewrite H1, H2. simpl. rewrite length_app. simpl. lia.
  - rewrite (RequestFacts.make_request_not_drawn lib _ _ _ _ _ Hd). cbn [snd]. lia.
Qed.

Lemma at_most_make_request url method simulation_type net :
  at_most 1 (make_request lib url method simulation_type net).
Proof.
  intros w. rewrite calls_make_request. destruct (headers_drawn lib net); lia.
Qed.

Lemma benign_make_request url method simulation_type net :
  benign (make_request lib url method simulation_type net).
Proof.
  intros w. destruct (headers_drawn lib net) eqn:Hd.
  - rewrite RequestFacts.make_request_value by exact Hd. exact I.
  - rewrite (RequestFacts.make_request_not_drawn lib _ _ _ _ _ Hd). reflexivity.
Qed.

Hint Resolve benign_make_request : benign.

(** No compromised-host behaviour talks to the network. *)
Lemma silent_compromised_behavior behavior_type d :
  steady (same_records is_transport) (simulate_compromised_behavior lib behavior_type d).
Proof.
  unfold simulate_compromised_behavior, log_compromise_activity. frame_auto.
Qed.

Lemma benign_compromised_behavior behavior_type d :
  benign (simulate_compromised_behavior lib behavior_type d).
Proof.
  unfold simulate_compromised_behavior, log_compromise_activity. benign_auto.
Qed.

Hint Resolve benign_compromised_behavior : benign.

Lemma at_most_interact website session_type i :
  at_most 1 (interact lib website session_type i).
Proof.
  unfold interact.
  apply (at_most_bind 0 1); [lia | apply at_most_steady; frame_auto |].
  intros interaction_type.
  apply (at_most_bind 1 0); [lia | | intros; apply at_most_steady; frame_auto].
  destruct (interaction_type =? "subpage")%string.
  { apply (at_most_bind 0 1); [lia | apply at_most_steady; frame_auto |].
    intros subpath.
    apply (at_most_bind 1 0); [lia | apply at_most_make_request |].
    intros; apply at_most_steady; frame_auto. }
  destruct (interaction_type =? "search")%string.
  { apply (at_most_bind 0 1); [lia | apply at_most_steady; frame_auto |].
    intros query.
    apply (at_most_bind 1 0); [lia | apply at_most_make_request |].
    intros; apply at_most_steady; frame_auto. }
  destruct (interaction_type =? "form_submit")%string.
  { apply (at_most_bind 1 0); [lia | apply at_most_make_request |].
    intros; apply at_most_steady; frame_auto. }
  apply (at_most_weaken 0 1); [lia |]. apply at_most_steady; frame_auto.
Qed.

Lemma at_most_interact_all website session_type l :
  at_most (Z.of_nat (List.length l)) (interact_all lib website session_type l).
Proof.
  induction l as [| i l IH].
  - simpl. apply at_most_steady. frame_auto.
  - cbn [interact_all List.length]. rewrite Nat2Z.inj_succ.
    replace (Z.succ (Z.of_nat (List.length l))) with (1 + Z.of_nat (List.length l))
      by lia.
    apply at_most_bind; [lia | apply at_most_interact | intros _; exact IH].
Qed.

Lemma benign_interact_all website session_type l :
  benign (interact_all lib website session_type l).
Proof.
  induction l as [| i l IH]; simpl; [apply benign_ret |].
  unfold interact. benign_auto.
Qed.

Hint Resolve benign_interact_all : benign.


Lemma grows_make_request p url method simulation_type net :
  steady (more_records p) (make_request lib url method simulation_type net).
Proof.
  unfold make_request, request_headers, get_random_user_agent, send_request,
    simulate_dns_lookup, session_request, log_traffic, log_security_event.
  frame_auto.
Qed.

Hint Resolve grows_make_request : frame.

Lemma grows_compromised_behavior p behavior_type d :
  steady (more_records p) (simulate_compromised_behavior lib behavior_type d).
Proof.
  unfold simulate_compromised_behavior, log_compromise_activity. frame_auto.
Qed.

Hint Resolve grows_compromised_behavior : frame.

Lemma grows_interact_all p website session_type l :
  steady (more_records p) (interact_all lib website session_type l).
Proof.
  induction l as [| i l IH]; simpl; [frame_auto |].
  unfold interact. frame_auto.
Qed.

Hint Resolve grows_interact_all : frame.

Lemma grows_human_session p website session_type s :
  steady (more_records p) (simulate_human_browsing_session lib website session_type s).
Proof. unfold simulate_human_browsing_session. frame_auto. Qed.

Lemma grows_malicious_traffic p s :
  steady (more_records p) (simulate_malicious_traffic lib s).
Proof.
  unfold simulate_malicious_traffic, generate_malicious_payload, log_security_event.
  frame_auto.
Qed.

Hint Resolve grows_human_session grows_malicious_traffic : frame.

Lemma benign_human_session website session_type s :
  benign (simulate_human_browsing_session lib website session_type s).
Proof. unfold simulate_human_browsing_session. benign_auto. Qed.

Lemma benign_malicious_traffic s : benign (simulate_malicious_traffic lib s).
Proof.
  unfold simulate_malicious_traffic, generate_malicious_payload, log_security_event.
  benign_auto.
Qed.

Lemma benign_run_item item s : benign (run_item lib item s).
Proof.
  unfold run_item. destruct item as [request_type website].
  destruct (request_type =? "malicious")%string;
    [apply benign_malicious_traffic |].
  destruct website; [apply benign_human_session | apply benign_raise; reflexivity].
Qed.

(** The part of a session that follows the initial request. *)
Lemma session_always_returns website session_type s w :
  fst (simulate_human_browsing_session lib website session_type s w) = Returns tt.
Proof.
  unfold simulate_human_browsing_session.
  match goal with
  | |- fst (try_except ?body ?handler w) = _ =>
      destruct (caught body handler w) as ([] & H)
  end; [| | exact H].
  - benign_auto.
  - intros e He. rewrite He. eexists. split; [reflexivity |].
    intros w'. exists tt. reflexivity.
Qed.

Lemma try_except_bind_returns {A B} (c : Py A) (k : A -> Py B) handler w a w1 :
  c w = (Returns a, w1) ->
  try_except (bind c k) handler w = try_except (k a) handler w1.
Proof. intros H. unfold try_except, bind. rewrite H. reflexivity. Qed.

(** A session always returns, and its initial request goes out when
    its headers are drawn. *)
Lemma session_returns_after_request website session_type s w :
  headers_drawn lib (nav_reply s) = true ->
  let r := simulate_human_browsing_session lib website session_type s w in
  fst r = Returns tt /\ calls w + 1 <= calls (snd r).
Proof.
  intros Hd. cbv zeta. split; [apply session_always_returns |].
  unfold simulate_human_browsing_session.
  destruct (SessionFacts.make_request_run lib website "GET" session_type
              (nav_reply s) w Hd) as (t1 & t2 & Hrun & _).
  pose proof (calls_make_request website "GET" session_type (nav_reply s) w) as Hc.
  rewrite Hd, Hrun in Hc. cbn [snd] in Hc.
  rewrite (try_except_bind_returns _ _ _ _ _ _ Hrun).
  match goal with
  | |- _ <= calls (snd (try_except ?rest ?handler ?w1)) =>
      assert (Hrest : steady (more_records is_transport) (try_except rest handler))
        by frame_auto;
      specialize (Hrest w1)
  end.
  unfold more_records in Hrest. unfold calls in *. lia.
Qed.

(** X5. A browsing session of [simulate_human_browsing_session] always
    returns (every exception of class [Exception] is caught and logged),
    and it makes at most one transport call for the initial request and
    one more per pass of the interaction loop.  The initial request
    goes out exactly when its headers are drawn: with a user agent to
    choose from, and a website when a Referer is drawn, the session
    makes at least one transport call; otherwise it makes none. *)
Theorem session_requests_bounded website session_type s w :
  let r := simulate_human_browsing_session lib website session_type s w in
  fst r = Returns tt /\
  calls (snd r) <= calls w + 1 + Z.of_nat (List.length (interactions s)) /\
  if headers_drawn lib (nav_reply s)
  then calls w + 1 <= calls (snd r)
  else calls (snd r) = calls w.
Proof.
  cbv zeta.
  split; [apply session_always_returns |]. split.
  - assert (H : at_most (1 + Z.of_nat (List.length (interactions s)) + 0)
                    (simulate_human_browsing_session lib website session_type s)).
    { unfold simulate_human_browsing_session.
      apply at_most_try_except; [lia | |].
      - apply at_most_bind; [lia | apply at_most_make_request |].
        intros response. destruct (falsy response).
        + apply (at_most_weaken 0); [lia | apply at_most_steady; frame_auto].
        + replace (Z.of_nat (List.length (interactions s)))
            with (0 + (Z.of_nat (List.length (interactions s)) + 0)) by lia.
          apply at_most_bind; [lia | apply at_most_steady; frame_auto |].
          intros _.
          apply at_most_bind; [lia | apply at_most_interact_all |].
          intros _. apply at_most_steady.
          destruct (_ && _); [| frame_auto].
          apply steady_bind; [typeclasses eauto | frame_auto |].
          intros b. apply silent_compromised_behavior.
      - intros e h H. destruct (is_Exception e); [| discriminate].
        injection H as <-. apply at_most_steady. frame_auto. }
    specialize (H w). lia.
  - destruct (headers_drawn lib (nav_reply s)) eqn:Hd.
    + apply (session_returns_after_request website session_type s w Hd).
    + rewrite (SessionFacts.undrawn_navigation_run lib website session_type s w Hd).
      unfold calls, logged. cbn [snd trace]. rewrite records_app.
      unfold records. simpl. lia.
Qed.

(** X6. A batch always runs to its end: no item can make [run_batch]
    raise, an exception of an item is logged and the next item starts.
    With a user agent and a website to choose from, every item that is
    a browsing session makes at least its initial transport call. *)
Theorem batch_items_are_isolated items script k w :
  let r := run_batch lib items script k w in
  fst r = Returns tt /\
  (user_agents lib <> [] -> websites lib <> [] ->
   calls w + browsing_items items <= calls (snd r)).
Proof.
  cbv zeta.
  assert (Hret : forall items k w, fst (run_batch lib items script k w) = Returns tt).
  { clear. intros items. induction items as [| item rest IH]; intros k w;
      [reflexivity |].
    cbn [run_batch]. unfold bind.
    match goal with
    | |- context [try_except ?body ?handler w] =>
        destruct (caught body handler w) as ([] & Hret);
        [apply benign_run_item
        | intros e He; rewrite He; eexists; split;
          [reflexivity | intros w'; exists tt; reflexivity]
        |]
    end.
    destruct (try_except _ _ w) as [[a|e|] w1]; cbn [fst] in Hret;
      try discriminate.
    apply IH. }
  split; [apply Hret |]. intros Hua Hsites.
  revert k w. induction items as [| item rest IH]; intros k w.
  - simpl. unfold browsing_items. simpl. lia.
  - pose proof (Hret [item] k w) as Hone. cbn [run_batch] in Hone |- *.
    unfold bind in Hone |- *.
    match goal with
    | |- context [try_except ?body ?handler w] =>
        assert (Hgrow : calls w
                        + browsing_items [item] <= calls (snd (try_except body handler w)))
    end.
    { unfold try_except, run_item. destruct item as [request_type website].
      unfold browsing_items. cbn [filter fst snd].
      destruct (request_type =? "malicious")%string; cbn [negb andb List.length].
      - pose proof (grows_malicious_traffic is_transport (script k) w) as Hg.
        unfold more_records in Hg. fold (calls w) in Hg.
        destruct (simulate_malicious_traffic lib (script k) w) as [[a|e|] w1];
          cbn [snd] in *; unfold calls in *; try lia.
        destruct (is_Exception e); cbn [snd]; [| lia].
        unfold emit. cbn [snd trace]. rewrite records_app.
        pose proof (records_nonneg is_transport
                      [Error (ThreadExecutionError e)]). lia.
      - destruct website as [website|]; cbn [List.length].
        + destruct (session_returns_after_request website request_type (script k) w
                      (RequestFacts.headers_drawn_filled lib _ Hua Hsites))
            as [Hr Hlo].
          destruct (simulate_human_browsing_session lib website request_type
                      (script k) w) as [[a|e|] w1]; cbn [fst snd] in *;
            try discriminate. simpl. lia.
        + unfold raise. cbn [is_Exception snd]. unfold emit. cbn [snd trace].
          unfold calls. cbn [snd trace]. rewrite ?records_app.
          pose proof (records_nonneg is_transport
                        [Error (ThreadExecutionError TypeError)]).
          pose proof (records_nonneg is_transport (trace w)).
          simpl. lia. }
    destruct (try_except _ _ w) as [[a|e|] w1]; cbn [fst snd] in *;
      try discriminate.
    specialize (IH (S k) w1).
    assert (browsing_items (item :: rest)
            = browsing_items [item] + browsing_items rest).
    { unfold browsing_items. cbn [filter].
      destruct (negb _ && _); cbn [List.length]; lia. }
    lia.
Qed.

End Sessions.
End SessionBounds.

(** ** Compromised-host behaviours *)

Module BehaviorFacts.

Import FrameFacts LedgerFacts CountFacts AdvancedWebTrafficSimulator.

Section Behaviors.

Context (lib : Platform).

Lemma random_choice_run {A} pick (l : list A) w :
  (l = [] /\ random_choice pick l w = (Raises IndexError, w)) \/
  (exists a, In a l /\ random_choice pick l w = (Returns a, w)).
Proof.
  destruct l as [| x l']; [left; split; reflexivity | right].
  eexists. split; [| reflexivity].
  apply nth_In. apply Nat.mod_upper_bound. discriminate.
Qed.

(** X2. Whatever its type and its draws, a compromised-host behaviour
    makes no transport call and no sleep and leaves the clock alone; it
    adds at most one to [compromise_activities], and exactly as many
    compromise-log records as it adds to that counter. *)
Theorem compromised_behavior_stays_local behavior_type d w :
  let w' := snd (simulate_compromised_behavior lib behavior_type d w) in
  let activities := compromise_activities (session_stats w')
                    - compromise_activities (session_stats w) in
  records is_transport (trace w') = records is_transport (trace w) /\
  records is_sleep (trace w') = records is_sleep (trace w) /\
  clock w' = clock w /\
  0 <= activities <= 1 /\
  records is_compromise_log (trace w')
  = records is_compromise_log (trace w) + activities.
Proof.
  cbv zeta. unfold simulate_compromised_behavior.
  destruct (dict_get compromise_behaviors behavior_type) as [behavior|];
    [| simpl; repeat split; lia].
  destruct (behavior_type =? "c2_communication")%string.
  { destruct (random_choice_run (target_pick d) (targets behavior) w)
      as [[_ E1] | (c2_domain & _ & E1)];
      [rewrite (bind_raises _ _ _ E1); simpl; repeat split; lia |].
    rewrite (bind_returns _ _ _ E1).
    destruct (random_choice_run (method_pick d) (methods behavior) w)
      as [[_ E2] | (method & _ & E2)];
      [rewrite (bind_raises _ _ _ E2); simpl; repeat split; lia |].
    rewrite (bind_returns _ _ _ E2).
    unfold log_compromise_activity. unfold_py. simpl.
    rewrite !records_app. unfold records. simpl. repeat split; lia. }
  destruct (behavior_type =? "credential_theft")%string.
  { destruct (random_choice_run (target_pick d) (websites lib) w)
      as [[_ E1] | (target_site & _ & E1)];
      [rewrite (bind_raises _ _ _ E1); simpl; repeat split; lia |].
    rewrite (bind_returns _ _ _ E1).
    unfold log_compromise_activity. unfold_py. simpl.
    rewrite !records_app. unfold records. simpl. repeat split; lia. }
  destruct (behavior_type =? "data_exfiltration")%string.
  { unfold log_compromise_activity. unfold_py. simpl.
    rewrite !records_app. unfold records. simpl. repeat split; lia. }
  simpl. repeat split; lia.
Qed.

(** X3. A behaviour type other than "c2_communication",
    "credential_theft" and "data_exfiltration" (so "lateral_movement"
    and "persistence" of the behaviour table, and any unknown name) does
    nothing at all: the call returns in the world it started in. *)
Theorem unscripted_behavior_does_nothing behavior_type d w :
  acted_out behavior_type = false ->
  simulate_compromised_behavior lib behavior_type d w = (Returns tt, w).
Proof.
  unfold acted_out. intros H.
  apply orb_false_iff in H. destruct H as [H H3].
  apply orb_false_iff in H. destruct H as [H1 H2].
  unfold simulate_compromised_behavior.
  destruct (dict_get compromise_behaviors behavior_type); [| reflexivity].
  rewrite H1, H2, H3. reflexivity.
Qed.

End Behaviors.

Lemma unscripted_behavior_does_nothing_witness :
  acted_out "lateral_movement" = false /\
  acted_out "persistence" = false /\
  In "lateral_movement" (map fst compromise_behaviors) /\
  simulate_compromised_behavior sample_platform "lateral_movement" sample_draws
    (initial_world 0)
  = (Returns tt, initial_world 0).
Proof.
  split; [reflexivity |]. split; [reflexivity |].
  split; [simpl; tauto |].
  apply (unscripted_behavior_does_nothing sample_platform "lateral_movement").
  reflexivity.
Defined.

End BehaviorFacts.

(** ** Malicious traffic *)

Module AttackFacts.

Import FrameFacts LedgerFacts CountFacts BehaviorFacts AdvancedWebTrafficSimulator.

Section Attacks.

Context (lib : Platform).

Lemma make_request_anatomy url method simulation_type net w :
  headers_drawn lib net = true ->
  exists dns,
    make_request lib url method simulation_type net w
    = (Returns (match answer net with Answers r => Some r | Fails => None end),
       mkWorld (stats_after simulation_type (answer net) (session_stats w))
               (request_count w)
               (trace w ++ dns ++ request_records url method simulation_type (answer net))
               (clock w))
    /\ forallb is_dns_log dns = true.
Proof.
  intros Hd. rewrite (RequestFacts.make_request_drawn lib _ _ _ _ _ Hd).
  unfold send_request.
  destruct (RequestFacts.dns_step lib url net w) as (t & Hdns & Ht).
  rewrite (bind_returns _ _ _ Hdns). clear Hdns.
  exists t. split; [| destruct Ht as [-> | (d & q & ->)]; reflexivity].
  unfold stats_after, session_request, request_records, log_traffic,
    log_security_event.
  destruct (answer net) as [r|]; unfold_py; simpl.
  - destruct (status_code r <? 400); simpl;
      destruct (simulation_type =? "malicious")%string; simpl;
      rewrite <- ?app_assoc; simpl; rewrite <- ?app_assoc; reflexivity.
  - rewrite <- ?app_assoc; reflexivity.
Qed.

Lemma generate_malicious_payload_run attack_type s w :
  In attack_type (map fst attack_patterns) ->
  exists pattern payload target,
    dict_get attack_patterns attack_type = Some pattern /\
    In payload (payloads pattern) /\ In target (attack_targets pattern) /\
    truthy (Some payload) = true /\ truthy (Some target) = true /\
    generate_malicious_payload attack_type s w = (Returns (Some payload, Some target), w).
Proof.
  intros Hin. simpl in Hin.
  assert (Hnonempty : forall l : list string,
            forallb (fun x => negb (x =? "")%string) l = true ->
            forall x, In x l -> truthy (Some x) = true).
  { intros l H x Hx. rewrite forallb_forall in H. apply H. exact Hx. }
  unfold generate_malicious_payload.
  repeat (destruct Hin as [<- | Hin];
    [ match goal with
      | |- context [dict_get attack_patterns ?k] =>
          let p := eval cbv in (dict_get attack_patterns k) in
          change (dict_get attack_patterns k) with p
      end;
      cbv iota;
      match goal with
      | |- context [random_choice ?pk (payloads ?p)] =>
          destruct (random_choice_run pk (payloads p) w)
            as [[E _] | (payload & Hp & E1)]; [discriminate E |];
          destruct (random_choice_run (attack_target_pick s) (attack_targets p) w)
            as [[E _] | (target & Ht & E2)]; [discriminate E |];
          exists p, payload, target;
          rewrite (bind_returns _ _ _ E1), (bind_returns _ _ _ E2);
          repeat split; try assumption; try reflexivity;
          [ apply (Hnonempty (payloads p)); [reflexivity | assumption]
          | apply (Hnonempty (attack_targets p)); [reflexivity | assumption] ]
      end
    |]).
  destruct Hin.
Qed.

(** X4. With a malicious domain to choose from,
    [simulate_malicious_traffic] first logs the attack as a security
    event, for a url [site/target?payload=quote(payload)] where the site
    is one of [malicious_domains] and payload and target come from the
    same attack pattern.  When the headers of its request are drawn, it
    then returns normally after exactly one transport call, a GET of
    that url; a second security record and the counters follow as for
    any malicious request, the second record only when the request is
    answered.  When the headers cannot be drawn, the call ends with
    [IndexError] right after the first security record, and nothing is
    sent. *)
Theorem malicious_traffic_sends_one_request s w :
  malicious_domains lib <> [] ->
  exists malicious_site attack_type pattern payload target,
    In malicious_site (malicious_domains lib) /\
    dict_get attack_patterns attack_type = Some pattern /\
    In payload (payloads pattern) /\
    In target (attack_targets pattern) /\
    let malicious_url :=
      malicious_site ++ "/" ++ target ++ "?payload=" ++ quote lib payload in
    let attack :=
      SecurityLog attack_type "high"
        [("target", target); ("payload", payload); ("url", malicious_url)] in
    let r := simulate_malicious_traffic lib s w in
    if headers_drawn lib (attack_reply s) then
      fst r = Returns tt /\
      transport_calls (trace (snd r))
      = (transport_calls (trace w) ++ [Transport "GET" malicious_url])%list /\
      filter is_security_log (trace (snd r))
      = (filter is_security_log (trace w)
         ++ attack
         :: match answer (attack_reply s) with
            | Answers _ =>
                [SecurityLog "malicious_request" "high"
                   [("url", malicious_url); ("method", "GET")]]
            | Fails => []
            end)%list /\
      session_stats (snd r)
      = stats_after "malicious" (answer (attack_reply s)) (session_stats w)
    else
      r = (Raises IndexError, logged attack w).
Proof.
  intros Hdomains. unfold simulate_malicious_traffic.
  destruct (random_choice_run (site_pick s) (malicious_domains lib) w)
    as [[E _] | (malicious_site & Hsite & E1)]; [contradiction |].
  rewrite (bind_returns _ _ _ E1).
  destruct (random_choice_run (attack_pick s) (map fst attack_patterns) w)
    as [[E _] | (attack_type & Hattack & E2)]; [discriminate E |].
  rewrite (bind_returns _ _ _ E2).
  destruct (generate_malicious_payload_run attack_type s w Hattack)
    as (pattern & payload & target & Hpattern & Hpayload & Htarget & T1 & T2 & E3).
  rewrite (bind_returns _ _ _ E3). cbv iota. rewrite T1, T2. cbn [andb].
  exists malicious_site, attack_type, pattern, payload, target.
  repeat (split; [assumption |]). cbv zeta.
  unfold log_security_event. unfold bind, emit, ret.
  destruct (headers_drawn lib (attack_reply s)) eqn:Hd.
  - match goal with
    | |- context [make_request lib ?u ?m ?t ?n ?w0] =>
        destruct (make_request_anatomy u m t n w0 Hd) as (dns & Hrun & Hdns)
    end.
    rewrite Hrun. cbn [fst snd trace session_stats].
    assert (D1 : transport_calls dns = []).
    { clear Hrun. induction dns as [| e dns IH]; [reflexivity |].
      simpl in Hdns. apply andb_true_iff in Hdns. destruct Hdns as [He Hdns].
      destruct e; try discriminate He. simpl. apply IH. exact Hdns. }
    assert (D2 : filter is_security_log dns = []).
    { clear Hrun D1. induction dns as [| e dns IH]; [reflexivity |].
      simpl in Hdns. apply andb_true_iff in Hdns. destruct Hdns as [He Hdns].
      destruct e; try discriminate He. simpl. apply IH. exact Hdns. }
    split; [reflexivity |].
    unfold transport_calls in *. rewrite !filter_app, D1, D2.
    unfold request_records.
    destruct (answer (attack_reply s)) as [r|]; simpl; rewrite ?app_nil_r;
      repeat split; try reflexivity; rewrite <- ?app_assoc; reflexivity.
  - match goal with
    | |- context [make_request lib ?u ?m ?t ?n ?w0] =>
        rewrite (RequestFacts.make_request_not_drawn lib u m t n w0 Hd)
    end.
    reflexivity.
Qed.

(** Without a malicious domain to choose from, the item fails before it
    does anything. *)
Lemma malicious_traffic_without_domains s w :
  malicious_domains lib = [] ->
  simulate_malicious_traffic lib s w = (Raises IndexError, w).
Proof.
  intros H. unfold simulate_malicious_traffic. rewrite H. reflexivity.
Qed.

End Attacks.

Lemma malicious_traffic_sends_one_request_witness :
  let s := session_with (Answers (mkResponse 200)) in
  let w := initial_world 0 in
  malicious_domains sample_platform <> [] /\
  headers_drawn sample_platform (attack_reply s) = true /\
  exists malicious_site attack_type pattern payload target,
    In malicious_site (malicious_domains sample_platform) /\
    dict_get attack_patterns attack_type = Some pattern /\
    In payload (payloads pattern) /\
    In target (attack_targets pattern) /\
    let malicious_url :=
      malicious_site ++ "/" ++ target ++ "?payload="
      ++ quote sample_platform payload in
    let attack :=
      SecurityLog attack_type "high"
        [("target", target); ("payload", payload); ("url", malicious_url)] in
    let r := simulate_malicious_traffic sample_platform s w in
    if headers_drawn sample_platform (attack_reply s) then
      fst r = Returns tt /\
      transport_calls (trace (snd r))
      = (transport_calls (trace w) ++ [Transport "GET" malicious_url])%list /\
      filter is_security_log (trace (snd r))
      = (filter is_security_log (trace w)
         ++ attack
         :: match answer (attack_reply s) with
            | Answers _ =>
                [SecurityLog "malicious_request" "high"
                   [("url", malicious_url); ("method", "GET")]]
            | Fails => []
            end)%list /\
      session_stats (snd r)
      = stats_after "malicious" (answer (attack_reply s)) (session_stats w)
    else
      r = (Raises IndexError, logged attack w).
Proof.
  cbv zeta. split; [discriminate |]. split; [reflexivity |].
  apply (malicious_traffic_sends_one_request sample_platform
           (session_with (Answers (mkResponse 200))) (initial_world 0)).
  discriminate.
Defined.

End AttackFacts.

(** ** The size of a batch *)

Module RateFacts.

Import AdvancedWebTrafficSimulator.

Section Rates.

Context (lib : Platform) (config : Config).

Lemma planned_literal requests_per_minute (p : Z) (q : positive) :
  0 <= requests_per_minute -> 0 <= p ->
  Z.of_nat (range_len (py_int (inject_Z requests_per_minute * (p # q))))
  = requests_per_minute * p / Zpos q.
Proof.
  intros Hr Hp.
  destruct (PlannerFacts.planned_floor requests_per_minute (p # q) Hr) as (H & _).
  { unfold Qle. simpl. lia. }
  rewrite H. unfold Qfloor, Qmult, inject_Z. cbn [Qnum Qden].
  rewrite Pos.mul_1_l. reflexivity.
Qed.

(** X7. With both optional classes enabled and the shares 0.8, 0.15 and
    0.05 of the source, the batch of a minute is never larger than the
    requested rate and falls short of it by at most two requests; it
    has exactly the requested size if and only if the rate is a
    multiple of 20. *)
Theorem batch_falls_short_of_the_rate requests_per_minute win w :
  0 <= requests_per_minute ->
  websites lib <> [] ->
  simulate_compromised_host config = true ->
  security_simulation_enabled config = true ->
  exists all_requests,
    compose_requests lib config traffic_composition requests_per_minute win w
    = (Returns all_requests, w) /\
    let size := Z.of_nat (List.length (random_shuffle (shuffle_pick win) all_requests)) in
    requests_per_minute - 2 <= size <= requests_per_minute /\
    (size = requests_per_minute <-> requests_per_minute mod 20 = 0).
Proof.
  intros Hr Hsites Hc Hm.
  destruct (PlannerFacts.compose_requests_returns lib config traffic_composition
              requests_per_minute win w Hsites) as (all_requests & Hrun).
  exists all_requests. split; [exact Hrun |]. cbv zeta.
  destruct (PlannerFacts.compose_requests_items lib config _ _ _ _ _ _ Hrun)
    as (K1 & K2 & K3 & Klen).
  rewrite PlannerFacts.length_shuffle, Klen, K1, K2, K3, Hc, Hm.
  rewrite !Nat2Z.inj_add. unfold traffic_composition.
  cbn [normal_share compromised_share malicious_share].
  rewrite !planned_literal by lia.
  split; [| split]; intros; Z.to_euclidean_division_equations; lia.
Qed.

End Rates.

Lemma batch_falls_short_of_the_rate_witness :
  exists all_requests,
    compose_requests sample_platform sample_config traffic_composition 19
      (window_with Fails 0 None) (initial_world 0)
    = (Returns all_requests, initial_world 0) /\
    let size :=
      Z.of_nat (List.length
                  (random_shuffle (shuffle_pick (window_with Fails 0 None))
                     all_requests)) in
    19 - 2 <= size <= 19 /\ (size = 19 <-> 19 mod 20 = 0).
Proof.
  apply (batch_falls_short_of_the_rate sample_platform sample_config 19
           (window_with Fails 0 None) (initial_world 0)).
  - lia.
  - discriminate.
  - reflexivity.
  - reflexivity.
Defined.

End RateFacts.

(** ** The runs of [WebTrafficGenerator] *)

Module BasicFacts.

Import FrameFacts LedgerFacts CountFacts BenignFacts SessionBounds WebTrafficGenerator.

#[export] Instance same_request_count_preorder : PreOrder same_request_count.
Proof.
  split.
  - intros w. reflexivity.
  - intros a b c Hab Hbc. unfold same_request_count in *. congruence.
Qed.

Lemma same_request_count_emit e : steady same_request_count (emit e).
Proof. intros w. reflexivity. Qed.

Lemma same_request_count_time_sleep seconds :
  steady same_request_count (time_sleep seconds).
Proof.
  intros w. unfold time_sleep. destruct (Qlt_le_dec seconds 0); reflexivity.
Qed.

#[export] Hint Resolve same_request_count_emit same_request_count_time_sleep : frame.

Section Steady.

Context (R : World -> World -> Prop) {HR : PreOrder R}.

Lemma steady_get_request_count : steady R get_request_count.
Proof. intros w. simpl. reflexivity. Qed.

Lemma steady_random_sample {A} (population : list A) k pick :
  steady R (random_sample population k pick).
Proof.
  intros w. unfold random_sample.
  destruct (_ || _); [simpl; reflexivity |].
  destruct population; simpl; reflexivity.
Qed.

End Steady.

#[export] Hint Resolve steady_get_request_count steady_random_sample : frame.

Lemma same_records_incr_request_count p :
  steady (same_records p) incr_request_count.
Proof. intros w. reflexivity. Qed.

Lemma same_records_reset_request_count p :
  steady (same_records p) reset_request_count.
Proof. intros w. reflexivity. Qed.

#[export] Hint Resolve same_records_incr_request_count
  same_records_reset_request_count : frame.

(** *** One request and one session *)

Section Sessions.

Context (lib : Platform).

(** Each [make_request] whose user agent is drawn is exactly one
    transport call; the others are none. *)
Lemma basic_calls_make_request url method net w :
  calls (snd (make_request lib url method net w))
  = calls w + if agent_drawn lib then 1 else 0.
Proof.
  destruct (agent_drawn lib) eqn:Hd.
  - destruct (SessionFacts.basic_make_request_run lib url method net w Hd)
      as (e & -> & He & _).
    unfold calls. cbn [snd trace]. rewrite records_app. unfold records.
    simpl. rewrite He. simpl. lia.
  - rewrite (SessionFacts.basic_make_request_not_drawn lib url method net w Hd).
    cbn [snd]. lia.
Qed.

Lemma basic_at_most_make_request url method net :
  at_most 1 (make_request lib url method net).
Proof.
  intros w. rewrite basic_calls_make_request. destruct (agent_drawn lib); lia.
Qed.

Lemma basic_benign_make_request url method net :
  benign (make_request lib url method net).
Proof.
  intros w. destruct (agent_drawn lib) eqn:Hd.
  - destruct (SessionFacts.basic_make_request_run lib url method net w Hd)
      as (e & -> & _).
    exact I.
  - rewrite (SessionFacts.basic_make_request_not_drawn lib url method net w Hd).
    reflexivity.
Qed.

Lemma basic_count_make_request url method net :
  steady same_request_count (make_request lib url method net).
Proof.
  unfold make_request, get_random_user_agent, send_request, session_request.
  frame_auto.
Qed.

Lemma basic_grows_make_request p url method net :
  steady (more_records p) (make_request lib url method net).
Proof.
  unfold make_request, get_random_user_agent, send_request, session_request.
  frame_auto.
Qed.

Lemma completion_make_request url method net :
  steady (same_records is_completion) (make_request lib url method net).
Proof.
  unfold make_request, get_random_user_agent, send_request, session_request.
  frame_auto.
Qed.

Hint Resolve basic_benign_make_request : benign.
Hint Resolve basic_count_make_request basic_grows_make_request
  completion_make_request : frame.

Lemma at_most_fetch_all website l :
  at_most (Z.of_nat (List.length l)) (fetch_all lib website l).
Proof.
  induction l as [| x l IH].
  - simpl. apply at_most_steady. frame_auto.
  - cbn [fetch_all List.length]. rewrite Nat2Z.inj_succ.
    replace (Z.succ (Z.of_nat (List.length l)))
      with (1 + (0 + Z.of_nat (List.length l))) by lia.
    apply at_most_bind; [lia | apply basic_at_most_make_request |]. intros _.
    apply at_most_bind; [lia | apply at_most_steady; frame_auto |]. intros _.
    exact IH.
Qed.

Lemma benign_fetch_all website l : benign (fetch_all lib website l).
Proof. induction l as [| x l IH]; simpl; benign_auto. Qed.

Lemma count_fetch_all website l : steady same_request_count (fetch_all lib website l).
Proof. induction l as [| x l IH]; simpl; frame_auto. Qed.

Lemma grows_fetch_all p website l : steady (more_records p) (fetch_all lib website l).
Proof. induction l as [| x l IH]; simpl; frame_auto. Qed.

Lemma completion_fetch_all website l :
  steady (same_records is_completion) (fetch_all lib website l).
Proof.
  induction l as [| x l IH]; simpl; frame_auto.
Qed.

Hint Resolve benign_fetch_all : benign.
Hint Resolve count_fetch_all grows_fetch_all completion_fetch_all : frame.

Lemma basic_session_always_returns website s w :
  fst (simulate_browsing_session lib website s w) = Returns tt.
Proof.
  unfold simulate_browsing_session.
  match goal with
  | |- fst (try_except ?body ?handler w) = _ =>
      destruct (caught body handler w) as ([] & H)
  end; [| | exact H].
  - benign_auto.
  - intros e He. rewrite He. eexists. split; [reflexivity |].
    intros w'. exists tt. reflexivity.
Qed.

Lemma count_session website s :
  steady same_request_count (simulate_browsing_session lib website s).
Proof. unfold simulate_browsing_session. frame_auto. Qed.

Lemma completion_session website s :
  steady (same_records is_completion) (simulate_browsing_session lib website s).
Proof.
  unfold simulate_browsing_session. frame_auto.
Qed.

Hint Resolve count_session completion_session : frame.

(** X13. A session of [simulate_browsing_session] always returns, does
    not touch the request counter, and makes at most one transport call
    for the initial request and one more per additional path.  The
    initial request goes out exactly when there is a user agent to
    choose from: then the session makes at least one transport call;
    otherwise it makes none. *)
Theorem basic_session_requests_bounded website s w :
  let r := simulate_browsing_session lib website s w in
  fst r = Returns tt /\
  request_count (snd r) = request_count w /\
  calls (snd r) <= calls w + 1 + Z.of_nat (List.length (extras s)) /\
  if agent_drawn lib
  then calls w + 1 <= calls (snd r)
  else calls (snd r) = calls w.
Proof.
  cbv zeta. split; [apply basic_session_always_returns |].
  split; [apply count_session |]. split.
  - assert (H : at_most (1 + Z.of_nat (List.length (extras s)) + 0)
                  (simulate_browsing_session lib website s)).
    { unfold simulate_browsing_session.
      apply at_most_try_except; [lia | |].
      - apply at_most_bind; [lia | apply basic_at_most_make_request |].
        intros response. destruct (falsy response).
        + apply (at_most_weaken 0); [lia | apply at_most_steady; frame_auto].
        + replace (Z.of_nat (List.length (extras s)))
            with (0 + (Z.of_nat (List.length (extras s)))) by lia.
          apply at_most_bind; [lia | apply at_most_steady; frame_auto |].
          intros _. destruct (Qlt_le_dec _ _); [apply at_most_fetch_all |].
          apply (at_most_weaken 0); [lia | apply at_most_steady; frame_auto].
      - intros e h H. destruct (is_Exception e); [| discriminate].
        injection H as <-. apply at_most_steady. frame_auto. }
    specialize (H w). lia.
  - destruct (agent_drawn lib) eqn:Hd.
    + unfold simulate_browsing_session.
      destruct (SessionFacts.basic_make_request_run lib website "GET" (nav_reply s) w Hd)
        as (e & Hrun & _).
      pose proof (basic_calls_make_request website "GET" (nav_reply s) w) as Hc.
      rewrite Hd, Hrun in Hc. cbn [snd] in Hc.
      rewrite (try_except_bind_returns _ _ _ _ _ _ Hrun).
      match goal with
      | |- _ <= calls (snd (try_except ?rest ?handler ?w1)) =>
          assert (Hrest : steady (more_records is_transport) (try_except rest handler))
            by frame_auto;
          specialize (Hrest w1)
      end.
      unfold more_records in Hrest. unfold calls in *. lia.
    + rewrite (SessionFacts.basic_undrawn_navigation_run lib website s w Hd).
      unfold calls, logged. cbn [snd trace]. rewrite records_app.
      unfold records. simpl. lia.
Qed.

(** *** A batch *)

Lemma basic_run_batch_counts selected_websites script k w :
  let r := run_batch lib selected_websites script k w in
  fst r = Returns tt /\
  request_count (snd r) = request_count w + Z.of_nat (List.length selected_websites).
Proof.
  cbv zeta. revert k w.
  induction selected_websites as [| website rest IH]; intros k w.
  - simpl. split; [reflexivity | lia].
  - cbn [run_batch].
    pose proof (basic_session_always_returns website (script k) w) as Hr.
    pose proof (count_session website (script k) w) as Hc.
    destruct (simulate_browsing_session lib website (script k) w)
      as [[[]|e|] w1] eqn:E; cbn [fst snd] in *; try discriminate.
    unfold bind, try_except. rewrite E. unfold incr_request_count.
    match goal with
    | |- context [run_batch lib rest script (S k) ?w2] =>
        destruct (IH (S k) w2) as [Hr2 Hc2]
    end.
    split; [exact Hr2 |]. rewrite Hc2. cbn [request_count List.length].
    unfold same_request_count in Hc. lia.
Qed.

(** The sessions the main thread does not wait for run to their end
    and are not counted. *)
Lemma basic_run_uncollected_counts selected_websites script k w :
  let r := run_uncollected lib selected_websites script k w in
  fst r = Returns tt /\ request_count (snd r) = request_count w.
Proof.
  cbv zeta. revert k w.
  induction selected_websites as [| website rest IH]; intros k w.
  - simpl. split; reflexivity.
  - cbn [run_uncollected].
    pose proof (basic_session_always_returns website (script k) w) as Hr.
    pose proof (count_session website (script k) w) as Hc.
    destruct (simulate_browsing_session lib website (script k) w)
      as [[[]|e|] w1] eqn:E; cbn [fst snd] in *; try discriminate.
    unfold bind, try_except. rewrite E.
    destruct (IH (S k) w1) as [Hr2 Hc2].
    split; [exact Hr2 |]. rewrite Hc2. exact Hc.
Qed.

(** The [with] block counts the sessions of the passes of its loop:
    all of them, or those before Ctrl-C. *)
Lemma basic_run_pool_counts selected_websites win w :
  let r := run_pool lib selected_websites win w in
  fst r = match interrupt win with
          | Some (WhileDraining _) => Raises KeyboardInterrupt
          | _ => Returns tt
          end /\
  request_count (snd r)
  = request_count w
    + match interrupt win with
      | Some (WhileDraining collected) =>
          Z.min (Z.of_nat collected) (Z.of_nat (List.length selected_websites))
      | _ => Z.of_nat (List.length selected_websites)
      end.
Proof.
  cbv zeta. unfold run_pool.
  destruct (interrupt win) as [[collected|]|];
    try apply basic_run_batch_counts.
  unfold bind.
  destruct (basic_run_batch_counts (firstn collected selected_websites)
              (session_script win) 0 w) as [Hr1 Hc1].
  destruct (run_batch lib (firstn collected selected_websites) (session_script win) 0 w)
    as [[[]|e|] w1]; cbn [fst snd] in *; try discriminate.
  destruct (basic_run_uncollected_counts (skipn collected selected_websites)
              (session_script win) collected w1) as [Hr2 Hc2].
  destruct (run_uncollected lib (skipn collected selected_websites)
              (session_script win) collected w1)
    as [[[]|e|] w2]; cbn [fst snd] in *; try discriminate.
  unfold raise. cbn [fst snd]. split; [reflexivity |].
  rewrite Hc2, Hc1, length_firstn. lia.
Qed.

Lemma completion_run_batch selected_websites script k :
  steady (same_records is_completion) (run_batch lib selected_websites script k).
Proof.
  revert k. induction selected_websites as [| website rest IH]; intros k; simpl;
    frame_auto.
Qed.

Lemma completion_run_uncollected selected_websites script k :
  steady (same_records is_completion) (run_uncollected lib selected_websites script k).
Proof.
  revert k. induction selected_websites as [| website rest IH]; intros k; simpl;
    frame_auto.
Qed.

Hint Resolve completion_run_batch completion_run_uncollected : frame.

Lemma completion_run_pool selected_websites win :
  steady (same_records is_completion) (run_pool lib selected_websites win).
Proof. unfold run_pool. frame_auto. Qed.

Lemma random_sample_run {A} (population : list A) k pick w :
  (0 <= k <= Z.of_nat (List.length population) ->
   exists l, random_sample population k pick w = (Returns l, w)
             /\ Z.of_nat (List.length l) = k
             /\ Forall (fun x => In x population) l) /\
  (k < 0 \/ Z.of_nat (List.length population) < k ->
   random_sample population k pick w = (Raises ValueError, w)).
Proof.
  unfold random_sample. split.
  - intros Hk.
    destruct (k <? 0) eqn:E1; [apply Z.ltb_lt in E1; lia |].
    destruct (Z.of_nat (List.length population) <? k) eqn:E2;
      [apply Z.ltb_lt in E2; lia |].
    cbn [orb]. destruct population as [| x l'].
    + exists []. simpl in *. repeat split; [lia | constructor].
    + eexists. split; [reflexivity |]. split.
      * rewrite length_map, length_seq. lia.
      * apply Forall_forall. intros y Hy. apply in_map_iff in Hy.
        destruct Hy as (i & <- & _). apply nth_In.
        apply Nat.mod_upper_bound. discriminate.
  - intros [Hk | Hk].
    + apply Z.ltb_lt in Hk. rewrite Hk. reflexivity.
    + apply Z.ltb_lt in Hk. rewrite Hk, orb_true_r. reflexivity.
Qed.

End Sessions.

#[export] Hint Resolve basic_benign_make_request : benign.
#[export] Hint Resolve basic_count_make_request basic_grows_make_request
  completion_make_request completion_run_batch completion_run_uncollected
  completion_run_pool : frame.

Section Runs.

Context (lib : Platform) (config : Config).

(** X11. With a non-negative rate and a working pool, a window of
    [generate_traffic] that Ctrl-C does not reach while the pool drains
    adds [min(requests_per_minute, len(websites))] to [request_count],
    whatever the network answers: the counter counts sessions, and a
    session whose requests all fail counts as well.  When Ctrl-C
    arrives while the pool drains, only the sessions whose results the
    main thread had taken by then are counted. *)
Theorem every_session_is_counted requests_per_minute win w :
  0 <= requests_per_minute ->
  0 < max_workers config ->
  let sessions :=
    Z.min requests_per_minute (Z.of_nat (List.length (websites lib))) in
  request_count (snd (dispatch_minute lib config requests_per_minute win w))
  = request_count w
    + match interrupt win with
      | Some (WhileDraining collected) => Z.min (Z.of_nat collected) sessions
      | _ => sessions
      end.
Proof.
  intros Hr Hworkers. cbv zeta. unfold dispatch_minute.
  unfold bind at 1. unfold time_time.
  destruct (proj1 (random_sample_run (websites lib)
                     (Z.min requests_per_minute (Z.of_nat (List.length (websites lib))))
                     (sample_pick win) w)) as (l & Hs & Hlen & _); [lia |].
  rewrite (bind_returns _ _ _ Hs).
  unfold ThreadPoolExecutor.
  destruct (max_workers config <=? 0) eqn:E; [apply Z.leb_le in E; lia |].
  unfold bind at 1. unfold ret at 1. unfold bind at 1. unfold drain.
  destruct (basic_run_pool_counts lib l win w) as [Hret Hcount].
  rewrite <- Hlen.
  destruct (run_pool lib l win w) as [[[]|e|] w1];
    cbn [fst snd] in *; unfold ret; cbn [snd request_count]; exact Hcount.
Qed.

Lemma basic_dispatch_minute_returns requests_per_minute win w t w1 :
  dispatch_minute lib config requests_per_minute win w = (Returns t, w1) ->
  t = clock w /\ clock w1 = (clock w + pool_seconds win)%Q.
Proof.
  unfold dispatch_minute. unfold bind at 1. unfold time_time. unfold bind at 1.
  pose proof (steady_random_sample eq (websites lib)
                (Z.min requests_per_minute (Z.of_nat (List.length (websites lib))))
                (sample_pick win) w) as Hw.
  destruct (random_sample _ _ _ w) as [[l|e|] w0]; cbn [snd] in Hw; subst w0;
    try discriminate.
  unfold bind at 1. unfold ThreadPoolExecutor.
  destruct (max_workers config <=? 0); [discriminate |].
  unfold ret at 1. unfold bind at 1. unfold drain.
  destruct (run_pool lib _ win w) as [[[]|e|] w2]; try discriminate.
  unfold ret. intros H. injection H as <- <-. split; reflexivity.
Qed.

Lemma basic_run_minute_advances requests_per_minute win w w' :
  run_minute lib config requests_per_minute win w = (Returns tt, w') ->
  (0 <= pool_seconds win)%Q ->
  (clock w + 60 <= clock w')%Q.
Proof.
  unfold run_minute. unfold bind at 1.
  destruct (dispatch_minute lib config requests_per_minute win w)
    as [[t|e|] w1] eqn:D; try discriminate.
  apply basic_dispatch_minute_returns in D. destruct D as [-> Hc].
  unfold wait_rest_of_minute. unfold bind at 1. unfold bind at 1.
  unfold time_time.
  destruct (Qlt_le_dec (clock w1 - clock w) 60) as [Hlt | Hge].
  - destruct (interrupt win) as [[collected|]|]; try discriminate;
      unfold time_sleep;
      (destruct (Qlt_le_dec (60 - (clock w1 - clock w)) 0); [discriminate |]);
      unfold bind, get_request_count, emit; intros H Hpool; injection H as <-;
      cbn [clock]; lra.
  - unfold bind, ret, get_request_count, emit. intros H Hpool. injection H as <-.
    cbn [clock]. lra.
Qed.

Lemma basic_run_minute_halts requests_per_minute win w :
  fst (run_minute lib config requests_per_minute win w) <> OutOfFuel.
Proof.
  unfold run_minute, dispatch_minute. unfold bind at 1. unfold bind at 1.
  unfold time_time. unfold bind at 1.
  pose proof (random_sample_run (websites lib)
                (Z.min requests_per_minute (Z.of_nat (List.length (websites lib))))
                (sample_pick win) w) as [_ Hraise].
  destruct (random_sample _ _ _ w) as [[l|e|] w0] eqn:S; try discriminate.
  - unfold bind at 1. unfold ThreadPoolExecutor.
    destruct (max_workers config <=? 0); [discriminate |].
    unfold ret at 1. unfold bind at 1. unfold drain.
    destruct (basic_run_pool_counts lib l win w0) as [Hret _].
    destruct (run_pool lib l win w0) as [[[]|e|] w1];
      cbn [fst] in Hret; try discriminate;
      [| destruct (interrupt win) as [[|]|]; discriminate].
    unfold wait_rest_of_minute, time_sleep, get_request_count.
    destruct (interrupt win) as [[|]|]; unfold_py; cbn [clock];
      try discriminate;
      repeat match goal with
             | |- context [Qlt_le_dec ?a ?b] => destruct (Qlt_le_dec a b)
             end; discriminate.
  - exfalso.
    unfold random_sample in S.
    destruct (_ || _); [discriminate |]. destruct (websites lib); discriminate.
Qed.

Lemma basic_scheduling_loop_ends requests_per_minute end_time windows fuel :
  (forall j, 0 <= pool_seconds (windows j))%Q ->
  forall i w,
    (end_time - clock w <= 60 * inject_Z (Z.of_nat fuel))%Q ->
    fst (scheduling_loop lib config fuel requests_per_minute end_time windows i w)
    <> OutOfFuel.
Proof.
  intros Hpool. induction fuel as [| fuel IH]; intros i w Hleft.
  - simpl. unfold bind, time_time.
    destruct (Qlt_le_dec (clock w) end_time) as [Hlt | Hge]; [| discriminate].
    exfalso. change (inject_Z (Z.of_nat 0)) with 0%Q in Hleft. lra.
  - cbn [scheduling_loop]. unfold bind at 1. unfold time_time.
    destruct (Qlt_le_dec (clock w) end_time) as [Hlt | Hge]; [| discriminate].
    unfold bind.
    pose proof (basic_run_minute_halts requests_per_minute (windows i) w) as Hh.
    destruct (run_minute lib config requests_per_minute (windows i) w)
      as [[[]|e|] w'] eqn:R.
    + apply IH. apply basic_run_minute_advances in R; [| apply Hpool].
      rewrite SummaryFacts.inject_Z_succ in Hleft. lra.
    + discriminate.
    + exfalso. apply Hh. reflexivity.
Qed.

Lemma completion_run_minute requests_per_minute win :
  steady (same_records is_completion)
    (run_minute lib config requests_per_minute win).
Proof.
  unfold run_minute, dispatch_minute, wait_rest_of_minute. frame_auto.
Qed.

Hint Resolve completion_run_minute : frame.

Lemma completion_scheduling_loop fuel requests_per_minute end_time windows i :
  steady (same_records is_completion)
    (scheduling_loop lib config fuel requests_per_minute end_time windows i).
Proof.
  revert i. induction fuel as [| fuel IH]; intros i; simpl; frame_auto.
  all: intros w; reflexivity.
Qed.

(** X10. With enough fuel for its minutes and pools that take no
    negative time, [generate_traffic] always returns normally, also
    after Ctrl-C or an exception in the loop, and its last record is
    the one line "Traffic generation completed" carrying the final
    request counter; no other such line is written during the run. *)
Theorem generate_traffic_always_reports duration_minutes requests_per_minute
  windows fuel w :
  (forall j, 0 <= pool_seconds (windows j))%Q ->
  duration_minutes <= Z.of_nat fuel ->
  exists w1,
    generate_traffic lib config duration_minutes requests_per_minute windows fuel w
    = (Returns tt, logged (Info (GenerationCompleted (request_count w1))) w1) /\
    records is_completion (trace w1) = records is_completion (trace w).
Proof.
  intros Hpool Hfuel. unfold generate_traffic.
  unfold bind at 1. unfold emit at 1.
  unfold bind at 1. unfold emit at 1.
  unfold bind at 1. unfold time_time.
  unfold bind at 1. unfold reset_request_count.
  cbn [session_stats request_count trace clock].
  match goal with
  | |- context [try_finally (try_except ?loop ?h) ?final ?w0] =>
      pose proof (basic_scheduling_loop_ends requests_per_minute
                    (clock w + inject_Z (duration_minutes * 60)) windows fuel
                    Hpool 0%nat w0) as Hends;
      pose proof (completion_scheduling_loop fuel requests_per_minute
                    (clock w + inject_Z (duration_minutes * 60)) windows 0 w0)
        as Hsame;
      unfold try_finally, try_except;
      destruct (loop w0) as [[[]|e|] w1]
  end; unfold same_records in Hsame; cbn [snd trace] in Hsame.
  - exists w1. split; [reflexivity |]. rewrite Hsame.
    rewrite !records_app. unfold records. simpl. lia.
  - exists (snd (match interrupt_handlers e with
                 | Some h => h w1
                 | None => (Returns tt, w1)
                 end)).
    destruct e; (split; [reflexivity |]); cbn [interrupt_handlers is_Exception];
      unfold emit; cbn [snd trace];
      rewrite !records_app, Hsame, !records_app; unfold records; simpl; lia.
  - exfalso. apply Hends; [| reflexivity].
    cbn [clock]. rewrite inject_Z_mult.
    assert (inject_Z duration_minutes <= inject_Z (Z.of_nat fuel))%Q
      by (rewrite <- Zle_Qle; exact Hfuel).
    change (inject_Z 60) with 60%Q. lra.
Qed.

(** X12. With a negative rate [random.sample] raises [ValueError] in
    the first window: [generate_traffic] logs it as an unexpected error
    and ends at once, without a transport call or a sleep, reporting
    zero requests. *)
Theorem negative_rate_ends_the_run duration_minutes requests_per_minute
  windows fuel w :
  requests_per_minute < 0 ->
  0 < duration_minutes ->
  (0 < fuel)%nat ->
  generate_traffic lib config duration_minutes requests_per_minute windows fuel w
  = (Returns tt,
     mkWorld (session_stats w) 0
       (trace w ++ [Info (StartingGeneration duration_minutes);
                    Info (TargetRate requests_per_minute);
                    Error (UnexpectedError ValueError);
                    Info (GenerationCompleted 0)])
       (clock w)).
Proof.
  intros Hr Hd Hfuel. unfold generate_traffic.
  unfold bind at 1. unfold emit at 1.
  unfold bind at 1. unfold emit at 1.
  unfold bind at 1. unfold time_time.
  unfold bind at 1. unfold reset_request_count.
  cbn [session_stats request_count trace clock].
  destruct fuel as [| fuel]; [lia |].
  unfold try_finally, try_except. cbn [scheduling_loop].
  unfold bind at 1. unfold time_time. cbn [clock].
  destruct (Qlt_le_dec (clock w) (clock w + inject_Z (duration_minutes * 60)))
    as [_ | Hge].
  2: { exfalso.
       assert (0 < inject_Z (duration_minutes * 60))%Q
         by (change 0%Q with (inject_Z 0); rewrite <- Zlt_Qlt; lia).
       lra. }
  unfold bind at 1. unfold run_minute. unfold bind at 1.
  unfold dispatch_minute. unfold bind at 1. unfold time_time.
  match goal with
  | |- context [bind (random_sample ?p ?k ?pk) ?f ?w0] =>
      assert (Hk : k < 0 \/ Z.of_nat (List.length p) < k) by lia;
      rewrite (bind_raises _ f _ (proj2 (random_sample_run p k pk w0) Hk))
  end.
  unfold interrupt_handlers. cbn [is_Exception]. unfold emit.
  unfold bind, get_request_count. cbn [session_stats request_count trace clock].
  rewrite <- !app_assoc. reflexivity.
Qed.

(** *** The size of a run *)

(** A window adds at most one session per sampled website to the
    counter, however it ends. *)
Lemma basic_dispatch_minute_count requests_per_minute win w :
  0 <= requests_per_minute ->
  request_count (snd (dispatch_minute lib config requests_per_minute win w))
  <= request_count w
     + Z.min requests_per_minute (Z.of_nat (List.length (websites lib))).
Proof.
  intros Hr. unfold dispatch_minute.
  unfold bind at 1. unfold time_time.
  destruct (proj1 (random_sample_run (websites lib)
                     (Z.min requests_per_minute (Z.of_nat (List.length (websites lib))))
                     (sample_pick win) w)) as (l & Hs & Hlen & _); [lia |].
  rewrite (bind_returns _ _ _ Hs).
  unfold ThreadPoolExecutor.
  destruct (max_workers config <=? 0); [unfold bind, raise; cbn [snd]; lia |].
  unfold bind at 1. unfold ret at 1. unfold bind at 1. unfold drain.
  destruct (basic_run_pool_counts lib l win w) as [_ Hcount].
  assert (request_count (snd (run_pool lib l win w))
          <= request_count w
             + Z.min requests_per_minute (Z.of_nat (List.length (websites lib))))
    by (rewrite Hcount; destruct (interrupt win) as [[collected|]|]; lia).
  destruct (run_pool lib l win w) as [[[]|e|] w1];
    cbn [fst snd] in *; unfold ret; cbn [snd request_count]; assumption.
Qed.

Lemma basic_run_minute_count requests_per_minute win w :
  0 <= requests_per_minute ->
  request_count (snd (run_minute lib config requests_per_minute win w))
  <= request_count w
     + Z.min requests_per_minute (Z.of_nat (List.length (websites lib))).
Proof.
  intros Hr. unfold run_minute. unfold bind at 1.
  pose proof (basic_dispatch_minute_count requests_per_minute win w Hr) as Hd.
  destruct (dispatch_minute lib config requests_per_minute win w) as [[t|e|] w1];
    cbn [snd] in *; try assumption.
  match goal with
  | |- request_count (snd (?rest w1)) <= _ =>
      assert (Hrest : steady same_request_count rest)
        by (unfold wait_rest_of_minute; frame_auto);
      specialize (Hrest w1)
  end.
  unfold same_request_count in Hrest. lia.
Qed.

(** With at most [k] minutes to go, the loop adds at most [k] windows of
    sessions to the counter. *)
Lemma basic_scheduling_loop_count requests_per_minute end_time windows fuel :
  0 <= requests_per_minute ->
  (forall j, 0 <= pool_seconds (windows j))%Q ->
  forall (k : nat) i w,
    (end_time - clock w <= 60 * inject_Z (Z.of_nat k))%Q ->
    request_count
      (snd (scheduling_loop lib config fuel requests_per_minute end_time windows i w))
    <= request_count w
       + Z.of_nat k
         * Z.min requests_per_minute (Z.of_nat (List.length (websites lib))).
Proof.
  intros Hr Hpool.
  set (m := Z.min requests_per_minute (Z.of_nat (List.length (websites lib)))).
  assert (Hm : 0 <= m) by (subst m; lia).
  assert (Hrun : forall win w,
             request_count (snd (run_minute lib config requests_per_minute win w))
             <= request_count w + m)
    by (intros; apply basic_run_minute_count; exact Hr).
  clearbody m.
  assert (Hkm : forall k : nat, 0 <= Z.of_nat k * m)
    by (intros; apply Z.mul_nonneg_nonneg; lia).
  induction fuel as [| fuel IH]; intros k i w Hleft; specialize (Hkm k) as Hk0.
  - simpl. unfold bind, time_time.
    destruct (Qlt_le_dec (clock w) end_time); unfold ret; cbn [snd]; lia.
  - cbn [scheduling_loop]. unfold bind at 1. unfold time_time.
    destruct (Qlt_le_dec (clock w) end_time) as [Hlt | Hge];
      [| unfold ret; cbn [snd]; lia].
    destruct k as [| k].
    { exfalso. change (inject_Z (Z.of_nat 0)) with 0%Q in Hleft. lra. }
    unfold bind.
    pose proof (Hrun (windows i) w) as Hc. specialize (Hkm k) as Hk1.
    destruct (run_minute lib config requests_per_minute (windows i) w)
      as [[[]|e|] w'] eqn:R; cbn [snd] in *; try nia.
    apply basic_run_minute_advances in R; [| apply Hpool].
    assert (Hk : (end_time - clock w' <= 60 * inject_Z (Z.of_nat k))%Q).
    { rewrite SummaryFacts.inject_Z_succ in Hleft. lra. }
    specialize (IH k (S i) w' Hk). nia.
Qed.

(** X21. With a non-negative duration and rate and pools that take no
    negative time, a run of [generate_traffic] counts at most
    [duration_minutes * min(requests_per_minute, len(websites))]
    sessions, however it ends: every window lasts at least a minute,
    so no more than [duration_minutes] windows are started. *)
Theorem a_run_counts_at_most_its_minutes duration_minutes requests_per_minute
  windows fuel w :
  0 <= duration_minutes ->
  0 <= requests_per_minute ->
  (forall j, 0 <= pool_seconds (windows j))%Q ->
  request_count
    (snd (generate_traffic lib config duration_minutes requests_per_minute
            windows fuel w))
  <= duration_minutes
     * Z.min requests_per_minute (Z.of_nat (List.length (websites lib))).
Proof.
  intros Hd Hr Hpool. unfold generate_traffic.
  unfold bind at 1. unfold emit at 1.
  unfold bind at 1. unfold emit at 1.
  unfold bind at 1. unfold time_time.
  unfold bind at 1. unfold reset_request_count.
  cbn [session_stats request_count trace clock].
  match goal with
  | |- context [try_finally (try_except ?loop ?h) ?final ?w0] =>
      pose proof (basic_scheduling_loop_count requests_per_minute
                    (clock w + inject_Z (duration_minutes * 60)) windows fuel
                    Hr Hpool (Z.to_nat duration_minutes) 0%nat w0) as Hcount;
      unfold try_finally, try_except;
      destruct (loop w0) as [[[]|e|] w1]
  end; cbn [snd request_count clock] in Hcount;
    rewrite Z2Nat.id in Hcount by assumption.
  all: assert (Hleft : (clock w + inject_Z (duration_minutes * 60) - clock w
                        <= 60 * inject_Z duration_minutes)%Q)
         by (rewrite inject_Z_mult; change (inject_Z 60) with 60%Q; lra);
       specialize (Hcount Hleft).
  - unfold bind, get_request_count, emit. cbn [snd request_count]. lia.
  - destruct e; unfold interrupt_handlers; cbn [is_Exception]; unfold emit;
      unfold bind, get_request_count; cbn [snd request_count]; lia.
  - cbn [snd]. lia.
Qed.

End Runs.

Lemma every_session_is_counted_witness :
  let sessions := Z.min 5 (Z.of_nat (List.length (websites sample_platform))) in
  let count signal :=
    request_count
      (snd (dispatch_minute sample_platform sample_config 5
              (basic_window_with Fails 0 signal) (initial_world 0))) in
  0 <= 5 /\ 0 < max_workers sample_config /\
  count None = 2 /\
  count (Some (WhileDraining 1)) = 1.
Proof.
  assert (H0 : 0 <= 5) by lia.
  assert (H1 : 0 < max_workers sample_config) by reflexivity.
  cbv zeta.
  split; [exact H0 |]. split; [exact H1 |]. split.
  - exact (every_session_is_counted sample_platform sample_config 5
             (basic_window_with Fails 0 None) (initial_world 0) H0 H1).
  - exact (every_session_is_counted sample_platform sample_config 5
             (basic_window_with Fails 0 (Some (WhileDraining 1))) (initial_world 0)
             H0 H1).
Defined.

Lemma generate_traffic_always_reports_witness :
  exists w1,
    generate_traffic sample_platform sample_config 1 2
      (fun _ => basic_window_with (Answers (mkResponse 200)) 5 None) 1
      (initial_world 0)
    = (Returns tt, logged (Info (GenerationCompleted (request_count w1))) w1) /\
    records is_completion (trace w1)
    = records is_completion (trace (initial_world 0)).
Proof.
  apply (generate_traffic_always_reports sample_platform sample_config 1 2
           (fun _ => basic_window_with (Answers (mkResponse 200)) 5 None) 1%nat
           (initial_world 0)).
  - intros j. discriminate.
  - simpl. lia.
Defined.

Lemma negative_rate_ends_the_run_witness :
  generate_traffic sample_platform sample_config 1 (-1)
    (fun _ => basic_window_with Fails 0 None) 1 (initial_world 0)
  = (Returns tt,
     mkWorld (session_stats (initial_world 0)) 0
       (trace (initial_world 0)
        ++ [Info (StartingGeneration 1); Info (TargetRate (-1));
            Error (UnexpectedError ValueError); Info (GenerationCompleted 0)])
       (clock (initial_world 0))).
Proof.
  apply (negative_rate_ends_the_run sample_platform sample_config 1 (-1)
           (fun _ => basic_window_with Fails 0 None) 1%nat (initial_world 0)).
  - lia.
  - lia.
  - lia.
Defined.

Lemma a_run_counts_at_most_its_minutes_witness :
  0 <= 2 /\ 0 <= 5 /\
  request_count
    (snd (generate_traffic sample_platform sample_config 2 5
            (fun _ => basic_window_with (Answers (mkResponse 200)) 5 None) 2
            (initial_world 0)))
  <= 2 * Z.min 5 (Z.of_nat (List.length (websites sample_platform))).
Proof.
  assert (H0 : 0 <= 2) by lia.
  assert (H1 : 0 <= 5) by lia.
  split; [exact H0 |]. split; [exact H1 |].
  apply (a_run_counts_at_most_its_minutes sample_platform sample_config 2 5
           (fun _ => basic_window_with (Answers (mkResponse 200)) 5 None) 2%nat
           (initial_world 0) H0 H1).
  intros j. discriminate.
Defined.

End BasicFacts.

(** ** The windows of a run *)

Module MinuteFacts.

Import FrameFacts LedgerFacts CountFacts AdvancedWebTrafficSimulator.

Section Minutes.

Context (lib : Platform) (config : Config).

Lemma minutes_make_request url method simulation_type net :
  steady (same_records is_minute_completed)
    (make_request lib url method simulation_type net).
Proof.
  unfold make_request, request_headers, get_random_user_agent, send_request,
    simulate_dns_lookup, session_request, log_traffic, log_security_event.
  frame_auto.
Qed.

Lemma minutes_compromised_behavior behavior_type d :
  steady (same_records is_minute_completed)
    (simulate_compromised_behavior lib behavior_type d).
Proof.
  unfold simulate_compromised_behavior, log_compromise_activity. frame_auto.
Qed.

Hint Resolve minutes_make_request minutes_compromised_behavior : frame.

Lemma minutes_interact_all website session_type l :
  steady (same_records is_minute_completed)
    (interact_all lib website session_type l).
Proof.
  induction l as [| i l IH]; simpl; [frame_auto |].
  unfold interact. frame_auto.
Qed.

Hint Resolve minutes_interact_all : frame.

Lemma minutes_human_session website session_type s :
  steady (same_records is_minute_completed)
    (simulate_human_browsing_session lib website session_type s).
Proof. unfold simulate_human_browsing_session. frame_auto. Qed.

Lemma minutes_malicious_traffic s :
  steady (same_records is_minute_completed) (simulate_malicious_traffic lib s).
Proof.
  unfold simulate_malicious_traffic, generate_malicious_payload, log_security_event.
  frame_auto.
Qed.

Hint Resolve minutes_human_session minutes_malicious_traffic : frame.

Lemma minutes_append_sessions request_type n pick from all_requests :
  steady (same_records is_minute_completed)
    (append_sessions lib request_type n pick from all_requests).
Proof.
  revert from all_requests. induction n as [| n IH]; intros; simpl; frame_auto.
Qed.

Hint Resolve minutes_append_sessions : frame.

Lemma minutes_run_batch items script k :
  steady (same_records is_minute_completed) (run_batch lib items script k).
Proof.
  revert k. induction items as [| item rest IH]; intros k; simpl; frame_auto.
  unfold run_item. frame_auto.
Qed.

Lemma minutes_run_uncollected items script k :
  steady (same_records is_minute_completed) (run_uncollected lib items script k).
Proof.
  revert k. induction items as [| item rest IH]; intros k; simpl; frame_auto.
  unfold run_item. frame_auto.
Qed.

Hint Resolve minutes_run_batch minutes_run_uncollected : frame.

Lemma minutes_run_pool all_requests win :
  steady (same_records is_minute_completed) (run_pool lib all_requests win).
Proof. unfold run_pool. frame_auto. Qed.

Hint Resolve minutes_run_pool : frame.

(** A window writes its closing line once, and only when it returns. *)
Lemma minutes_run_minute mix requests_per_minute win w :
  let r := run_minute lib config mix requests_per_minute win w in
  minutes (snd r)
  = minutes w + match fst r with Returns _ => 1 | _ => 0 end.
Proof.
  cbv zeta. unfold run_minute.
  match goal with
  | |- context [bind ?d (fun minute_start => bind (@?wait minute_start) ?k)] =>
      assert (Hbefore : steady (same_records is_minute_completed) (bind d wait))
        by (unfold dispatch_minute, compose_requests, wait_rest_of_minute;
            frame_auto)
  end.
  specialize (Hbefore w). unfold same_records in Hbefore. unfold minutes.
  unfold bind in *.
  destruct (dispatch_minute lib config mix requests_per_minute win w)
    as [[t|e|] w1]; cbn [fst snd] in *; try lia.
  destruct (wait_rest_of_minute t (interrupt win) w1) as [[[]|e|] w2];
    cbn [fst snd] in *; try lia.
  unfold emit. cbn [fst snd trace]. rewrite records_app.
  unfold records at 2. simpl. lia.
Qed.

Lemma minutes_scheduling_loop requests_per_minute end_time windows fuel :
  (forall j, 0 <= pool_seconds (windows j))%Q ->
  forall (k : nat) i w,
    (end_time - clock w <= 60 * inject_Z (Z.of_nat k))%Q ->
    minutes (snd (scheduling_loop lib config fuel requests_per_minute end_time
                    windows i w))
    <= minutes w + Z.of_nat k.
Proof.
  intros Hpool. induction fuel as [| fuel IH]; intros k i w Hleft.
  - simpl. unfold bind, time_time.
    destruct (Qlt_le_dec (clock w) end_time); unfold ret; cbn [snd]; lia.
  - cbn [scheduling_loop]. unfold bind at 1. unfold time_time.
    destruct (Qlt_le_dec (clock w) end_time) as [Hlt | Hge];
      [| unfold ret; cbn [snd]; lia].
    destruct k as [| k].
    { exfalso. change (inject_Z (Z.of_nat 0)) with 0%Q in Hleft. lra. }
    unfold bind.
    pose proof (minutes_run_minute traffic_composition requests_per_minute
                  (windows i) w) as Hc. cbv zeta in Hc.
    destruct (run_minute lib config traffic_composition requests_per_minute
                (windows i) w) as [[[]|e|] w'] eqn:R; cbn [fst snd] in *; try lia.
    apply SummaryFacts.run_minute_advances in R; [| apply Hpool].
    assert (Hk : (end_time - clock w' <= 60 * inject_Z (Z.of_nat k))%Q).
    { rewrite SummaryFacts.inject_Z_succ in Hleft. lra. }
    specialize (IH k (S i) w' Hk). lia.
Qed.

(** X22. With a non-negative duration and pools that take no negative
    time, a run of [generate_advanced_traffic] completes at most
    [duration_minutes] windows: it writes at most that many
    "Minute completed" lines, whatever the rate, the network and the
    signals. *)
Theorem a_run_has_at_most_its_minutes duration_minutes requests_per_minute
  windows fuel w :
  0 <= duration_minutes ->
  (forall j, 0 <= pool_seconds (windows j))%Q ->
  minutes (snd (generate_advanced_traffic lib config duration_minutes
                  requests_per_minute windows fuel w))
  <= minutes w + duration_minutes.
Proof.
  intros Hd Hpool. rewrite SummaryFacts.generate_advanced_traffic_unfold.
  unfold try_finally, try_except.
  match goal with
  | |- context [scheduling_loop lib config fuel ?r ?t ?ws ?i ?w0] =>
      pose proof (minutes_scheduling_loop r t ws fuel Hpool
                    (Z.to_nat duration_minutes) i w0) as Hcount;
      destruct (scheduling_loop lib config fuel r t ws i w0) as [[[]|e|] w1]
  end; unfold logged in Hcount; cbn [snd clock] in Hcount;
    rewrite Z2Nat.id in Hcount by assumption.
  all: assert (Hleft : (clock w + inject_Z (duration_minutes * 60) - clock w
                        <= 60 * inject_Z duration_minutes)%Q)
         by (rewrite inject_Z_mult; change (inject_Z 60) with 60%Q; lra);
       specialize (Hcount Hleft);
       unfold minutes, logged in Hcount; cbn [trace] in Hcount;
       rewrite !records_app in Hcount;
       change (records is_minute_completed [Info (StartingGeneration duration_minutes)])
         with 0 in Hcount;
       change (records is_minute_completed [Info (TargetRate requests_per_minute)])
         with 0 in Hcount.
  - rewrite SummaryFacts.log_final_statistics_raises. cbn [snd].
    unfold minutes. lia.
  - destruct e; unfold interrupt_handlers; cbn [is_Exception]; unfold emit;
      rewrite SummaryFacts.log_final_statistics_raises; cbn [snd];
      unfold minutes; cbn [trace]; rewrite records_app; unfold records at 2;
      simpl; unfold minutes in Hcount; lia.
  - cbn [snd]. unfold minutes. lia.
Qed.

End Minutes.

Lemma a_run_has_at_most_its_minutes_witness :
  0 <= 1 /\
  minutes (snd (generate_advanced_traffic sample_platform sample_config 1 2
                  (fun _ => window_with (Answers (mkResponse 200)) 5 None) 1
                  (initial_world 0)))
  <= minutes (initial_world 0) + 1.
Proof.
  assert (H0 : 0 <= 1) by lia.
  split; [exact H0 |].
  apply (a_run_has_at_most_its_minutes sample_platform sample_config 1 2
           (fun _ => window_with (Answers (mkResponse 200)) 5 None) 1%nat
           (initial_world 0) H0).
  intros j. discriminate.
Defined.

End MinuteFacts.

(** ** The end of a window *)

Module WindowFacts.

Import FrameFacts CountFacts BasicFacts.

(** What is left of the minute once the batch is done: the sleep for
    the remainder while less than 60 seconds have passed, nothing
    otherwise. *)
Lemma wait_rest_of_minute_run minute_start w :
  wait_rest_of_minute minute_start None w
  = (Returns tt,
     if Qlt_le_dec (clock w - minute_start) 60
     then slept (60 - (clock w - minute_start)) w
     else w).
Proof.
  unfold wait_rest_of_minute. unfold bind, time_time.
  destruct (Qlt_le_dec (clock w - minute_start) 60) as [Hlt | Hge]; [| reflexivity].
  unfold time_sleep.
  destruct (Qlt_le_dec (60 - (clock w - minute_start)) 0) as [Hneg | _];
    [exfalso; lra | reflexivity].
Qed.

(** *** Nothing is taken back from the trace *)

#[export] Instance continues_preorder : PreOrder continues.
Proof.
  split.
  - intros w. exists []. symmetry. apply app_nil_r.
  - intros a b c [r1 H1] [r2 H2]. exists (r1 ++ r2)%list.
    rewrite H2, H1. symmetry. apply app_assoc.
Qed.

Lemma continues_emit e : steady continues (emit e).
Proof. intros w. exists [e]. reflexivity. Qed.

Lemma continues_update_stats f : steady continues (update_stats f).
Proof. intros w. exists []. symmetry. apply app_nil_r. Qed.

Lemma continues_time_sleep seconds : steady continues (time_sleep seconds).
Proof.
  intros w. unfold time_sleep. destruct (Qlt_le_dec seconds 0); [reflexivity |].
  exists [Sleep seconds]. reflexivity.
Qed.

Lemma continues_drain {A} seconds (c : Py A) :
  steady continues c -> steady continues (drain seconds c).
Proof.
  intros Hc w. unfold drain. specialize (Hc w). destruct (c w) as [r w1]. exact Hc.
Qed.

Lemma continues_incr_request_count :
  steady continues WebTrafficGenerator.incr_request_count.
Proof. intros w. exists []. symmetry. apply app_nil_r. Qed.

#[local] Hint Resolve continues_emit continues_update_stats continues_time_sleep
  continues_incr_request_count : frame.
#[local] Hint Extern 1 (steady continues (drain _ _)) => apply continues_drain : frame.

Section Windows.

Context (lib : Platform) (config : Config).

Lemma continues_make_request url method simulation_type net :
  steady continues
    (AdvancedWebTrafficSimulator.make_request lib url method simulation_type net).
Proof.
  unfold AdvancedWebTrafficSimulator.make_request,
    AdvancedWebTrafficSimulator.request_headers,
    AdvancedWebTrafficSimulator.get_random_user_agent,
    AdvancedWebTrafficSimulator.send_request,
    AdvancedWebTrafficSimulator.simulate_dns_lookup, session_request,
    AdvancedWebTrafficSimulator.log_traffic,
    AdvancedWebTrafficSimulator.log_security_event.
  frame_auto.
Qed.

Lemma continues_compromised_behavior behavior_type d :
  steady continues
    (AdvancedWebTrafficSimulator.simulate_compromised_behavior lib behavior_type d).
Proof.
  unfold AdvancedWebTrafficSimulator.simulate_compromised_behavior,
    AdvancedWebTrafficSimulator.log_compromise_activity.
  frame_auto.
Qed.

Hint Resolve continues_make_request continues_compromised_behavior : frame.

Lemma continues_interact_all website session_type l :
  steady continues (AdvancedWebTrafficSimulator.interact_all lib website session_type l).
Proof.
  induction l as [| i l IH]; simpl; [frame_auto |].
  unfold AdvancedWebTrafficSimulator.interact. frame_auto.
Qed.

Hint Resolve continues_interact_all : frame.

Lemma continues_human_session website session_type s :
  steady continues
    (AdvancedWebTrafficSimulator.simulate_human_browsing_session lib website
       session_type s).
Proof. unfold AdvancedWebTrafficSimulator.simulate_human_browsing_session. frame_auto. Qed.

Lemma continues_malicious_traffic s :
  steady continues (AdvancedWebTrafficSimulator.simulate_malicious_traffic lib s).
Proof.
  unfold AdvancedWebTrafficSimulator.simulate_malicious_traffic,
    AdvancedWebTrafficSimulator.generate_malicious_payload,
    AdvancedWebTrafficSimulator.log_security_event.
  frame_auto.
Qed.

Hint Resolve continues_human_session continues_malicious_traffic : frame.

Lemma continues_append_sessions request_type n pick from all_requests :
  steady continues
    (AdvancedWebTrafficSimulator.append_sessions lib request_type n pick from
       all_requests).
Proof.
  revert from all_requests. induction n as [| n IH]; intros; simpl; frame_auto.
Qed.

Lemma continues_run_batch items script k :
  steady continues (AdvancedWebTrafficSimulator.run_batch lib items script k).
Proof.
  revert k. induction items as [| item rest IH]; intros k; simpl; frame_auto.
  unfold AdvancedWebTrafficSimulator.run_item. frame_auto.
Qed.

Lemma continues_run_uncollected items script k :
  steady continues (AdvancedWebTrafficSimulator.run_uncollected lib items script k).
Proof.
  revert k. induction items as [| item rest IH]; intros k; simpl; frame_auto.
  unfold AdvancedWebTrafficSimulator.run_item. frame_auto.
Qed.

Hint Resolve continues_append_sessions continues_run_batch
  continues_run_uncollected : frame.

Lemma continues_run_pool all_requests win :
  steady continues (AdvancedWebTrafficSimulator.run_pool lib all_requests win).
Proof. unfold AdvancedWebTrafficSimulator.run_pool. frame_auto. Qed.

Hint Resolve continues_run_pool : frame.

Lemma continues_run_minute mix requests_per_minute win :
  steady continues
    (AdvancedWebTrafficSimulator.run_minute lib config mix requests_per_minute win).
Proof.
  unfold AdvancedWebTrafficSimulator.run_minute,
    AdvancedWebTrafficSimulator.dispatch_minute,
    AdvancedWebTrafficSimulator.compose_requests, wait_rest_of_minute.
  frame_auto.
Qed.

Hint Resolve continues_run_minute : frame.

Lemma continues_scheduling_loop fuel requests_per_minute end_time windows i :
  steady continues
    (AdvancedWebTrafficSimulator.scheduling_loop lib config fuel requests_per_minute
       end_time windows i).
Proof.
  revert i. induction fuel as [| fuel IH]; intros i; simpl; frame_auto.
  all: intros w; reflexivity.
Qed.

Lemma continues_basic_make_request url method net :
  steady continues (WebTrafficGenerator.make_request lib url method net).
Proof.
  unfold WebTrafficGenerator.make_request, WebTrafficGenerator.get_random_user_agent,
    WebTrafficGenerator.send_request, session_request.
  frame_auto.
Qed.

Hint Resolve continues_basic_make_request : frame.

Lemma continues_fetch_all website l :
  steady continues (WebTrafficGenerator.fetch_all lib website l).
Proof. induction l as [| x l IH]; simpl; frame_auto. Qed.

Hint Resolve continues_fetch_all : frame.

Lemma continues_basic_session website s :
  steady continues (WebTrafficGenerator.simulate_browsing_session lib website s).
Proof. unfold WebTrafficGenerator.simulate_browsing_session. frame_auto. Qed.

Hint Resolve continues_basic_session : frame.

Lemma continues_basic_run_batch selected_websites script k :
  steady continues (WebTrafficGenerator.run_batch lib selected_websites script k).
Proof.
  revert k. induction selected_websites as [| website rest IH]; intros k; simpl;
    frame_auto.
Qed.

Lemma continues_basic_run_uncollected selected_websites script k :
  steady continues (WebTrafficGenerator.run_uncollected lib selected_websites script k).
Proof.
  revert k. induction selected_websites as [| website rest IH]; intros k; simpl;
    frame_auto.
Qed.

Hint Resolve continues_basic_run_batch continues_basic_run_uncollected : frame.

Lemma continues_basic_run_pool selected_websites win :
  steady continues (WebTrafficGenerator.run_pool lib selected_websites win).
Proof. unfold WebTrafficGenerator.run_pool. frame_auto. Qed.

Hint Resolve continues_basic_run_pool : frame.

Lemma continues_basic_run_minute requests_per_minute win :
  steady continues (WebTrafficGenerator.run_minute lib config requests_per_minute win).
Proof.
  unfold WebTrafficGenerator.run_minute, WebTrafficGenerator.dispatch_minute,
    wait_rest_of_minute.
  frame_auto.
Qed.

Hint Resolve continues_basic_run_minute : frame.

Lemma continues_basic_scheduling_loop fuel requests_per_minute end_time windows i :
  steady continues
    (WebTrafficGenerator.scheduling_loop lib config fuel requests_per_minute
       end_time windows i).
Proof.
  revert i. induction fuel as [| fuel IH]; intros i; simpl; frame_auto.
  all: intros w; reflexivity.
Qed.

(** *** One pass of the loop *)

Lemma advanced_run_minute_completes mix requests_per_minute win w t w1 :
  AdvancedWebTrafficSimulator.dispatch_minute lib config mix requests_per_minute win w
  = (Returns t, w1) ->
  AdvancedWebTrafficSimulator.interrupt win = None ->
  AdvancedWebTrafficSimulator.run_minute lib config mix requests_per_minute win w
  = (Returns tt,
     logged (Info (MinuteCompleted
                     (py_int (inject_Z requests_per_minute
                              * AdvancedWebTrafficSimulator.normal_share mix))
                     (py_int (inject_Z requests_per_minute
                              * AdvancedWebTrafficSimulator.compromised_share mix))
                     (py_int (inject_Z requests_per_minute
                              * AdvancedWebTrafficSimulator.malicious_share mix))))
       (if Qlt_le_dec (clock w1 - t) 60 then slept (60 - (clock w1 - t)) w1 else w1)).
Proof.
  intros D Hint. unfold AdvancedWebTrafficSimulator.run_minute.
  rewrite (bind_returns _ _ _ D). rewrite Hint.
  rewrite (bind_returns _ _ _ (wait_rest_of_minute_run t w1)).
  reflexivity.
Qed.

Lemma basic_run_minute_completes requests_per_minute win w t w1 :
  WebTrafficGenerator.dispatch_minute lib config requests_per_minute win w
  = (Returns t, w1) ->
  WebTrafficGenerator.interrupt win = None ->
  WebTrafficGenerator.run_minute lib config requests_per_minute win w
  = (Returns tt,
     logged (Info (CompletedMinute (request_count w1)))
       (if Qlt_le_dec (clock w1 - t) 60 then slept (60 - (clock w1 - t)) w1 else w1)).
Proof.
  intros D Hint. unfold WebTrafficGenerator.run_minute.
  rewrite (bind_returns _ _ _ D). rewrite Hint.
  rewrite (bind_returns _ _ _ (wait_rest_of_minute_run t w1)).
  unfold bind, WebTrafficGenerator.get_request_count, emit, logged.
  destruct (Qlt_le_dec (clock w1 - t) 60); reflexivity.
Qed.

(** The trace at the start of the next window: the records of the
    batch, the sleep if there was one, and the line that closes the
    minute. *)
Lemma trace_after_the_minute line elapsed w1 :
  trace (logged line (if Qlt_le_dec elapsed 60 then slept (60 - elapsed) w1 else w1))
  = (trace w1 ++ (if Qlt_le_dec elapsed 60 then [Sleep (60 - elapsed)] else [])
     ++ [line])%list.
Proof.
  unfold logged, slept. destruct (Qlt_le_dec elapsed 60); cbn [trace].
  - rewrite <- app_assoc. reflexivity.
  - reflexivity.
Qed.

(** C1. In both schedulers, when the loop enters window [i] before the
    end time, the batch of the window completes (leaving the world
    [w1]) and no signal arrives: the elapsed time is measured from the
    start of the window; if it is less than 60 seconds, the next record
    of the run after those of the batch is a sleep of exactly
    [60 - elapsed] seconds, followed by the line that closes the
    minute; if it is 60 seconds or more, the closing line follows the
    batch at once, without any sleep.  Everything else the run does
    comes after that line: it is what the loop does from window [i + 1]
    on, started in that world, with the clock moved on by the sleep. *)
Theorem window_sleeps_for_the_remainder fuel requests_per_minute end_time i w :
  (clock w < end_time)%Q ->
  (forall (windows : nat -> AdvancedWebTrafficSimulator.Window) t w1,
     AdvancedWebTrafficSimulator.dispatch_minute lib config
       AdvancedWebTrafficSimulator.traffic_composition requests_per_minute
       (windows i) w
     = (Returns t, w1) ->
     AdvancedWebTrafficSimulator.interrupt (windows i) = None ->
     let elapsed := (clock w1 - t)%Q in
     let pause := if Qlt_le_dec elapsed 60 then [Sleep (60 - elapsed)] else [] in
     let line := Info (minute_completed requests_per_minute) in
     let w2 :=
       logged line (if Qlt_le_dec elapsed 60 then slept (60 - elapsed) w1 else w1) in
     let run :=
       AdvancedWebTrafficSimulator.scheduling_loop lib config (S fuel)
         requests_per_minute end_time windows i w in
     t = clock w /\
     (exists rest, trace (snd run) = (trace w1 ++ pause ++ line :: rest)%list) /\
     run = AdvancedWebTrafficSimulator.scheduling_loop lib config fuel
             requests_per_minute end_time windows (S i) w2 /\
     clock w2 = (if Qlt_le_dec elapsed 60 then clock w1 + (60 - elapsed)
                 else clock w1)%Q) /\
  (forall (windows0 : nat -> WebTrafficGenerator.Window) t0 w0,
     WebTrafficGenerator.dispatch_minute lib config requests_per_minute (windows0 i) w
     = (Returns t0, w0) ->
     WebTrafficGenerator.interrupt (windows0 i) = None ->
     let elapsed := (clock w0 - t0)%Q in
     let pause := if Qlt_le_dec elapsed 60 then [Sleep (60 - elapsed)] else [] in
     let line := Info (CompletedMinute (request_count w0)) in
     let w2 :=
       logged line (if Qlt_le_dec elapsed 60 then slept (60 - elapsed) w0 else w0) in
     let run :=
       WebTrafficGenerator.scheduling_loop lib config (S fuel)
         requests_per_minute end_time windows0 i w in
     t0 = clock w /\
     (exists rest, trace (snd run) = (trace w0 ++ pause ++ line :: rest)%list) /\
     run = WebTrafficGenerator.scheduling_loop lib config fuel
             requests_per_minute end_time windows0 (S i) w2 /\
     clock w2 = (if Qlt_le_dec elapsed 60 then clock w0 + (60 - elapsed)
                 else clock w0)%Q).
Proof.
  intros Hnow. split.
  - intros windows t w1 D Hint. cbv zeta.
    assert (Hrun :
              AdvancedWebTrafficSimulator.scheduling_loop lib config (S fuel)
                requests_per_minute end_time windows i w
              = AdvancedWebTrafficSimulator.scheduling_loop lib config fuel
                  requests_per_minute end_time windows (S i)
                  (logged (Info (minute_completed requests_per_minute))
                     (if Qlt_le_dec (clock w1 - t) 60
                      then slept (60 - (clock w1 - t)) w1 else w1))).
    { cbn [AdvancedWebTrafficSimulator.scheduling_loop].
      unfold bind at 1. unfold time_time.
      destruct (Qlt_le_dec (clock w) end_time) as [_ | Hge]; [| exfalso; lra].
      rewrite (bind_returns _ _ _ (advanced_run_minute_completes _ _ _ _ _ _ D Hint)).
      reflexivity. }
    split; [apply (SummaryFacts.dispatch_minute_returns _ _ _ _ _ _ _ _ D) |].
    split; [| split; [exact Hrun |]].
    + rewrite Hrun.
      match goal with
      | |- context [AdvancedWebTrafficSimulator.scheduling_loop _ _ _ _ _ _ _ ?w2] =>
          destruct (continues_scheduling_loop fuel requests_per_minute end_time
                      windows (S i) w2) as [rest Hrest]
      end.
      exists rest. rewrite Hrest, trace_after_the_minute.
      rewrite <- !app_assoc. reflexivity.
    + unfold logged, slept. destruct (Qlt_le_dec (clock w1 - t) 60); reflexivity.
  - intros windows0 t0 w0 D Hint. cbv zeta.
    assert (Hrun :
              WebTrafficGenerator.scheduling_loop lib config (S fuel)
                requests_per_minute end_time windows0 i w
              = WebTrafficGenerator.scheduling_loop lib config fuel
                  requests_per_minute end_time windows0 (S i)
                  (logged (Info (CompletedMinute (request_count w0)))
                     (if Qlt_le_dec (clock w0 - t0) 60
                      then slept (60 - (clock w0 - t0)) w0 else w0))).
    { cbn [WebTrafficGenerator.scheduling_loop].
      unfold bind at 1. unfold time_time.
      destruct (Qlt_le_dec (clock w) end_time) as [_ | Hge]; [| exfalso; lra].
      rewrite (bind_returns _ _ _ (basic_run_minute_completes _ _ _ _ _ D Hint)).
      reflexivity. }
    split; [apply (basic_dispatch_minute_returns _ _ _ _ _ _ _ D) |].
    split; [| split; [exact Hrun |]].
    + rewrite Hrun.
      match goal with
      | |- context [WebTrafficGenerator.scheduling_loop _ _ _ _ _ _ _ ?w2] =>
          destruct (continues_basic_scheduling_loop fuel requests_per_minute end_time
                      windows0 (S i) w2) as [rest Hrest]
      end.
      exists rest. rewrite Hrest, trace_after_the_minute.
      rewrite <- !app_assoc. reflexivity.
    + unfold logged, slept. destruct (Qlt_le_dec (clock w0 - t0) 60); reflexivity.
Qed.

(** After the sleep the clock stands exactly one minute after the start
    of the window. *)
Lemma slept_until_the_minute minute_start w :
  (clock w - minute_start < 60)%Q ->
  (clock (slept (60 - (clock w - minute_start)) w) == minute_start + 60)%Q.
Proof. intros _. unfold slept. cbn [clock]. ring. Qed.

End Windows.

Lemma window_sleeps_for_the_remainder_witness :
  let w := initial_world 100 in
  let windows := fun _ : nat => window_with (Answers (mkResponse 200)) 5 None in
  let windows0 := fun _ : nat => basic_window_with (Answers (mkResponse 200)) 70 None in
  let d :=
    AdvancedWebTrafficSimulator.dispatch_minute sample_platform sample_config
      AdvancedWebTrafficSimulator.traffic_composition 2 (windows 0%nat) w in
  let d0 :=
    WebTrafficGenerator.dispatch_minute sample_platform sample_config 2
      (windows0 0%nat) w in
  (clock w < 1000)%Q /\
  (d = (Returns 100%Q, snd d) /\
   clock (snd d) = 105%Q /\
   exists rest,
     trace (snd (AdvancedWebTrafficSimulator.scheduling_loop sample_platform
                   sample_config 1 2 1000 windows 0 w))
     = (trace (snd d) ++ [Sleep 55] ++ Info (minute_completed 2) :: rest)%list) /\
  (d0 = (Returns 100%Q, snd d0) /\
   clock (snd d0) = 170%Q /\
   exists rest,
     trace (snd (WebTrafficGenerator.scheduling_loop sample_platform
                   sample_config 1 2 1000 windows0 0 w))
     = (trace (snd d0) ++ [] ++ Info (CompletedMinute 2) :: rest)%list).
Proof.
  cbv zeta.
  assert (Hnow : (clock (initial_world 100) < 1000)%Q) by reflexivity.
  assert (D : AdvancedWebTrafficSimulator.dispatch_minute sample_platform
                sample_config AdvancedWebTrafficSimulator.traffic_composition 2
                (window_with (Answers (mkResponse 200)) 5 None) (initial_world 100)
              = (Returns 100%Q,
                 snd (AdvancedWebTrafficSimulator.dispatch_minute sample_platform
                        sample_config AdvancedWebTrafficSimulator.traffic_composition
                        2 (window_with (Answers (mkResponse 200)) 5 None)
                        (initial_world 100))))
    by (vm_compute; reflexivity).
  assert (D0 : WebTrafficGenerator.dispatch_minute sample_platform sample_config 2
                 (basic_window_with (Answers (mkResponse 200)) 70 None)
                 (initial_world 100)
               = (Returns 100%Q,
                  snd (WebTrafficGenerator.dispatch_minute sample_platform
                         sample_config 2
                         (basic_window_with (Answers (mkResponse 200)) 70 None)
                         (initial_world 100))))
    by (vm_compute; reflexivity).
  pose proof (window_sleeps_for_the_remainder sample_platform sample_config
                0 2 1000 0 (initial_world 100) Hnow) as [Ha Hb].
  split; [exact Hnow |]. split.
  - split; [exact D |]. split; [reflexivity |].
    exact (proj1 (proj2
      (Ha (fun _ => window_with (Answers (mkResponse 200)) 5 None) 100%Q _ D
          eq_refl))).
  - split; [exact D0 |]. split; [reflexivity |].
    exact (proj1 (proj2
      (Hb (fun _ => basic_window_with (Answers (mkResponse 200)) 70 None) 100%Q _ D0
          eq_refl))).
Defined.

End WindowFacts.

(** ** The connectivity test *)

Module ConnectivityFacts.

Import FrameFacts CountFacts SessionBounds BasicFacts ConnectivityTest.

Lemma accessible_answer net :
  accessible (match answer net with Answers r => Some r | Fails => None end)
  = answers_200 net.
Proof.
  unfold accessible, answers_200, falsy, Response_ok.
  destruct (answer net) as [r|]; [| reflexivity].
  destruct (status_code r =? 200) eqn:E; [| apply andb_false_r].
  apply Z.eqb_eq in E. rewrite E. reflexivity.
Qed.

Lemma count_200_positive replies k n :
  0 < count_200 replies k n <->
  exists i, (k <= i < k + n)%nat /\ answers_200 (replies i) = true.
Proof.
  revert k. induction n as [| n IH]; intros k; cbn [count_200].
  - split; [lia | intros (i & Hi & _); lia].
  - assert (Hnonneg : forall k', 0 <= count_200 replies k' n).
    { clear. induction n as [| n IH]; intros k'; cbn [count_200]; [lia |].
      specialize (IH (S k')). destruct (answers_200 (replies k')); lia. }
    split.
    + destruct (answers_200 (replies k)) eqn:E.
      * intros _. exists k. split; [lia | exact E].
      * intros H. apply IH in H. destruct H as (i & Hi & Hok).
        exists i. split; [lia | exact Hok].
    + intros (i & Hi & Hok).
      destruct (Nat.eq_dec i k) as [-> | Hne].
      * rewrite Hok. specialize (Hnonneg (S k)). lia.
      * assert (0 < count_200 replies (S k) n)
          by (apply IH; exists i; split; [lia | exact Hok]).
        destruct (answers_200 (replies k)); lia.
Qed.

Section Probe.

Context (lib : Platform).

(** The loop under any [make_request] that always returns what the
    network answered and makes exactly one transport call. *)
Lemma probe_all_run (make_request : string -> Reply -> Py (option Response)) :
  (forall site net w,
     fst (make_request site net w)
     = Returns (match answer net with Answers r => Some r | Fails => None end)
     /\ calls (snd (make_request site net w)) = calls w + 1) ->
  forall test_sites replies k successful w,
    let r := probe_all make_request test_sites replies k successful w in
    fst r = Returns (successful + count_200 replies k (List.length test_sites)) /\
    calls (snd r) = calls w + Z.of_nat (List.length test_sites).
Proof.
  intros Hreq test_sites replies. cbv zeta.
  induction test_sites as [| site rest IH]; intros k successful w.
  - simpl. split; [f_equal; lia | lia].
  - cbn [probe_all List.length count_200]. unfold bind.
    destruct (Hreq site (replies k) w) as [Hv Hc].
    destruct (make_request site (replies k) w) as [[response|e|] w1];
      cbn [fst snd] in *; try discriminate.
    injection Hv as ->. rewrite accessible_answer.
    destruct (IH (S k) (if answers_200 (replies k) then successful + 1 else successful)
                 w1) as [Hv' Hc'].
    rewrite Hv', Hc', Hc. split; [| lia].
    f_equal. destruct (answers_200 (replies k)); lia.
Qed.

Lemma test_connectivity_run (make_request : string -> Reply -> Py (option Response))
  size sample_pick replies w :
  (websites lib <> [] ->
   forall site net w,
     fst (make_request site net w)
     = Returns (match answer net with Answers r => Some r | Fails => None end)
     /\ calls (snd (make_request site net w)) = calls w + 1) ->
  0 <= size ->
  let sampled := Z.min size (Z.of_nat (List.length (websites lib))) in
  let r :=
    (test_sites <-
       WebTrafficGenerator.random_sample (websites lib) sampled sample_pick ;;
     successful <- probe_all make_request test_sites replies 0 0 ;;
     ret (0 <? successful)) w in
  exists reachable,
    fst r = Returns reachable /\
    calls (snd r) = calls w + sampled /\
    (reachable = true <->
     exists i, (i < Z.to_nat sampled)%nat /\ answers_200 (replies i) = true).
Proof.
  intros Hreq Hsize. cbv zeta.
  destruct (websites lib) as [| site sites] eqn:W.
  - replace (Z.min size (Z.of_nat (List.length (@nil string)))) with 0
      by (cbn [List.length]; lia).
    exists false. cbn. split; [reflexivity |]. split; [lia |].
    split; [discriminate | intros (i & Hi & _); lia].
  - specialize (Hreq ltac:(discriminate)). rewrite <- W.
    destruct (proj1 (random_sample_run (websites lib)
                       (Z.min size (Z.of_nat (List.length (websites lib))))
                       sample_pick w)) as (l & Hs & Hlen & _); [lia |].
    rewrite (bind_returns _ _ _ Hs).
    destruct (probe_all_run make_request Hreq l replies 0%nat 0 w) as [Hv Hc].
    unfold bind.
    destruct (probe_all make_request l replies 0 0 w) as [[n|e|] w1];
      cbn [fst snd] in *; try discriminate.
    injection Hv as ->. unfold ret. cbn [fst snd].
    eexists. split; [reflexivity |]. split; [lia |].
    rewrite Z.ltb_lt. cbn [Z.add]. rewrite count_200_positive.
    rewrite <- Hlen, Nat2Z.id.
    split; intros (i & Hi & Hok); exists i; (split; [lia | exact Hok]).
Qed.

(** When the first request of the loop raises, so does the test. *)
Lemma test_connectivity_raises (make_request : string -> Reply -> Py (option Response))
  size sample_pick replies w e :
  (forall site net w, make_request site net w = (Raises e, w)) ->
  0 < Z.min size (Z.of_nat (List.length (websites lib))) ->
  (test_sites <-
     WebTrafficGenerator.random_sample (websites lib)
       (Z.min size (Z.of_nat (List.length (websites lib)))) sample_pick ;;
   successful <- probe_all make_request test_sites replies 0 0 ;;
   ret (0 <? successful)) w
  = (Raises e, w).
Proof.
  intros Hreq Hsize.
  destruct (proj1 (random_sample_run (websites lib)
                     (Z.min size (Z.of_nat (List.length (websites lib))))
                     sample_pick w)) as (l & Hs & Hlen & _); [lia |].
  rewrite (bind_returns _ _ _ Hs).
  destruct l as [| site rest]; [cbn [List.length] in Hlen; lia |].
  cbn [probe_all]. unfold bind. rewrite Hreq. reflexivity.
Qed.

(** X8. [AdvancedWebTrafficSimulator.test_connectivity], with a user
    agent to choose from or no website to probe: it returns after
    exactly [min(15, len(websites))] transport calls, and its result is
    [True] exactly when one of these requests is answered with status
    200.  Without a user agent the first probe raises [IndexError], and
    so does the test, before anything is sent. *)
Theorem advanced_test_connectivity_probes_a_sample sample_pick replies w :
  let sampled := Z.min 15 (Z.of_nat (List.length (websites lib))) in
  let r := advanced_test_connectivity lib sample_pick replies w in
  if agent_drawn lib || (sampled =? 0) then
    exists reachable,
      fst r = Returns reachable /\
      calls (snd r) = calls w + sampled /\
      (reachable = true <->
       exists i, (i < Z.to_nat sampled)%nat /\ answers_200 (replies i) = true)
  else r = (Raises IndexError, w).
Proof.
  cbv zeta.
  destruct (agent_drawn lib || _) eqn:C.
  - apply (test_connectivity_run
             (fun site => AdvancedWebTrafficSimulator.make_request lib site "GET" "test")
             15 sample_pick replies w); [| lia].
    intros Hsites site net w0.
    assert (Hd : headers_drawn lib net = true).
    { apply RequestFacts.headers_drawn_filled; [| exact Hsites].
      apply orb_true_iff in C. destruct C as [C | C].
      - unfold agent_drawn in C. destruct (user_agents lib); discriminate.
      - apply Z.eqb_eq in C. destruct (websites lib); [contradiction |].
        cbn [List.length] in C. lia. }
    split.
    + apply RequestFacts.make_request_value, Hd.
    + rewrite calls_make_request, Hd. reflexivity.
  - apply orb_false_iff in C. destruct C as [Hua Hsampled].
    apply Z.eqb_neq in Hsampled.
    apply (test_connectivity_raises
             (fun site => AdvancedWebTrafficSimulator.make_request lib site "GET" "test")
             15 sample_pick replies w); [| lia].
    intros site net w0. apply RequestFacts.make_request_not_drawn.
    unfold headers_drawn. unfold agent_drawn in Hua. rewrite Hua. reflexivity.
Qed.

(** X9. [WebTrafficGenerator.test_connectivity], with a user agent to
    choose from or no website to probe: it returns after exactly
    [min(10, len(websites))] transport calls, and its result is [True]
    exactly when one of these requests is answered with status 200.
    Without a user agent the first probe raises [IndexError], and so
    does the test, before anything is sent.  The statistics stay as
    they are in every case. *)
Theorem basic_test_connectivity_probes_a_sample sample_pick replies w :
  let sampled := Z.min 10 (Z.of_nat (List.length (websites lib))) in
  let r := basic_test_connectivity lib sample_pick replies w in
  session_stats (snd r) = session_stats w /\
  if agent_drawn lib || (sampled =? 0) then
    exists reachable,
      fst r = Returns reachable /\
      calls (snd r) = calls w + sampled /\
      (reachable = true <->
       exists i, (i < Z.to_nat sampled)%nat /\ answers_200 (replies i) = true)
  else r = (Raises IndexError, w).
Proof.
  cbv zeta. split.
  - unfold basic_test_connectivity.
    assert (Hq : forall site net w0,
               session_stats (snd (WebTrafficGenerator.make_request lib site "GET"
                                     net w0)) = session_stats w0).
    { intros site net w0. destruct (agent_drawn lib) eqn:Hd.
      - destruct (SessionFacts.basic_make_request_run lib site "GET" net w0 Hd)
          as (e & -> & _). reflexivity.
      - rewrite (SessionFacts.basic_make_request_not_drawn lib site "GET" net w0 Hd).
        reflexivity. }
    assert (Hp : forall l k n w0,
               session_stats (snd (probe_all
                 (fun site => WebTrafficGenerator.make_request lib site "GET")
                 l replies k n w0)) = session_stats w0).
    { induction l as [| site rest IH]; intros k n w0; [reflexivity |].
      cbn [probe_all]. unfold bind. specialize (Hq site (replies k) w0).
      destruct (WebTrafficGenerator.make_request lib site "GET" (replies k) w0)
        as [[response|e|] w1]; cbn [snd] in *; try exact Hq.
      rewrite IH. exact Hq. }
    unfold bind.
    pose proof (steady_random_sample eq (websites lib)
                  (Z.min 10 (Z.of_nat (List.length (websites lib)))) sample_pick w)
      as Hw.
    destruct (WebTrafficGenerator.random_sample _ _ _ w) as [[l|e|] w0];
      cbn [snd] in Hw; subst w0; try reflexivity.
    specialize (Hp l 0%nat 0 w).
    destruct (probe_all _ l replies 0 0 w) as [[n|e|] w1]; exact Hp.
  - destruct (agent_drawn lib || _) eqn:C.
    + apply (test_connectivity_run
               (fun site => WebTrafficGenerator.make_request lib site "GET")
               10 sample_pick replies w); [| lia].
      intros Hsites site net w0.
      assert (Hd : agent_drawn lib = true).
      { apply orb_true_iff in C. destruct C as [C | C]; [exact C |].
        apply Z.eqb_eq in C. destruct (websites lib); [contradiction |].
        cbn [List.length] in C. lia. }
      destruct (SessionFacts.basic_make_request_run lib site "GET" net w0 Hd)
        as (e & Hrun & _).
      split; [rewrite Hrun; reflexivity |].
      rewrite basic_calls_make_request, Hd. reflexivity.
    + apply orb_false_iff in C. destruct C as [Hua Hsampled].
      apply Z.eqb_neq in Hsampled.
      apply (test_connectivity_raises
               (fun site => WebTrafficGenerator.make_request lib site "GET")
               10 sample_pick replies w); [| lia].
      intros site net w0. apply SessionFacts.basic_make_request_not_drawn, Hua.
Qed.

End Probe.

End ConnectivityFacts.

(** ** Durations *)

Module DurationFacts.

Import BrowseSim.

Lemma split_last_cons a b s :
  split_last (String a (String b s))
  = match split_last (String b s) with
    | Some (front, last) => Some (String a front, last)
    | None => None
    end.
Proof. reflexivity. Qed.

Lemma split_last_some a s : split_last (String a s) <> None.
Proof.
  revert a. induction s as [| b s IH]; intros a; [discriminate |].
  rewrite split_last_cons. specialize (IH b).
  destruct (split_last (String b s)) as [[f l]|]; [discriminate | contradiction].
Qed.

Lemma split_last_app s c : split_last (s ++ String c "") = Some (s, c).
Proof.
  induction s as [| a s IH]; [reflexivity |].
  cbn [append split_last]. rewrite IH.
  destruct (s ++ String c "") eqn:E; [| reflexivity].
  destruct s; discriminate E.
Qed.

Lemma split_last_spec s front last :
  split_last s = Some (front, last) -> s = front ++ String last "".
Proof.
  revert front. induction s as [| a s IH]; intros front H; [discriminate |].
  destruct s as [| b s'].
  - injection H as <- <-. reflexivity.
  - rewrite split_last_cons in H.
    destruct (split_last (String b s')) as [[f l]|]; [| discriminate].
    injection H as <- <-. cbn [append]. f_equal. apply IH. reflexivity.
Qed.

Lemma str_lower_app s s' : str_lower (s ++ s') = str_lower s ++ str_lower s'.
Proof. induction s as [| a s IH]; [reflexivity |]. simpl. rewrite IH. reflexivity. Qed.

Lemma digit_cases c :
  is_digit c = true -> In c ["0"; "1"; "2"; "3"; "4"; "5"; "6"; "7"; "8"; "9"]%char.
Proof.
  destruct c as [[|] [|] [|] [|] [|] [|] [|] [|]]; intros H;
    try discriminate H; simpl; tauto.
Qed.

Lemma lower_char_digit c : is_digit c = true -> lower_char c = c.
Proof.
  intros H. apply digit_cases in H. simpl in H.
  repeat (destruct H as [<- | H]; [reflexivity |]). destruct H.
Qed.

Lemma str_lower_digits s : all_digits s = true -> str_lower s = s.
Proof.
  induction s as [| a s IH]; [reflexivity |]. cbn [all_digits str_lower].
  intros H. apply andb_true_iff in H. destruct H as [Ha Hs].
  rewrite lower_char_digit, IH by assumption. reflexivity.
Qed.

(** Lowering a character makes a digit of digits only. *)
Lemma is_digit_lower c : is_digit (lower_char c) = is_digit c.
Proof. destruct c as [[|] [|] [|] [|] [|] [|] [|] [|]]; reflexivity. Qed.

Lemma all_digits_lower s : all_digits (str_lower s) = all_digits s.
Proof.
  induction s as [| a s IH]; [reflexivity |]. cbn [all_digits str_lower].
  rewrite is_digit_lower, IH. reflexivity.
Qed.

Lemma is_unit_lower c : is_unit (lower_char c) = true <-> In c unit_letters.
Proof.
  destruct c as [[|] [|] [|] [|] [|] [|] [|] [|]];
    (split; [intros H; try discriminate H; simpl; tauto |]);
    intros H; simpl in H;
    repeat (destruct H as [H | H]; [try discriminate H; reflexivity |]);
    destruct H.
Qed.

Lemma str_lower_empty s : str_lower s = "" <-> s = "".
Proof. destruct s; split; intros H; try reflexivity; discriminate H. Qed.

(** [fullmatch] after [lower]: exactly the digit strings followed by a
    unit letter of either case. *)
Lemma fullmatch_lower dur value unit :
  fullmatch (str_lower dur) = Some (value, unit) <->
  exists unit', dur = value ++ String unit' "" /\ value <> "" /\
                all_digits value = true /\ In unit' unit_letters /\
                unit = lower_char unit'.
Proof.
  unfold fullmatch. split.
  - destruct (split_last (str_lower dur)) as [[v u]|] eqn:E; [| discriminate].
    destruct (negb (v =? "")%string && all_digits v && is_unit u) eqn:C;
      [| discriminate].
    intros H. injection H as -> ->.
    apply andb_true_iff in C. destruct C as [C Hu].
    apply andb_true_iff in C. destruct C as [Hne Hd].
    apply negb_true_iff, String.eqb_neq in Hne.
    destruct (split_last dur) as [[v' u']|] eqn:E'.
    + apply split_last_spec in E'. subst dur.
      rewrite str_lower_app in E. cbn [str_lower] in E.
      rewrite split_last_app in E. injection E as <- <-.
      rewrite all_digits_lower in Hd.
      exists u'. rewrite (str_lower_digits v' Hd) in *.
      repeat split; try assumption. apply is_unit_lower. exact Hu.
    + destruct dur; [discriminate E |].
      exfalso. exact (split_last_some _ _ E').
  - intros (unit' & -> & Hne & Hd & Hu & ->).
    rewrite str_lower_app. cbn [str_lower]. rewrite split_last_app.
    rewrite (str_lower_digits value Hd), Hd.
    apply String.eqb_neq in Hne. rewrite Hne.
    apply is_unit_lower in Hu. rewrite Hu. reflexivity.
Qed.

Lemma uint_of_string_digits s :
  all_digits s = true -> exists d, DecimalString.NilEmpty.uint_of_string s = Some d.
Proof.
  induction s as [| a s IH]; [intros _; eexists; reflexivity |].
  cbn [all_digits]. intros H. apply andb_true_iff in H. destruct H as [Ha Hs].
  destruct (IH Hs) as (d & Hd). cbn [DecimalString.NilEmpty.uint_of_string].
  rewrite Hd. apply digit_cases in Ha. simpl in Ha.
  repeat (destruct Ha as [<- | Ha]; [eexists; reflexivity |]). destruct Ha.
Qed.

Lemma all_digits_string_of_uint d :
  all_digits (DecimalString.NilEmpty.string_of_uint d) = true.
Proof. induction d; simpl; auto. Qed.

Lemma str_digits n : all_digits (str n) = true.
Proof. apply all_digits_string_of_uint. Qed.

Lemma str_nonempty n : str n <> "".
Proof.
  unfold str. destruct (Z.to_N n) as [| p]; [discriminate |].
  cbn [N.to_uint].
  pose proof (DecimalPos.Unsigned.to_uint_nonnil p) as H.
  destruct (Pos.to_uint p); try discriminate. contradiction.
Qed.

Lemma int_of_str_str n :
  0 <= n -> (String.length (str n) <= int_max_str_digits)%nat ->
  int_of_str (str n) = Return n.
Proof.
  intros Hn Hlen. unfold int_of_str.
  destruct (int_max_str_digits <? String.length (str n))%nat eqn:E;
    [apply Nat.ltb_lt in E; lia |].
  pose proof (str_nonempty n) as Hne. apply String.eqb_neq in Hne. rewrite Hne.
  unfold str.
  rewrite DecimalString.NilEmpty.usu, DecimalN.Unsigned.of_to, Z2N.id by assumption.
  reflexivity.
Qed.

Lemma int_of_str_cases value :
  value <> "" -> all_digits value = true ->
  ((int_max_str_digits < String.length value)%nat
   /\ int_of_str value = Raise ValueError)
  \/ exists n, int_of_str value = Return n.
Proof.
  intros Hne Hd. unfold int_of_str.
  destruct (int_max_str_digits <? String.length value)%nat eqn:El;
    [left; apply Nat.ltb_lt in El; auto | right].
  apply String.eqb_neq in Hne. rewrite Hne.
  destruct (uint_of_string_digits value Hd) as (d & ->). eauto.
Qed.

Lemma unit_branch unit' (value : Z) :
  In unit' unit_letters ->
  (if (lower_char unit' =? "s")%char then timedelta value
   else if (lower_char unit' =? "m")%char then timedelta (value * 60)
   else if (lower_char unit' =? "h")%char then timedelta (value * 3600)
   else Raise ValueError)
  = timedelta (value * seconds_per unit').
Proof.
  intros H. simpl in H.
  repeat (destruct H as [<- | H];
          [cbn; rewrite ?Z.mul_1_r; reflexivity |]).
  destruct H.
Qed.

(** A match is turned into the span the digits and the unit stand for. *)
Lemma parse_duration_of_a_match value unit :
  value <> "" -> all_digits value = true -> In unit unit_letters ->
  parse_duration (value ++ String unit "")
  = match int_of_str value with
    | Return n => timedelta (n * seconds_per unit)
    | Raise e => Raise e
    end.
Proof.
  intros Hne Hd Hu. unfold parse_duration.
  rewrite (proj2 (fullmatch_lower (value ++ String unit "") value (lower_char unit)))
    by (exists unit; auto).
  destruct (int_of_str value) as [n | e]; [| reflexivity].
  apply unit_branch. exact Hu.
Qed.

(** X14. For an integer [n >= 0] whose decimal numeral is within the
    digit limit of [int] and a unit letter in either case,
    [parse_duration(str(n) + unit)] is the span of [n] seconds, minutes
    or hours, or [OverflowError] when that span is beyond the longest
    [timedelta]. *)
Theorem parse_duration_round_trip n unit :
  0 <= n ->
  (String.length (str n) <= int_max_str_digits)%nat ->
  In unit unit_letters ->
  parse_duration (str n ++ String unit "")
  = (if n * seconds_per unit <=? timedelta_max
     then Return (n * seconds_per unit)
     else Raise OverflowError).
Proof.
  intros Hn Hlen Hu.
  rewrite parse_duration_of_a_match;
    [| apply str_nonempty | apply str_digits | exact Hu].
  rewrite int_of_str_str by assumption. unfold timedelta.
  rewrite Z.ltb_antisym. destruct (n * seconds_per unit <=? timedelta_max); reflexivity.
Qed.

(** X15. [parse_duration] raises [ArgumentTypeError] exactly on the
    inputs that are not a non-empty run of digits followed by one of
    the letters s, m, h, S, M, H; and the only [ValueError] it can
    raise is the one of [int] on more digits than the limit, so that
    its last statement, [raise ValueError("Invalid duration unit")],
    is never reached. *)
Theorem parse_duration_failures dur :
  (parse_duration dur = Raise ArgumentTypeError <->
   ~ exists value unit,
       dur = value ++ String unit "" /\ value <> "" /\
       all_digits value = true /\ In unit unit_letters) /\
  (parse_duration dur = Raise ValueError ->
   exists value unit,
     dur = value ++ String unit "" /\ all_digits value = true /\
     (int_max_str_digits < String.length value)%nat).
Proof.
  assert (Hmatch : forall value unit,
            fullmatch (str_lower dur) = Some (value, unit) ->
            exists unit', dur = value ++ String unit' "" /\ value <> "" /\
                          all_digits value = true /\ In unit' unit_letters).
  { intros value unit H. apply fullmatch_lower in H.
    destruct H as (unit' & H1 & H2 & H3 & H4 & _). eauto 6. }
  split; [split |].
  - intros H (value & unit & -> & Hne & Hd & Hu).
    rewrite parse_duration_of_a_match in H by assumption.
    destruct (int_of_str_cases value Hne Hd) as [[_ E] | (n & E)]; rewrite E in H.
    + discriminate H.
    + unfold timedelta in H. destruct (timedelta_max <? _); discriminate H.
  - intros H. unfold parse_duration.
    destruct (fullmatch (str_lower dur)) as [[value unit]|] eqn:E; [| reflexivity].
    exfalso. apply H. destruct (Hmatch _ _ eq_refl) as (unit' & H'). eauto.
  - unfold parse_duration.
    destruct (fullmatch (str_lower dur)) as [[value unit]|] eqn:E; [| discriminate].
    clear Hmatch. apply fullmatch_lower in E.
    destruct E as (unit' & -> & Hne & Hd & Hu & ->).
    destruct (int_of_str_cases value Hne Hd) as [[Hl Ei] | (n & Ei)]; rewrite Ei.
    + intros _. exists value, unit'. auto.
    + rewrite unit_branch by assumption. unfold timedelta.
      destruct (timedelta_max <? _); discriminate.
Qed.

Lemma parse_duration_round_trip_witness :
  0 <= 30 /\ (String.length (str 30) <= int_max_str_digits)%nat /\
  In "M"%char unit_letters /\
  parse_duration (str 30 ++ String "M" "")
  = (if 30 * seconds_per "M" <=? timedelta_max
     then Return (30 * seconds_per "M")
     else Raise OverflowError).
Proof.
  assert (H0 : 0 <= 30) by lia.
  assert (H1 : (String.length (str 30) <= int_max_str_digits)%nat)
    by (apply Nat.leb_le; reflexivity).
  assert (H2 : In "M"%char unit_letters) by (simpl; tauto).
  split; [exact H0 |]. split; [exact H1 |]. split; [exact H2 |].
  exact (parse_duration_round_trip 30 "M" H0 H1 H2).
Defined.

End DurationFacts.

(** ** Site lists *)

Module LoadFacts.

Import BrowseSim.

Lemma read_sites_filter lines sites :
  read_sites lines sites = (sites ++ filter is_site (map strip lines))%list.
Proof.
  revert sites. induction lines as [| line rest IH]; intros sites.
  - simpl. rewrite app_nil_r. reflexivity.
  - cbn [read_sites map filter]. rewrite !IH.
    change (is_site (strip line))
      with (negb ((strip line =? "")%string || is_comment (strip line))).
    destruct ((strip line =? "")%string || is_comment (strip line)); cbn [negb].
    + reflexivity.
    + rewrite <- app_assoc. reflexivity.
Qed.

(** X16. [load_sites] on an existing file returns, in some order, the
    stripped lines of the file that are neither empty nor comments,
    each as often as it occurs, and logs nothing; no site it returns is
    empty or starts with "#". *)
Theorem load_sites_keeps_the_sites path lines draw :
  exists sites,
    load_sites path (Some lines) draw = (Return sites, []) /\
    Permutation sites (filter is_site (map strip lines)) /\
    Forall (fun site => site <> "" /\ is_comment site = false) sites.
Proof.
  unfold load_sites, sim_ret. eexists. split; [reflexivity |].
  rewrite read_sites_filter. cbn [app].
  assert (Hperm : Permutation (random_shuffle draw (filter is_site (map strip lines)))
                              (filter is_site (map strip lines)))
    by apply PlannerFacts.random_shuffle_permutation.
  split; [exact Hperm |].
  apply Forall_forall. intros site Hin.
  apply (Permutation_in _ Hperm) in Hin. apply filter_In in Hin.
  destruct Hin as [_ Hsite]. unfold is_site in Hsite.
  apply negb_true_iff, orb_false_iff in Hsite. destruct Hsite as [Hne Hc].
  split; [apply String.eqb_neq; exact Hne | exact Hc].
Qed.

(** Without the file there is a warning and no site. *)
Lemma load_sites_without_file path draw :
  exists warning, load_sites path None draw = (Return [], [warning]).
Proof. eexists. reflexivity. Qed.

End LoadFacts.

(** ** What a run of [browse_sim.py] does and does not do *)

Module SimFacts.

Import BrowseSim.

Lemma events_app p t t' : events p (t ++ t') = events p t + events p t'.
Proof. unfold events. rewrite filter_app, length_app. lia. Qed.

Lemma events_nonneg p t : 0 <= events p t.
Proof. unfold events. lia. Qed.

Lemma sim_bind_trace {A B} (c : Sim A) (k : A -> Sim B) :
  snd (sim_bind c k)
  = match fst c with
    | Return a => (snd c ++ snd (k a))%list
    | Raise _ => snd c
    end.
Proof.
  destruct c as [[a | e] t]; cbn [sim_bind fst snd]; [| reflexivity].
  destruct (k a). reflexivity.
Qed.

Lemma sim_bind_outcome {A B} (c : Sim A) (k : A -> Sim B) :
  fst (sim_bind c k)
  = match fst c with
    | Return a => fst (k a)
    | Raise e => Raise e
    end.
Proof.
  destruct c as [[a | e] t]; cbn [sim_bind fst snd]; [| reflexivity].
  destruct (k a). reflexivity.
Qed.

Section Avoids.

Context (p : Event -> bool).

Lemma avoids_ret {A} (a : A) : avoids p (sim_ret a).
Proof. reflexivity. Qed.

Lemma avoids_raise {A} e : avoids p (@sim_raise A e).
Proof. reflexivity. Qed.

Lemma avoids_call e failure : p e = false -> avoids p (call e failure).
Proof.
  intros He. unfold avoids, call, events.
  destruct failure; simpl; rewrite He; reflexivity.
Qed.

Lemma avoids_log level message extra : p (Log level message extra) = false ->
  avoids p (log level message extra).
Proof. intros He. unfold avoids, log, events. simpl. rewrite He. reflexivity. Qed.

Lemma avoids_bind {A B} (c : Sim A) (k : A -> Sim B) :
  avoids p c -> (forall a, avoids p (k a)) -> avoids p (sim_bind c k).
Proof.
  unfold avoids. intros Hc Hk. rewrite sim_bind_trace.
  destruct (fst c) as [a | e]; [| exact Hc].
  rewrite events_app, Hc, (Hk a). reflexivity.
Qed.

Lemma avoids_try_except {A} (body : Sim A) handler :
  avoids p body -> (forall e, avoids p (handler e)) ->
  avoids p (sim_try_except body handler).
Proof.
  unfold avoids, sim_try_except. intros Hb Hh.
  destruct body as [[a | e] t]; cbn [snd] in *; [exact Hb |].
  destruct (is_exception e); [| exact Hb].
  specialize (Hh e). destruct (handler e) as [r t']. cbn [snd] in *.
  rewrite events_app, Hb, Hh. reflexivity.
Qed.

End Avoids.

Create HintDb sim.

#[export] Hint Resolve avoids_ret avoids_raise : sim.
#[export] Hint Extern 1 (avoids _ (call _ _)) => apply avoids_call; reflexivity : sim.
#[export] Hint Extern 1 (avoids _ (log _ _ _)) => apply avoids_log; reflexivity : sim.

Ltac sim_step :=
  match goal with
  | |- _ => solve [auto with sim]
  | |- forall _, _ => intro
  | |- avoids _ (sim_bind _ _) => apply avoids_bind
  | |- avoids _ (sim_try_except _ _) => apply avoids_try_except
  | |- avoids _ (if ?b then _ else _) => destruct b
  end.

Ltac sim_auto := repeat sim_step.

End SimFacts.

(** ** The port scan *)

Module PortScanFacts.

Import BrowseSim SimFacts.

(** What one pass over the ports of a host does, apart from its pauses:
    one attempt after the other on the first ports of the list, each
    with its socket opened before the call to connect and closed after
    it; at least one port is tried. *)
Lemma scan_ports_run ip session_id ports attempts k :
  exists n,
    (n <= List.length ports)%nat /\
    (ports <> [] -> (1 <= n)%nat) /\
    actions (snd (scan_ports ip session_id ports attempts k))
    = List.concat (map (attempt_events ip session_id) (firstn n ports)).
Proof.
  revert k. induction ports as [| port rest IH]; intros k.
  - exists 0%nat. split; [simpl; lia |].
    split; [intros H; contradiction | reflexivity].
  - cbn [scan_ports List.length].
    destruct (IH (S k)) as (n' & Hn' & _ & Hrest).
    destruct (scan_ports ip session_id rest attempts (S k)) as [r t].
    cbn [snd] in Hrest.
    unfold log, call, sim_try_finally, sim_try_except, sim_ret, sim_bind.
    destruct (connect_failure (attempts k)) as [e |];
      [destruct (is_exception e) |];
      cbn [fst snd app];
      repeat match goal with
             | |- context [pause_failure ?a] => destruct (pause_failure a)
             | |- context [timed_out ?a] => destruct (timed_out a)
             end;
      cbn [fst snd app];
      first
        [ exists 1%nat; split; [lia |]; split; [lia |]; reflexivity
        | exists (S n'); split; [lia |]; split; [lia |];
          unfold actions in *; cbn [firstn map List.concat filter is_pause negb app];
          rewrite Hrest; reflexivity ].
Qed.

Lemma scan_events_done target_prefix session_id host_octets :
  scan_events target_prefix session_id host_octets [] = [].
Proof. destruct host_octets; reflexivity. Qed.

Lemma actions_app t t' : actions (t ++ t') = (actions t ++ actions t')%list.
Proof. apply filter_app. Qed.

(** The loop over the hosts, from the [i]-th host of the sample on. *)
Lemma scan_hosts_run target_prefix session_id host_octets attempts i :
  let r := scan_hosts target_prefix session_id host_octets attempts i in
  exists tried : list nat,
    (List.length tried <= List.length host_octets)%nat /\
    (fst r = Return tt -> List.length tried = List.length host_octets) /\
    Forall (fun n => (1 <= n <= 3)%nat) tried /\
    actions (snd r) = scan_events target_prefix session_id host_octets tried.
Proof.
  cbv zeta. revert i.
  induction host_octets as [| host_octet rest IH]; intros i.
  - exists []. split; [simpl; lia |]. split; [reflexivity |].
    split; [constructor | reflexivity].
  - cbn [scan_hosts List.length].
    rewrite sim_bind_trace, sim_bind_outcome.
    destruct (scan_ports_run (target_prefix ++ "." ++ str host_octet) session_id
                [22; 80; 443] (attempts i) 0) as (n & Hn & Hpos & Hports).
    specialize (Hpos ltac:(discriminate)). cbn [List.length] in Hn.
    destruct (scan_ports _ _ _ _ _) as [[[] | e] t]; cbn [fst snd] in *.
    + destruct (IH (S i)) as (tried & Hlen & Hret & Hall & Hrest).
      exists (n :: tried). cbn [List.length scan_events].
      split; [lia |]. split; [intros H; rewrite (Hret H); reflexivity |].
      split; [constructor; [cbv beta; lia | exact Hall] |].
      rewrite actions_app, Hports, Hrest. reflexivity.
    + exists [n]. cbn [List.length scan_events].
      split; [lia |]. split; [discriminate |].
      split; [constructor; [cbv beta; lia | constructor] |].
      rewrite Hports, scan_events_done, app_nil_r. reflexivity.
Qed.

(** X18. However [port_scan] ends, also when it is cancelled, what it
    has done apart from its pauses is a sequence of complete connection
    attempts: for each attempt the line in the log, then the socket is
    opened, then the call to connect on that socket, then the socket is
    closed, before the next attempt begins.  The hosts are scanned in
    the order of the sample, and on each host that is reached the ports
    tried are the first one, two or three of 22, 80, 443, in that
    order; when the scan returns, every host of the sample has been
    reached. *)
Theorem port_scan_closes_every_socket target_prefix session_id host_octets attempts :
  let r := port_scan target_prefix session_id host_octets attempts in
  exists tried : list nat,
    (List.length tried <= List.length host_octets)%nat /\
    (fst r = Return tt -> List.length tried = List.length host_octets) /\
    Forall (fun n => (1 <= n <= 3)%nat) tried /\
    actions (snd r) = scan_events target_prefix session_id host_octets tried.
Proof.
  apply scan_hosts_run.
Qed.

(** A scan of two hosts: the first answers on every port, the second
    lets the first connection time out. *)
Example port_scan_two_hosts :
  let attempts (i k : nat) := mkAttempt None 0 None (0 <? i)%nat in
  actions (snd (port_scan "10.0.0" "s1" [7; 9] attempts))
  = scan_events "10.0.0" "s1" [7; 9] [3; 1]%nat.
Proof. vm_compute. reflexivity. Qed.

End PortScanFacts.

(** ** Browsing a site *)

Module BrowseFacts.

Import BrowseSim SimFacts.

Lemma avoids_scroll_all p height steps :
  (forall y, p (Wheel y) = false) -> (forall s, p (AsyncSleep s) = false) ->
  avoids p (scroll_all height steps).
Proof.
  intros Hw Hs. induction steps as [| s rest IH]; cbn [scroll_all]; sim_auto;
    apply avoids_call; auto.
Qed.

Lemma avoids_page_close_scroll v : avoids is_page_close (human_like_scroll v).
Proof.
  unfold human_like_scroll. sim_auto. apply avoids_scroll_all; reflexivity.
Qed.

Lemma avoids_page_close_click v : avoids is_page_close (random_click v).
Proof. unfold random_click. sim_auto. Qed.

#[local] Hint Resolve avoids_page_close_scroll avoids_page_close_click : sim.

(** X19. [browse_site] and the page: when [context.new_page()] returns,
    the page is closed exactly once, after everything else, whatever
    fails in between, and "navigate_complete" is logged when the close
    succeeds; [browse_site] then returns unless it was cancelled.  When
    [context.new_page()] raises, the [finally] clause finds [page]
    unbound: the call ends with [UnboundLocalError] without
    "navigate_complete", also when the exception had been caught and
    logged as "browse_error". *)
Theorem browse_site_closes_what_it_opened url session_id v :
  let r := browse_site url session_id v in
  match new_page_failure v with
  | None =>
      exists t,
        snd r
        = (navigate url session_id :: NewPage :: t
           ++ PageClose
           :: match close_failure v with
              | None => [navigate_complete url session_id (elapsed v)]
              | Some _ => []
              end)%list /\
        events is_page_close t = 0 /\
        match close_failure v with
        | Some e => fst r = Raise e
        | None =>
            fst r = Return tt \/
            exists e, fst r = Raise e /\ is_exception e = false
        end
  | Some e =>
      r = (Raise UnboundLocalError,
           navigate url session_id :: NewPage
           :: (if is_exception e then [browse_error url session_id] else []))
  end.
Proof.
  cbv zeta. unfold browse_site.
  destruct (new_page_failure v) as [e |].
  - cbn. destruct (is_exception e); reflexivity.
  - cbv zeta. cbn [call fst].
    match goal with
    | |- context [sim_bind (Return tt, [NewPage]) ?k] =>
        assert (Hk : avoids is_page_close (k tt)) by sim_auto;
        unfold sim_bind at 2; destruct (k tt) as [rk tk]
    end.
    unfold avoids in Hk. cbn [snd] in Hk.
    unfold log, sim_bind, sim_try_finally, sim_try_except, call, sim_raise.
    unfold navigate, navigate_complete, browse_error.
    destruct rk as [[] | e]; [| destruct (is_exception e) eqn:Ee];
      destruct (close_failure v) as [c |]; cbn [fst snd app];
      try (exists tk; split; [reflexivity |]; split; [exact Hk |];
           first [reflexivity | left; reflexivity | right; eauto]).
    all: eexists (tk ++ [_])%list; (split; [do 2 f_equal; apply app_assoc |]);
      (split; [rewrite events_app, Hk; reflexivity |]);
      first [reflexivity | left; reflexivity].
Qed.

End BrowseFacts.

(** ** The cycle of sites *)

Module CycleFacts.

Import BrowseSim.

Lemma pop_snoc l url : pop (l ++ [url]) = Return (url, l).
Proof. unfold pop. rewrite rev_app_distr. simpl. rewrite rev_involutive. reflexivity. Qed.

Section Cycle.

Context (benign_sites : list string) (draws : nat -> nat -> nat).

(** Going through a cycle that is not empty: its sites from the last
    to the first, then on with an empty cycle. *)
Lemma visit_cycle site_cycle k m :
  visit_urls benign_sites draws site_cycle k (List.length site_cycle + m)
  = match visit_urls benign_sites draws [] (k + List.length site_cycle) m with
    | Return urls => Return (rev site_cycle ++ urls)%list
    | Raise e => Raise e
    end.
Proof.
  revert k. induction site_cycle as [| url front IH] using rev_ind; intros k.
  - cbn [List.length rev app Nat.add]. rewrite Nat.add_0_r.
    destruct (visit_urls _ _ _ _ _); reflexivity.
  - rewrite length_app. cbn [List.length].
    replace (List.length front + 1 + m)%nat with (S (List.length front + m)) by lia.
    cbn [visit_urls]. unfold next_site.
    destruct (front ++ [url])%list eqn:E; [destruct front; discriminate E |].
    rewrite <- E. clear E. rewrite pop_snoc, IH.
    replace (S k + List.length front)%nat with (k + (List.length front + 1))%nat by lia.
    rewrite rev_app_distr. cbn [rev app].
    destruct (visit_urls _ _ _ _ _); reflexivity.
Qed.

(** An empty cycle is filled again with the shuffled site list. *)
Lemma visit_refill k n :
  benign_sites <> [] ->
  visit_urls benign_sites draws [] k (S n)
  = visit_urls benign_sites draws (random_shuffle (draws k) benign_sites) k (S n).
Proof.
  intros Hne. cbn [visit_urls]. unfold next_site.
  destruct (random_shuffle (draws k) benign_sites) eqn:E; [| reflexivity].
  exfalso. apply Hne. apply Permutation_nil.
  rewrite <- E. apply PlannerFacts.random_shuffle_permutation.
Qed.

Lemma visit_rounds k c :
  benign_sites <> [] ->
  exists rounds,
    visit_urls benign_sites draws [] k (c * List.length benign_sites)
    = Return (List.concat rounds) /\
    List.length rounds = c /\
    Forall (fun round => Permutation round benign_sites) rounds.
Proof.
  intros Hne. revert k. induction c as [| c IH]; intros k.
  - exists []. repeat split. constructor.
  - cbn [Nat.mul].
    destruct (List.length benign_sites) as [| n] eqn:En;
      [destruct benign_sites; [contradiction | discriminate En] |].
    cbn [Nat.add]. rewrite visit_refill by exact Hne.
    pose proof (PlannerFacts.random_shuffle_permutation (draws k) benign_sites) as Hp.
    replace (S (n + c * S n))%nat
      with (List.length (random_shuffle (draws k) benign_sites) + c * S n)%nat
      by (rewrite (Permutation_length Hp), En; reflexivity).
    rewrite visit_cycle.
    destruct (IH (k + List.length (random_shuffle (draws k) benign_sites))%nat)
      as (rounds & -> & Hlen & Hall).
    exists (rev (random_shuffle (draws k) benign_sites) :: rounds).
    repeat split; [simpl; lia |].
    constructor; [| exact Hall].
    rewrite <- Hp at 2. symmetry. apply Permutation_rev.
Qed.

(** X20. With a site list that is not empty, the loop of
    [run_browser_session] visits the sites in rounds: any number of
    full rounds is a sequence of permutations of the site list, so no
    site is visited again before every site has been visited. *)
Theorem site_cycle_visits_every_site c :
  benign_sites <> [] ->
  exists rounds,
    visit_urls benign_sites draws benign_sites 0
               (S c * List.length benign_sites)
    = Return (List.concat rounds) /\
    List.length rounds = S c /\
    Forall (fun round => Permutation round benign_sites) rounds.
Proof.
  intros Hne. cbn [Nat.mul]. rewrite visit_cycle.
  destruct (visit_rounds (0 + List.length benign_sites) c Hne)
    as (rounds & -> & Hlen & Hall).
  exists (rev benign_sites :: rounds).
  repeat split; [simpl; lia |].
  constructor; [| exact Hall]. symmetry. apply Permutation_rev.
Qed.

End Cycle.

(** Without a site the first pass of the loop fails. *)
Lemma empty_site_list_ends_the_session draws n :
  visit_urls [] draws [] 0 (S n) = Raise IndexError.
Proof. reflexivity. Qed.

Lemma site_cycle_visits_every_site_witness :
  ["a"; "b"; "c"] <> [] /\
  exists rounds,
    visit_urls ["a"; "b"; "c"] (fun _ _ => 0%nat) ["a"; "b"; "c"] 0
               (2 * List.length ["a"; "b"; "c"])
    = Return (List.concat rounds) /\
    List.length rounds = 2%nat /\
    Forall (fun round => Permutation round ["a"; "b"; "c"]) rounds.
Proof.
  split; [discriminate |].
  apply (site_cycle_visits_every_site ["a"; "b"; "c"] (fun _ _ => 0%nat) 1).
  discriminate.
Defined.

End CycleFacts.
